(** * torch/_dynamo/variables/torch.py: the operator classifier and the
      conditional-branch speculator, as a shallow embedding.

    [TorchVariable.call_function] is the ordered dispatch over intercepted
    framework operators; [TorchPyOperator.call_function] traces the
    two-way conditional by speculating both branches from a checkpoint.
    Python objects are modelled by value, exceptions by an error result,
    and the mutable trace by explicit state passing. *)

From Stdlib Require Import ZArith QArith Qcanon.
From stdpp Require Import base numbers option list gmap strings pretty.

Set Warnings "-register-all,-clear-no-such-hyp".
Open Scope string_scope.
Open Scope list_scope.

(** ** Tensor element types *)

Inductive Dtype : Type :=
| float16 | bfloat16 | float32 | float64
| uint8 | int32 | int64 | bool_
| complex64 | complex128.

#[global] Instance Dtype_EqDecision : EqDecision Dtype.
Proof. solve_decision. Defined.

Definition dtype_is_floating_point (d : Dtype) : bool :=
  match d with
  | float16 | bfloat16 | float32 | float64 => true
  | _ => false
  end.

Definition dtype_is_complex (d : Dtype) : bool :=
  match d with
  | complex64 | complex128 => true
  | _ => false
  end.

(** ** Exceptions and results

    [unimplemented(msg)] raises the recoverable [Unsupported]; every other
    exception (a failed [assert], an [IndexError], whatever a concrete
    evaluation raises) aborts classification and is [Fatal]. *)

Inductive Exn : Type :=
| AssertionError (msg : string)
| TypeError (msg : string)
| IndexError
| KeyError (key : string)
| AttributeError (attr : string)
| NotImplementedError
| RuntimeError (msg : string).

#[global] Instance Exn_EqDecision : EqDecision Exn.
Proof. solve_decision. Defined.

Inductive Res (A : Type) : Type :=
| Ok (a : A)
| Unsupported (reason : string)
| Fatal (e : Exn).

Arguments Ok {A} a.
Arguments Unsupported {A} reason.
Arguments Fatal {A} e.

(** ** Operator references: the callables a [TorchVariable] points to *)

Inductive TorchFn : Type :=
(* constant_fold_functions *)
| torch__assert
| torch__utils__get_device_index
| torch_cuda_is_available
| torch_device
| torch_distributed_is_available
| torch_finfo
| torch_get_default_dtype
| torch_iinfo
| torch_is_floating_point
| torch_nn_functional__Reduction_get_enum
| torch_distributed_is_initialized
(* type predicates, shape queries *)
| torch_is_tensor
| torch_overrides_is_tensor_like
| torch_is_complex
| torch_numel
| torch_onnx_operators_shape_as_tensor
| torch__shape_as_tensor
(* tuple normalisers of torch.nn.modules.utils *)
| utils__single
| utils__pair
| utils__triple
| utils__quadruple
| utils__ntuple
(* grad mode *)
| torch_no_grad
| torch_enable_grad
| torch_set_grad_enabled
| torch_is_grad_enabled
(* data-dependent output shapes *)
| torch_nonzero
| torch_unique
| torch_unique_consecutive
| torch_where
| torch_arange
| torch_repeat_interleave
(* context managers, misc *)
| torch_amp_autocast_mode_autocast
| torch_profiler_profile
| torch_profiler_record_function
| torch_autograd_profiler_profile
| torch_autograd_profiler_record_function
| torch_autograd__profiler_enabled
| torch_jit_annotate
| torch_backends_cudnn_is_acceptable
| torch_random_set_rng_state
| torch_addcdiv
| torch_div
| torch_mul
| torch_add
| torch_sub
| torch_sqrt
| math_sqrt
| sym_sqrt
| torch_nn_functional_softmax
| torch_nn_functional_cross_entropy
(* nn.Module classes *)
| torch_nn_Softmax
| torch_nn_CrossEntropyLoss
| nn_Module_subclass (name : string)
(* a method bound to a torch._C.Generator *)
| Generator_method (gen : nat) (name : string)
(* keys of tensortype_to_dtype: torch.LongTensor, ... *)
| tensortype (name : string)
(* any other allowed callable *)
| other_fn (module : option string) (name : string).

#[global] Instance TorchFn_EqDecision : EqDecision TorchFn.
Proof. solve_decision. Defined.

(** [value.__name__] *)
Definition fn___name__ (f : TorchFn) : string :=
  match f with
  | torch__assert => "_assert"
  | torch__utils__get_device_index => "_get_device_index"
  | torch_cuda_is_available => "is_available"
  | torch_device => "device"
  | torch_distributed_is_available => "is_available"
  | torch_finfo => "finfo"
  | torch_get_default_dtype => "get_default_dtype"
  | torch_iinfo => "iinfo"
  | torch_is_floating_point => "is_floating_point"
  | torch_nn_functional__Reduction_get_enum => "get_enum"
  | torch_distributed_is_initialized => "is_initialized"
  | torch_is_tensor => "is_tensor"
  | torch_overrides_is_tensor_like => "is_tensor_like"
  | torch_is_complex => "is_complex"
  | torch_numel => "numel"
  | torch_onnx_operators_shape_as_tensor => "shape_as_tensor"
  | torch__shape_as_tensor => "_shape_as_tensor"
  | utils__single => "_single"
  | utils__pair => "_pair"
  | utils__triple => "_triple"
  | utils__quadruple => "_quadruple"
  | utils__ntuple => "_ntuple"
  | torch_no_grad => "no_grad"
  | torch_enable_grad => "enable_grad"
  | torch_set_grad_enabled => "set_grad_enabled"
  | torch_is_grad_enabled => "is_grad_enabled"
  | torch_nonzero => "nonzero"
  | torch_unique => "unique"
  | torch_unique_consecutive => "unique_consecutive"
  | torch_where => "where"
  | torch_arange => "arange"
  | torch_repeat_interleave => "repeat_interleave"
  | torch_amp_autocast_mode_autocast => "autocast"
  | torch_profiler_profile => "profile"
  | torch_profiler_record_function => "record_function"
  | torch_autograd_profiler_profile => "profile"
  | torch_autograd_profiler_record_function => "record_function"
  | torch_autograd__profiler_enabled => "_profiler_enabled"
  | torch_jit_annotate => "annotate"
  | torch_backends_cudnn_is_acceptable => "is_acceptable"
  | torch_random_set_rng_state => "set_rng_state"
  | torch_addcdiv => "addcdiv"
  | torch_div => "div"
  | torch_mul => "mul"
  | torch_add => "add"
  | torch_sub => "sub"
  | torch_sqrt => "sqrt"
  | math_sqrt => "sqrt"
  | sym_sqrt => "sym_sqrt"
  | torch_nn_functional_softmax => "softmax"
  | torch_nn_functional_cross_entropy => "cross_entropy"
  | torch_nn_Softmax => "Softmax"
  | torch_nn_CrossEntropyLoss => "CrossEntropyLoss"
  | nn_Module_subclass name => name
  | Generator_method _ name => name
  | tensortype name => name
  | other_fn _ name => name
  end.

(** [getattr(value, "__module__", None)] *)
Definition fn___module__ (f : TorchFn) : option string :=
  match f with
  | torch__utils__get_device_index => Some "torch._utils"
  | torch_cuda_is_available => Some "torch.cuda"
  | torch_distributed_is_available
  | torch_distributed_is_initialized => Some "torch.distributed"
  | torch_nn_functional__Reduction_get_enum => Some "torch.nn._reduction"
  | torch_overrides_is_tensor_like => Some "torch.overrides"
  | torch_onnx_operators_shape_as_tensor => Some "torch.onnx.operators"
  | utils__single | utils__pair | utils__triple | utils__quadruple
  | utils__ntuple => Some "torch.nn.modules.utils"
  | torch_no_grad | torch_enable_grad
  | torch_set_grad_enabled => Some "torch.autograd.grad_mode"
  | torch_amp_autocast_mode_autocast => Some "torch.amp.autocast_mode"
  | torch_profiler_profile => Some "torch.profiler.profiler"
  | torch_profiler_record_function
  | torch_autograd_profiler_profile
  | torch_autograd_profiler_record_function => Some "torch.autograd.profiler"
  | torch_autograd__profiler_enabled => Some "torch.autograd"
  | torch_jit_annotate => Some "torch.jit"
  | torch_backends_cudnn_is_acceptable => Some "torch.backends.cudnn"
  | torch_random_set_rng_state => Some "torch.random"
  | math_sqrt => Some "math"
  | sym_sqrt => Some "torch.fx.experimental.symbolic_shapes"
  | torch_nn_functional_softmax
  | torch_nn_functional_cross_entropy => Some "torch.nn.functional"
  | torch_nn_Softmax => Some "torch.nn.modules.activation"
  | torch_nn_CrossEntropyLoss => Some "torch.nn.modules.loss"
  | nn_Module_subclass _ => Some "torch.nn.modules"
  | Generator_method _ _ => None
  | other_fn m _ => m
  | _ => Some "torch"
  end.

(** [istype(value, type) and issubclass(value, torch.nn.Module)] *)
Definition is_nn_Module_class (f : TorchFn) : bool :=
  match f with
  | torch_nn_Softmax | torch_nn_CrossEntropyLoss | nn_Module_subclass _ => true
  | _ => false
  end.

(** [hasattr(value, "__self__") and isinstance(value.__self__,
    torch._C.Generator)] *)
Definition is_Generator_method (f : TorchFn) : bool :=
  match f with Generator_method _ _ => true | _ => false end.

(** [value in tensortype_to_dtype] *)
Definition in_tensortype_to_dtype (f : TorchFn) : bool :=
  match f with tensortype _ => true | _ => false end.

Definition REWRITE_OPS_TO_TENSOR_SIZE_METHOD : list TorchFn :=
  [torch_onnx_operators_shape_as_tensor; torch__shape_as_tensor].

(** ** Python values that occur as trace-time constants

    [PyNumpy z] is a numpy scalar ([np.generic]) whose [item()] is the
    native integer [z]; [PyFn f] is a framework callable used as a value. *)

Inductive PyVal : Type :=
| PyNone
| PyBool (b : bool)
| PyInt (z : Z)
| PyFloat (repr : string)
| PyStr (s : string)
| PyNumpy (z : Z)
| PyFn (f : TorchFn)
| PyTuple (l : list PyVal)
| PyList (l : list PyVal).

Fixpoint PyVal_eq_dec (x y : PyVal) {struct x} : {x = y} + {x ≠ y}.
Proof.
  decide equality;
    try (apply (list_eq_dec (dec := PyVal_eq_dec)));
    try (apply (decide _)).
Defined.

#[global] Instance PyVal_EqDecision : EqDecision PyVal := PyVal_eq_dec.

(** ** Traced values

    Every [VariableTracker] carries its accumulated guards; the variants
    are the tracker classes this file dispatches on.  A proxy names a graph
    node and carries the node's [meta["example_value"]] when it has one.
    [UnspecializedPythonVariable] is a subclass of [TensorVariable]. *)

Definition Guard : Type := string.

Inductive Example : Type :=
| ExTensor (dt : Dtype) (dev : string) (sz : list Z)
| ExTuple (l : list Example)
| ExSym
| ExNone
| ExOther (tag : string).

Fixpoint Example_eq_dec (x y : Example) {struct x} : {x = y} + {x ≠ y}.
Proof.
  decide equality;
    try (apply (list_eq_dec (dec := Example_eq_dec)));
    try (apply (decide _)).
Defined.

#[global] Instance Example_EqDecision : EqDecision Example := Example_eq_dec.

Record Proxy : Type := mkProxy {
  node_name : string;
  node_meta_example_value : option Example;
}.

#[global] Instance Proxy_EqDecision : EqDecision Proxy.
Proof. solve_decision. Defined.

Record TensorInfo : Type := mkTensor {
  proxy : Proxy;
  dtype : option Dtype;
  device : option string;
  tensor_size : option (list Z);
}.

#[global] Instance TensorInfo_EqDecision : EqDecision TensorInfo.
Proof. solve_decision. Defined.

Inductive VT : Type :=
| VTrack (guards : gset Guard) (kind : VKind)
with VKind : Type :=
| ConstantVariable (value : PyVal)
| TensorVariable (t : TensorInfo)
| UnspecializedPythonVariable (t : TensorInfo) (raw_value : PyVal)
| DynamicShapeVariable (p : Proxy)
| ListVariable (items : list VT)
| TupleVariable (items : list VT)
| LambdaVariable (fn : Closure)
| TorchVariable_ (value : TorchFn)
| UserDefinedObjectVariable (obj : nat) (has___torch_function__ : bool)
| UserFunctionVariable (fn : nat)
| NestedUserFunctionVariable (fn : nat)
| TensorWithTFOverrideVariable (tensor_variable : VT)
    (orig_tensor_variable_source : string)
    (subclass_torch_function__func : nat) (subclass_type : string)
| GradModeVariable (target_value : bool)
| AutocastModeVariable (target_values : list VT)
| NullContextVariable
| NewCellVariable
| OtherVariable (cls : string)
with Closure : Type :=
(* the closures this file wraps in a LambdaVariable, with what they capture *)
| fake_softmax (self_guards : gset Guard) (dim : VT)
| fake_cross_entropy_loss (self_guards : gset Guard)
    (weight size_average ignore_index reduce_arg reduction label_smoothing : VT)
| handle_ntuple_closure (count : Z) (captured : gset Guard).

Fixpoint VT_eq_dec (x y : VT) {struct x} : {x = y} + {x ≠ y}
with VKind_eq_dec (x y : VKind) {struct x} : {x = y} + {x ≠ y}
with Closure_eq_dec (x y : Closure) {struct x} : {x = y} + {x ≠ y}.
Proof.
  - decide equality. apply (decide _).
  - decide equality;
      try (apply (list_eq_dec (dec := VT_eq_dec)));
      try (apply (decide _)).
  - decide equality; try (apply (decide _)).
Defined.

#[global] Instance VT_EqDecision : EqDecision VT := VT_eq_dec.
#[global] Instance VKind_EqDecision : EqDecision VKind := VKind_eq_dec.
#[global] Instance Closure_EqDecision : EqDecision Closure := Closure_eq_dec.

Definition vt_guards (v : VT) : gset Guard :=
  match v with VTrack g _ => g end.

Definition vt_kind (v : VT) : VKind :=
  match v with VTrack _ k => k end.

(** [isinstance(x, TensorVariable)]: true for the subclass as well. *)
Definition isinstance_TensorVariable (v : VT) : bool :=
  match vt_kind v with
  | TensorVariable _ | UnspecializedPythonVariable _ _ => true
  | _ => false
  end.

(** [type(x) is TensorVariable] *)
Definition type_is_TensorVariable (v : VT) : bool :=
  match vt_kind v with TensorVariable _ => true | _ => false end.

Definition tensor_info (v : VT) : option TensorInfo :=
  match vt_kind v with
  | TensorVariable t | UnspecializedPythonVariable t _ => Some t
  | _ => None
  end.

Definition isinstance_DynamicShapeVariable (v : VT) : bool :=
  match vt_kind v with DynamicShapeVariable _ => true | _ => false end.

Definition isinstance_ConstantVariable (v : VT) : bool :=
  match vt_kind v with ConstantVariable _ => true | _ => false end.

Definition isinstance_UnspecializedPythonVariable (v : VT) : bool :=
  match vt_kind v with UnspecializedPythonVariable _ _ => true | _ => false end.

Definition isinstance_ListVariable (v : VT) : bool :=
  match vt_kind v with ListVariable _ => true | _ => false end.

Definition isinstance_TupleVariable (v : VT) : bool :=
  match vt_kind v with TupleVariable _ => true | _ => false end.

Definition isinstance_TensorWithTFOverrideVariable (v : VT) : bool :=
  match vt_kind v with
  | TensorWithTFOverrideVariable _ _ _ _ => true
  | _ => false
  end.

Definition isinstance_NewCellVariable (v : VT) : bool :=
  match vt_kind v with NewCellVariable => true | _ => false end.

Definition isinstance_user_function (v : VT) : bool :=
  match vt_kind v with
  | UserFunctionVariable _ | NestedUserFunctionVariable _ => true
  | _ => false
  end.

(** ** The graph fragment and the trace state

    [tx.output.graph] is the live fragment; everything else that
    [copy_graphstate] snapshots is a [GraphState].  [tx.output.guards] and
    [tx.output.tracing_context.guards_context.dynamo_guards] are the same
    set, held in [guard_state]. *)

Inductive PArg : Type :=
| ArgProxy (node : string)
| ArgConst (v : PyVal)
| ArgFn (f : TorchFn)
| ArgList (l : list PArg)
| ArgTuple (l : list PArg).

Fixpoint PArg_eq_dec (x y : PArg) {struct x} : {x = y} + {x ≠ y}.
Proof.
  decide equality;
    try (apply (list_eq_dec (dec := PArg_eq_dec)));
    try (apply (decide _)).
Defined.

#[global] Instance PArg_EqDecision : EqDecision PArg := PArg_eq_dec.

Inductive Target : Type :=
| target_fn (f : TorchFn)
| target_name (s : string)
| target_get_state_from_generator (f : TorchFn)
| target_py_operator (name : string).

#[global] Instance Target_EqDecision : EqDecision Target.
Proof. solve_decision. Defined.

Record Node : Type := mkNode {
  node_op : string;
  node_target : Target;
  node_args : list PArg;
  node_kwargs : gmap string PArg;
  node_id : string;
}.

#[global] Instance Node_EqDecision : EqDecision Node.
Proof. solve_decision. Defined.

Definition Graph : Type := list Node.

(** A sub-module table entry: an ordinary module, or a [GraphModule] built
    from a table and a captured fragment. *)
Inductive Module : Type :=
| UserModule (id : nat)
| GraphModule (root : list (string * Module)) (graph : Graph).

Fixpoint Module_eq_dec (x y : Module) {struct x} : {x = y} + {x ≠ y}.
Proof.
  decide equality; try (apply (decide _)).
  apply (list_eq_dec (dec := prod_eq_dec (EqDecision1 := Module_eq_dec))).
Defined.

#[global] Instance Module_EqDecision : EqDecision Module := Module_eq_dec.

Inductive AttributeMutation : Type :=
| AttributeMutationExisting (obj : nat)
| AttributeMutationNew (obj : nat).

#[global] Instance AttributeMutation_EqDecision : EqDecision AttributeMutation.
Proof. solve_decision. Defined.

#[global] Instance AttributeMutation_Countable : Countable AttributeMutation.
Proof.
  refine (inj_countable'
    (λ a, match a with
          | AttributeMutationExisting n => inl n
          | AttributeMutationNew n => inr n
          end)
    (λ s, match s with
          | inl n => AttributeMutationExisting n
          | inr n => AttributeMutationNew n
          end) _).
  by intros [].
Defined.

Definition isinstance_AttributeMutationNew (a : AttributeMutation) : bool :=
  match a with AttributeMutationNew _ => true | _ => false end.

Record SideEffects : Type := mkSideEffects {
  id_to_variable : gmap nat VT;
  store_attr_mutations : gmap AttributeMutation (gmap string VT);
  keepalive : list nat;
}.

#[global] Instance SideEffects_EqDecision : EqDecision SideEffects.
Proof. solve_decision. Defined.

Record OutputGraphState : Type := mkOutputGraphState {
  graphargs : list string;
  guard_state : gset Guard;
  nn_modules : option (gmap string Module);
  side_effects : SideEffects;
  timestamp : nat;
  name_to_input : list (string * string);
}.

#[global] Instance OutputGraphState_EqDecision : EqDecision OutputGraphState.
Proof. solve_decision. Defined.

Record GraphState : Type := mkGraphState {
  output : OutputGraphState;
  symbolic_locals : gmap string VT;
}.

#[global] Instance GraphState_EqDecision : EqDecision GraphState.
Proof. solve_decision. Defined.

Record Tx : Type := mkTx {
  graph : Graph;
  state : GraphState;
}.

(** ** The tracing monad: state passing over [Tx], aborting on the first
    exception *)

Definition M (A : Type) : Type := Tx → Res (A * Tx).

Definition ret {A} (a : A) : M A := λ tx, Ok (a, tx).

Definition bind {A B} (m : M A) (k : A → M B) : M B :=
  λ tx, match m tx with
        | Ok (a, tx') => k a tx'
        | Unsupported r => Unsupported r
        | Fatal e => Fatal e
        end.

Definition raise {A} (e : Exn) : M A := λ _, Fatal e.

(** [unimplemented(msg)] *)
Definition unimplemented {A} (msg : string) : M A := λ _, Unsupported msg.

Definition get : M Tx := λ tx, Ok (tx, tx).
Definition modify (f : Tx → Tx) : M unit := λ tx, Ok (tt, f tx).

Definition lift {A} (r : Res A) : M A :=
  λ tx, match r with
        | Ok a => Ok (a, tx)
        | Unsupported r => Unsupported r
        | Fatal e => Fatal e
        end.

(** [assert cond, msg] *)
Definition assert_ (cond : bool) (msg : string) : M unit :=
  if cond then ret tt else raise (AssertionError msg).

Notation "x <- m ;; k" := (bind m (λ x, k))
  (at level 100, m at next level, right associativity,
   format "'[v' x  <-  m  ;; '/' k ']'").
Notation "m ;;; k" := (bind m (λ _, k))
  (at level 100, right associativity, format "'[v' m  ;;; '/' k ']'").

Fixpoint for_each {A B} (f : A → M B) (l : list A) : M (list B) :=
  match l with
  | [] => ret []
  | a :: l' => b <- f a ;; bs <- for_each f l' ;; ret (b :: bs)
  end.

Definition set_output (f : OutputGraphState → OutputGraphState) (tx : Tx) : Tx :=
  mkTx (graph tx) (mkGraphState (f (output (state tx))) (symbolic_locals (state tx))).

Definition set_symbolic_locals (f : gmap string VT → gmap string VT) (tx : Tx) : Tx :=
  mkTx (graph tx) (mkGraphState (output (state tx)) (f (symbolic_locals (state tx)))).

Definition set_graph (g : Graph) (tx : Tx) : Tx := mkTx g (state tx).

Definition with_guard_state (g : gset Guard) (o : OutputGraphState) :=
  mkOutputGraphState (graphargs o) g (nn_modules o) (side_effects o)
    (timestamp o) (name_to_input o).

Definition with_nn_modules (m : option (gmap string Module)) (o : OutputGraphState) :=
  mkOutputGraphState (graphargs o) (guard_state o) m (side_effects o)
    (timestamp o) (name_to_input o).

Definition with_side_effects (s : SideEffects) (o : OutputGraphState) :=
  mkOutputGraphState (graphargs o) (guard_state o) (nn_modules o) s
    (timestamp o) (name_to_input o).

Definition with_graphargs (a : list string) (o : OutputGraphState) :=
  mkOutputGraphState a (guard_state o) (nn_modules o) (side_effects o)
    (timestamp o) (name_to_input o).

Definition with_name_to_input (n : list (string * string)) (o : OutputGraphState) :=
  mkOutputGraphState (graphargs o) (guard_state o) (nn_modules o) (side_effects o)
    (timestamp o) n.

Definition with_timestamp (t : nat) (o : OutputGraphState) :=
  mkOutputGraphState (graphargs o) (guard_state o) (nn_modules o) (side_effects o)
    t (name_to_input o).

(** ** The variable abstraction consumed by the classifier

    The tracker classes live in sibling modules (base.py, constant.py,
    lists.py, tensor.py) and in utils.py; only
    [TorchVariable.as_python_constant] and [TorchVariable.as_proxy] are
    defined in this file. *)

(** Modelled from the spec: [VariableTracker.as_python_constant] of the
    sibling tracker classes, "a value is constant iff it can report an
    equivalent concrete value with no further graph dependency", and a
    sequence is constant when each of its parts is.  [None] stands for
    [NotImplementedError]. *)
Fixpoint as_python_constant (v : VT) : option PyVal :=
  match v with
  | VTrack _ k =>
    match k with
    | ConstantVariable c => Some c
    | TorchVariable_ f => Some (PyFn f)
    | ListVariable items =>
        PyList <$>
        (fix go (l : list VT) : option (list PyVal) :=
           match l with
           | [] => Some []
           | x :: l' =>
               match as_python_constant x, go l' with
               | Some c, Some cs => Some (c :: cs)
               | _, _ => None
               end
           end) items
    | TupleVariable items =>
        PyTuple <$>
        (fix go (l : list VT) : option (list PyVal) :=
           match l with
           | [] => Some []
           | x :: l' =>
               match as_python_constant x, go l' with
               | Some c, Some cs => Some (c :: cs)
               | _, _ => None
               end
           end) items
    | _ => None
    end
  end.

(** Modelled from the spec: [VariableTracker.is_python_constant], true
    when [as_python_constant] does not raise. *)
Definition is_python_constant (v : VT) : bool :=
  bool_decide (is_Some (as_python_constant v)).

Fixpoint string_chars (s : string) : list PyVal :=
  match s with
  | EmptyString => []
  | String c s' => PyStr (String c EmptyString) :: string_chars s'
  end.

(** Modelled from the spec: [VariableTracker.unpack_var_sequence], "if it
    supports sequence unpacking": a sequence variable yields its items, a
    constant that is iterable yields its elements as constants carrying the
    constant's guards.  Tensors are not unpacked in this model. *)
Definition unpack_var_sequence (v : VT) : option (list VT) :=
  match vt_kind v with
  | ListVariable items | TupleVariable items => Some items
  | ConstantVariable (PyTuple l) | ConstantVariable (PyList l) =>
      Some (map (λ c, VTrack (vt_guards v) (ConstantVariable c)) l)
  | ConstantVariable (PyStr s) =>
      Some (map (λ c, VTrack (vt_guards v) (ConstantVariable c)) (string_chars s))
  | _ => None
  end.

(** Modelled from the spec: [VariableTracker.has_unpack_var_sequence]. *)
Definition has_unpack_var_sequence (v : VT) : bool :=
  bool_decide (is_Some (unpack_var_sequence v)).

(** Modelled from the spec: [as_proxy] of the sibling tracker classes,
    the graph argument a traced value stands for.  The [TorchVariable]
    case is [TorchVariable.as_proxy] of this file. *)
Fixpoint as_proxy (v : VT) : option PArg :=
  match v with
  | VTrack _ k =>
    match k with
    | ConstantVariable c => Some (ArgConst c)
    | TorchVariable_ f => Some (ArgFn f)
    | TensorVariable t | UnspecializedPythonVariable t _ =>
        Some (ArgProxy (node_name (proxy t)))
    | DynamicShapeVariable p => Some (ArgProxy (node_name p))
    | ListVariable items =>
        ArgList <$>
        (fix go (l : list VT) : option (list PArg) :=
           match l with
           | [] => Some []
           | x :: l' =>
               match as_proxy x, go l' with
               | Some c, Some cs => Some (c :: cs)
               | _, _ => None
               end
           end) items
    | TupleVariable items =>
        ArgTuple <$>
        (fix go (l : list VT) : option (list PArg) :=
           match l with
           | [] => Some []
           | x :: l' =>
               match as_proxy x, go l' with
               | Some c, Some cs => Some (c :: cs)
               | _, _ => None
               end
           end) items
    | _ => None
    end
  end.

(** Modelled from the spec: [as_specialized], an unspecialized scalar
    becomes the constant of its raw value; every other value is itself. *)
Definition as_specialized (v : VT) : VT :=
  match vt_kind v with
  | UnspecializedPythonVariable _ raw => VTrack (vt_guards v) (ConstantVariable raw)
  | _ => v
  end.

Definition kwargs_values {A} (kwargs : gmap string A) : list A :=
  (map_to_list kwargs).*2.

(** Modelled from the spec: [VariableTracker.propagate], the options of a
    new value are the union of the guards of the values it is built from. *)
Definition propagate (self_guards : gset Guard) (vars : list VT) : gset Guard :=
  self_guards ∪ ⋃ (vt_guards <$> vars).

(** Modelled from the spec: [utils.check_constant_args], "all arguments
    are constant". *)
Definition check_constant_args (args : list VT) (kwargs : gmap string VT) : bool :=
  forallb is_python_constant (args ++ kwargs_values kwargs).

(** Modelled from the spec: [utils.check_unspec_python_args], all
    arguments are constants or unspecialized scalars, at least one of them
    an unspecialized scalar. *)
Definition check_unspec_python_args (args : list VT) (kwargs : gmap string VT) : bool :=
  forallb (λ x, isinstance_UnspecializedPythonVariable x || isinstance_ConstantVariable x)
          (args ++ kwargs_values kwargs)
  && existsb isinstance_UnspecializedPythonVariable (args ++ kwargs_values kwargs).

(** Modelled from the spec: [utils.specialize_args_kwargs]. *)
Definition specialize_args_kwargs (args : list VT) (kwargs : gmap string VT)
  : list VT * gmap string VT :=
  (as_specialized <$> args, as_specialized <$> kwargs).

(** [utils.product] *)
Definition product (l : list Z) : Z := foldr Z.mul 1%Z l.

(** Modelled from the spec: [utils.proxy_args_kwargs]; an argument
    without a proxy makes the call [Unsupported]. *)
Definition proxy_args_kwargs (args : list VT) (kwargs : gmap string VT)
  : M (list PArg * gmap string PArg) :=
  match mapM as_proxy args with
  | Some pa =>
      if bool_decide (map_Forall (λ _ v, is_Some (as_proxy v)) kwargs)
      then ret (pa, omap as_proxy kwargs)
      else unimplemented "call_function args"
  | None => unimplemented "call_function args"
  end.

(** Binding of positional and keyword arguments to a Python signature:
    [params] are the named parameters with their defaults, [var_kw] says
    whether the signature ends in [**kwargs].  [None] is the [TypeError]
    Python raises for a call that does not fit. *)
Fixpoint bind_params (params : list (string * option VT)) (args : list VT)
    (kwargs : gmap string VT) : option (list VT) :=
  match params with
  | [] => match args with [] => Some [] | _ :: _ => None end
  | (name, default) :: ps =>
      match args with
      | a :: args' =>
          match kwargs !! name with
          | Some _ => None
          | None => cons a <$> bind_params ps args' kwargs
          end
      | [] =>
          match kwargs !! name, default with
          | Some v, _ => cons v <$> bind_params ps [] kwargs
          | None, Some d => cons d <$> bind_params ps [] kwargs
          | None, None => None
          end
      end
  end.

Definition bind_signature (params : list (string * option VT)) (var_kw : bool)
    (args : list VT) (kwargs : gmap string VT) : option (list VT) :=
  if negb var_kw
     && negb (forallb (λ k, bool_decide (k ∈ params.*1)) (map_to_list kwargs).*1)
  then None
  else bind_params params args kwargs.

(** ** The output graph builder, at its interface *)

Definition fresh_node_id (g : Graph) : string := "n" +:+ pretty (length g).

(** Modelled from the spec: [tx.output.create_proxy(kind, target, args,
    kwargs) -> ProxyNode] appends a node to the live fragment. *)
Definition create_proxy (kind : string) (target : Target) (args : list PArg)
    (kwargs : gmap string PArg) : M Node :=
  λ tx, let n := mkNode kind target args kwargs (fresh_node_id (graph tx)) in
        Ok (n, set_graph (graph tx ++ [n]) tx).

(** Modelled from the spec: [tx.output.create_node(kind, target, args,
    kwargs)]. *)
Definition create_node (kind : string) (target : Target) (args : list PArg)
    (kwargs : gmap string PArg) : M unit :=
  n <- create_proxy kind target args kwargs ;; ret tt.

(** Modelled from the spec: [tx.output.create_graph_input(name) ->
    ProxyNode] declares a fresh graph input and records it in the
    input-name table. *)
Definition create_graph_input (name : string) : M Node :=
  λ tx, let n := mkNode "placeholder" (target_name name) [] ∅ name in
        Ok (n, set_output (λ o, with_name_to_input (name_to_input o ++ [(name, name)]) o)
                 (set_graph (graph tx ++ [n]) tx)).

(** Modelled from the spec: [tx.copy_graphstate() -> Checkpoint], a
    structural copy of the trace state.  The snapshot is taken of a live
    trace, whose sub-module table is a table ([None] only occurs in a
    comparable projection); copying a missing table is a fatal error. *)
Definition copy_graphstate : M GraphState :=
  λ tx, match nn_modules (output (state tx)) with
        | Some _ => Ok (state tx, tx)
        | None => Fatal (AssertionError "nn_modules is not None")
        end.

(** Modelled from the spec: [tx.restore_graphstate(Checkpoint)], "restore
    = pointer/handle swap". *)
Definition restore_graphstate (checkpoint : GraphState) : M unit :=
  λ tx, Ok (tt, mkTx (graph tx) checkpoint).

(** Modelled from the spec: [tx.output.register_attr_or_module(module,
    name, source)] attaches the module to the sub-module table. *)
Definition register_attr_or_module (gm : Module) (name : string) : M unit :=
  λ tx, match nn_modules (output (state tx)) with
        | Some mods => Ok (tt, set_output (with_nn_modules (Some (<[name := gm]> mods))) tx)
        | None => Fatal (TypeError "'NoneType' object does not support item assignment")
        end.

(** Modelled from the spec: [tx.find_symbolic_locals_name(value) -> name],
    the reverse lookup in the symbolic-local table; Python's [None] when no
    name is bound to the value. *)
Definition find_symbolic_locals_name (locals : gmap string VT) (v : VT) : option string :=
  (λ r, r.2.1) <$> list_find (λ kv, kv.2 = v) (map_to_list locals).

(** Modelled from the spec: the builder behind [wrap_fx_proxy] turns the
    example value of a node into the traced value that stands for it,
    "GraphNode(proxy, optional example-value)". *)
Fixpoint wrap_example (options : gset Guard) (name : string) (ex : Example) : Res VT :=
  match ex with
  | ExTensor dt dev sz =>
      Ok (VTrack options
            (TensorVariable (mkTensor (mkProxy name (Some ex)) (Some dt) (Some dev) (Some sz))))
  | ExTuple l =>
      match
        (fix go (i : nat) (l : list Example) : Res (list VT) :=
           match l with
           | [] => Ok []
           | e :: l' =>
               match wrap_example options (name +:+ "_" +:+ pretty i) e with
               | Ok v =>
                   match go (S i) l' with
                   | Ok vs => Ok (v :: vs)
                   | Unsupported r => Unsupported r
                   | Fatal x => Fatal x
                   end
               | Unsupported r => Unsupported r
               | Fatal x => Fatal x
               end
           end) 0 l
      with
      | Ok items => Ok (VTrack options (TupleVariable items))
      | Unsupported r => Unsupported r
      | Fatal x => Fatal x
      end
  | ExSym => Ok (VTrack options (DynamicShapeVariable (mkProxy name (Some ex))))
  | ExNone => Ok (VTrack options (ConstantVariable PyNone))
  | ExOther _ => Fatal (AssertionError "torch.* op returned non-Tensor")
  end.

(** [TorchVariable]: "Points to a module or method in torch.*" *)
Record TorchVariable : Type := mkTorchVariable {
  tv_guards : gset Guard;
  value : TorchFn;
}.

(** ** External collaborators

    What the classifier consumes from the rest of the tracer and from the
    framework, and cannot see: the configuration tables, concrete
    evaluation of an operator, fake-tensor propagation, inlining of user
    code, and the side-effect tracker. *)
Class Env : Type := {
  (** [config.constant_functions] *)
  config_constant_functions : TorchFn → option PyVal;
  (** [config.dynamic_shapes] *)
  config_dynamic_shapes : bool;
  HAS_NUMPY : bool;
  (** [torch.distributed.is_available()] at import time *)
  distributed_is_available : bool;
  (** calling the operator on concrete Python values *)
  concrete_call : TorchFn → list PyVal → gmap string PyVal → PyVal + Exn;
  (** [torch.is_grad_enabled()] while tracing *)
  grad_enabled : bool;
  (** [torch.backends.cudnn.is_acceptable(torch.tensor(0, dtype=_, device=_))] *)
  cudnn_is_acceptable : option Dtype → option string → bool;
  (** [torch.overrides.get_default_nowrap_functions()] *)
  default_nowrap_functions : TorchFn → bool;
  (** fake-tensor propagation through a new node *)
  get_fake_value : Node → Tx → Res Example;
  (** [generator.get_state()] *)
  generator_get_state : nat → Example;
  (** [TensorWithTFOverrideVariable.inline_torch_function_unwrapped] *)
  inline_torch_function_unwrapped :
    TorchVariable → string → nat → string → gset Guard → list VT → gmap string VT → M VT;
  (** [TensorVariable.call_method] *)
  tensor_call_method : VT → string → list VT → gmap string VT → M VT;
  (** [UserFunctionVariable.call_function]: inline a user function *)
  user_function_call : VT → list VT → gmap string VT → M VT;
  (** [SideEffects.prune_dead_object_new] *)
  prune_dead_object_new : Tx → SideEffects;
  (** [GradModeVariable.create] *)
  GradModeVariable_create : PyVal → gset Guard → M VT;
  (** [AutocastModeVariable.create] *)
  AutocastModeVariable_create : list VT → gmap string VT → M VT;
  (** [GradModeVariable._guards_singleton] *)
  GradModeVariable__guards_singleton : gset Guard;
}.

(** ** Small Python idioms *)

(** [args[i]] *)
Definition index {A} (l : list A) (i : nat) : M A :=
  match l !! i with
  | Some a => ret a
  | None => raise IndexError
  end.

(** [x in (a, b, ...)] on operator identities *)
Definition fn_in (f : TorchFn) (l : list TorchFn) : bool :=
  existsb (λ g, bool_decide (f = g)) l.

Definition str_in (s : string) (l : list string) : bool :=
  existsb (λ t, bool_decide (s = t)) l.

(** One arm of an [if]/[elif] chain: the condition may itself raise. *)
Definition elif {A} (cond : M bool) (body rest : M A) : M A :=
  b <- cond ;; if b : bool then body else rest.

Notation "'IF' c 'THEN' b 'ELSE' r" := (elif c b r)
  (at level 10, c at level 200, b at level 200, r at level 200,
   format "'[v' 'IF'  c  'THEN' '/  ' b '/' 'ELSE'  r ']'").

(** Python's short-circuit [a and b] where [b] may raise *)
Definition and_then (a : bool) (b : M bool) : M bool :=
  if a then b else ret false.

Definition traverse_kwargs {A B} (f : A → option B) (m : gmap string A)
  : option (gmap string B) :=
  if bool_decide (map_Forall (λ _ v, is_Some (f v)) m) then Some (omap f m) else None.

Definition const (options : gset Guard) (c : PyVal) : VT :=
  VTrack options (ConstantVariable c).

(** Modelled from the spec: [torch.nn.modules.utils._ntuple(n)] of
    torch/nn/modules/utils.py, "constant-folds the broadcast": an iterable
    is returned as a tuple, anything else is repeated [n] times. *)
Definition _ntuple (n : Z) (x : PyVal) : PyVal :=
  match x with
  | PyTuple l | PyList l => PyTuple l
  | PyStr s => PyTuple (string_chars s)
  | _ => PyTuple (replicate (Z.to_nat n) x)
  end.

Section Classifier.
Context {E : Env}.

Definition constant_fold_functions : list TorchFn :=
  [ torch__assert;
    torch__utils__get_device_index;
    torch_cuda_is_available;
    torch_device;
    torch_distributed_is_available;
    torch_finfo;
    torch_get_default_dtype;
    torch_iinfo;
    torch_is_floating_point;
    torch_nn_functional__Reduction_get_enum ]
  ++ (if distributed_is_available then [torch_distributed_is_initialized] else []).

Definition can_constant_fold_through (self : TorchVariable) : bool :=
  if fn_in (value self) constant_fold_functions then true
  else bool_decide (fn___module__ (value self) = Some "math").

(** Modelled from the spec: [wrap_fx_proxy] of builder.py, the traced
    value for a new node; without a given example value the example comes
    from fake-tensor propagation. *)
Definition wrap_fx_proxy (n : Node) (example_value : option Example)
    (options : gset Guard) : M VT :=
  ex <- match example_value with
        | Some e => ret e
        | None => tx <- get ;; lift (get_fake_value n tx)
        end ;;
  lift (wrap_example options (node_id n) ex).

Definition is_dynamic_shapes (self : TorchVariable) (args : list VT)
    (kwargs : gmap string VT) : M bool :=
  if fn_in (value self) [torch_nonzero; torch_unique; torch_unique_consecutive]
     || str_in (fn___name__ (value self)) ["nms"]
  then ret true
  else if bool_decide (value self = torch_where)
          && bool_decide (length args + size kwargs = 1)
  then ret true
  else if fn_in (value self) [torch_arange; torch_repeat_interleave] then
    let none := VTrack ∅ (ConstantVariable PyNone) in
    let has_non_const (it : list VT) := negb (forallb is_python_constant it) in
    if bool_decide (fn___name__ (value self) = "arange") then
      (* def arange(start=none, end=none, step=none, **kwargs) *)
      match bind_signature [("start", Some none); ("end", Some none); ("step", Some none)]
              true args kwargs with
      | Some bound => ret (has_non_const bound)
      | None => raise (TypeError "arange()")
      end
    else
      (* def repeat_interleave(input, repeats, dim=none, **kwargs) *)
      match bind_signature [("input", None); ("repeats", None); ("dim", Some none)]
              true args kwargs with
      | Some [input; repeats; dim] => ret (has_non_const [repeats])
      | _ => raise (TypeError "repeat_interleave()")
      end
  else ret false.

(** The body of the closure [fake_softmax(input)] *)
Definition call_fake_softmax (self_guards : gset Guard) (dim input : VT) : M VT :=
  pargs <- proxy_args_kwargs [input; dim] ∅ ;;
  n <- create_proxy "call_function" (target_fn torch_nn_functional_softmax)
         pargs.1 pargs.2 ;;
  wrap_fx_proxy n None (propagate self_guards [dim; input]).

Definition _call_softmax (self : TorchVariable) (args : list VT)
    (kwargs : gmap string VT) (options : gset Guard) : M VT :=
  let dim := match args with
             | a :: _ => a
             | [] => default (VTrack ∅ (ConstantVariable PyNone)) (kwargs !! "dim")
             end in
  ret (VTrack options (LambdaVariable (fake_softmax (tv_guards self) dim))).

(** The body of the closure [fake_cross_entropy_loss(input, target)] *)
Definition call_fake_cross_entropy_loss (self_guards : gset Guard)
    (weight size_average ignore_index reduce_arg reduction label_smoothing : VT)
    (input target : VT) : M VT :=
  pargs <- proxy_args_kwargs
             [input; target; weight; size_average; ignore_index; reduce_arg;
              reduction; label_smoothing] ∅ ;;
  n <- create_proxy "call_function" (target_fn torch_nn_functional_cross_entropy)
         pargs.1 pargs.2 ;;
  wrap_fx_proxy n None
    (propagate self_guards
       [weight; size_average; ignore_index; reduce_arg; reduction;
        label_smoothing; input; target]).

Definition _call_cross_entropy_loss (self : TorchVariable) (args : list VT)
    (kwargs : gmap string VT) (options : gset Guard) : M VT :=
  let d c := Some (VTrack ∅ (ConstantVariable c)) in
  match bind_signature
          [("weight", d PyNone); ("size_average", d PyNone);
           ("ignore_index", d (PyInt (-100))); ("reduce", d PyNone);
           ("reduction", d (PyStr "mean")); ("label_smoothing", d (PyFloat "0.0"))]
          false args kwargs with
  | Some [weight; size_average; ignore_index; reduce_arg; reduction; label_smoothing] =>
      ret (VTrack options
             (LambdaVariable
                (fake_cross_entropy_loss (tv_guards self) weight size_average
                   ignore_index reduce_arg reduction label_smoothing)))
  | _ => raise (TypeError "normalize_args()")
  end.

(** The closure [handle_ntuple(value)] of [_call_ntuple]; [captured] is
    what [VariableTracker.propagate(self, args, kwargs.values())]
    contributes. *)
Definition handle_ntuple (count : Z) (captured : gset Guard) (value : VT) : M VT :=
  let options := captured ∪ vt_guards value in
  if has_unpack_var_sequence value then
    ret (VTrack options (TupleVariable (default [] (unpack_var_sequence value))))
  else if is_python_constant value then
    (* constant prop through it *)
    match as_python_constant value with
    | Some c => ret (const options (_ntuple count c))
    | None => raise NotImplementedError
    end
  else unimplemented "torch.nn.modules.utils._ntuple(value)".

(** [self.value.__closure__[0].cell_contents] of the fixed-length
    normalisers *)
Definition ntuple_closure_count (f : TorchFn) : Z :=
  match f with
  | utils__single => 1
  | utils__pair => 2
  | utils__triple => 3
  | utils__quadruple => 4
  | _ => 0
  end.

Definition _call_ntuple (self : TorchVariable) (args : list VT)
    (kwargs : gmap string VT) (options : gset Guard) : M VT :=
  count <- (if bool_decide (value self = utils__ntuple) then
              a0 <- index args 0 ;;
              match as_python_constant a0 with
              | Some (PyInt z) => ret z
              | Some (PyBool b) => ret (Z.b2z b)
              | Some _ => raise (AssertionError "")
              | None => raise NotImplementedError
              end
            else ret (ntuple_closure_count (value self))) ;;
  let captured := propagate (tv_guards self) (args ++ kwargs_values kwargs) in
  if bool_decide (value self = utils__ntuple) then
    ret (VTrack options (LambdaVariable (handle_ntuple_closure count captured)))
  else
    a0 <- index args 0 ;;
    handle_ntuple count captured a0.

(** Calling a [LambdaVariable]: the closure is applied to the arguments. *)
Definition call_lambda (fn : Closure) (args : list VT) : M VT :=
  match fn, args with
  | fake_softmax g dim, [input] => call_fake_softmax g dim input
  | fake_cross_entropy_loss g w sa ii r red ls, [input; target] =>
      call_fake_cross_entropy_loss g w sa ii r red ls input target
  | handle_ntuple_closure count captured, [v] => handle_ntuple count captured v
  | _, _ => raise (TypeError "wrong number of arguments")
  end.

(** [type(x)] as it is printed in messages *)
Definition type_name (v : VT) : string :=
  match vt_kind v with
  | ConstantVariable _ => "ConstantVariable"
  | TensorVariable _ => "TensorVariable"
  | UnspecializedPythonVariable _ _ => "UnspecializedPythonVariable"
  | DynamicShapeVariable _ => "DynamicShapeVariable"
  | ListVariable _ => "ListVariable"
  | TupleVariable _ => "TupleVariable"
  | LambdaVariable _ => "LambdaVariable"
  | TorchVariable_ _ => "TorchVariable"
  | UserDefinedObjectVariable _ _ => "UserDefinedObjectVariable"
  | UserFunctionVariable _ => "UserFunctionVariable"
  | NestedUserFunctionVariable _ => "NestedUserFunctionVariable"
  | TensorWithTFOverrideVariable _ _ _ _ => "TensorWithTFOverrideVariable"
  | GradModeVariable _ => "GradModeVariable"
  | AutocastModeVariable _ => "AutocastModeVariable"
  | NullContextVariable => "NullContextVariable"
  | NewCellVariable => "NewCellVariable"
  | OtherVariable cls => cls
  end.

Definition items_of (v : VT) : list VT :=
  match vt_kind v with
  | ListVariable items | TupleVariable items => items
  | _ => []
  end.

(** [for idx, name in enumerate(output_tensor_names)]: each name must be
    in the symbolic-local table and is rebound to [items[idx]]. *)
Fixpoint rebind_loop (names : list (option string)) (items : list VT) (idx : nat)
  : M unit :=
  match names with
  | [] => ret tt
  | name :: rest =>
      tx <- get ;;
      match name with
      | Some n =>
          assert_ (bool_decide (is_Some (symbolic_locals (state tx) !! n))) "" ;;;
          v <- index items idx ;;
          modify (set_symbolic_locals <[n := v]>) ;;;
          rebind_loop rest items (S idx)
      | None => raise (AssertionError "")
      end
  end.

(** The [if "out" in kwargs] block of the generic fallback: out variants
    of operators mutate the tensors in the out field; track such tensors
    and rewrite the symbolic locals. *)
Definition rebind_out (kwargs : gmap string VT) (tensor_variable : VT) : M unit :=
  match kwargs !! "out" with
  | None => ret tt
  | Some out =>
      if isinstance_TupleVariable tensor_variable then
        assert_ (isinstance_TupleVariable out) "" ;;;
        tx <- get ;;
        let output_tensor_names :=
          map (find_symbolic_locals_name (symbolic_locals (state tx))) (items_of out) in
        rebind_loop output_tensor_names (items_of tensor_variable) 0
      else if isinstance_TensorVariable tensor_variable then
        assert_ (isinstance_TensorVariable out) "" ;;;
        tx <- get ;;
        match find_symbolic_locals_name (symbolic_locals (state tx)) out with
        | Some name =>
            assert_ (bool_decide (is_Some (symbolic_locals (state tx) !! name))) "" ;;;
            modify (set_symbolic_locals <[name := tensor_variable]>)
        | None => raise (AssertionError "")
        end
      else unimplemented ("out variant of " +:+ type_name out)
  end.

(** [x.value = x.value.item()] for the numpy scalars of a constant list *)
Definition coerce_numpy_item (x : VT) : M VT :=
  match vt_kind x with
  | ConstantVariable (PyNumpy z) => ret (VTrack (vt_guards x) (ConstantVariable (PyInt z)))
  | ConstantVariable _ | TorchVariable_ _ => ret x
  | _ => raise (AttributeError "value")
  end.

Definition bin_ops : list string := ["add"; "sub"; "mul"; "div"; "sqrt"].

Definition symint_msg (f : TorchFn) : string :=
  "Calling " +:+ fn___name__ f +:+
  " on only torch.SymInt arguments is not yet supported.".

(** The final [else] arm of [call_function]. *)
Definition generic_fallback (self : TorchVariable) (args : list VT)
    (kwargs : gmap string VT) (options : gset Guard) : M VT :=
  let any_symints_or_symfloats := existsb isinstance_DynamicShapeVariable args in
  let all_ints_or_floats :=
    forallb (λ x, isinstance_ConstantVariable x || isinstance_DynamicShapeVariable x)
            args in
  if bool_decide (fn___module__ (value self) = Some "torch")
     && str_in (fn___name__ (value self)) bin_ops
     && any_symints_or_symfloats
     && all_ints_or_floats
  then unimplemented (symint_msg (value self))
  else
    (* torch.LongTensor(list(np.int64, np.int64, ...)) *)
    args <- match args with
            | [a0] =>
                if HAS_NUMPY
                   && in_tensortype_to_dtype (value self)
                   && isinstance_ListVariable a0
                   && is_python_constant a0
                then items <- for_each coerce_numpy_item (items_of a0) ;;
                     ret [VTrack (vt_guards a0) (ListVariable items)]
                else ret args
            | _ => ret args
            end ;;
    let fn_ :=
      if existsb isinstance_DynamicShapeVariable args
         && bool_decide (value self = math_sqrt)
      then sym_sqrt else value self in
    pargs <- proxy_args_kwargs args kwargs ;;
    n <- create_proxy "call_function" (target_fn fn_) pargs.1 pargs.2 ;;
    tensor_variable <- wrap_fx_proxy n None options ;;
    rebind_out kwargs tensor_variable ;;;
    ret tensor_variable.

Definition RecursionError : Exn := RuntimeError "maximum recursion depth exceeded".

(** [TorchVariable.call_function(tx, args, kwargs)].  [fuel] bounds the
    depth of the recursion through [addcdiv]. *)
Fixpoint call_function (fuel : nat) (self : TorchVariable) (args : list VT)
    (kwargs : gmap string VT) {struct fuel} : M VT :=
  match fuel with
  | O => raise RecursionError
  | S fuel' =>
  let constant_args := check_constant_args args kwargs in
  let unspec_python_args := check_unspec_python_args args kwargs in
  let options := propagate (tv_guards self) (args ++ kwargs_values kwargs) in
  IF ret (bool_decide (is_Some (config_constant_functions (value self)))) THEN
    assert_ (bool_decide (length args = 0) && bool_decide (size kwargs = 0)) "" ;;;
    match config_constant_functions (value self) with
    | Some c => ret (const options c)
    | None => raise (KeyError "constant_functions")
    end
  ELSE IF ret (can_constant_fold_through self && (constant_args || unspec_python_args)) THEN
    let '(args, kwargs) := specialize_args_kwargs args kwargs in
    (* constant fold *)
    match mapM as_python_constant args, traverse_kwargs as_python_constant kwargs with
    | Some cargs, Some ckwargs =>
        match concrete_call (value self) cargs ckwargs with
        | inl r => ret (const options r)
        | inr e => raise e
        end
    | _, _ => raise NotImplementedError
    end
  ELSE IF ret (is_nn_Module_class (value self)) THEN
    if bool_decide (value self = torch_nn_Softmax) then
      _call_softmax self args kwargs options
    else if bool_decide (value self = torch_nn_CrossEntropyLoss) then
      _call_cross_entropy_loss self args kwargs options
    else unimplemented ("construct nn.Module: " +:+ fn___name__ (value self))
  ELSE IF ret (fn_in (value self) [torch_is_tensor; torch_overrides_is_tensor_like]) THEN
    assert_ (bool_decide (length args = 1)) "" ;;;
    a0 <- index args 0 ;;
    if isinstance_TensorVariable a0
       || (bool_decide (value self = torch_overrides_is_tensor_like)
           && match vt_kind a0 with
              | UserDefinedObjectVariable _ has_tf => has_tf
              | _ => false
              end)
    then ret (const options (PyBool true))
    else ret (const options (PyBool false))
  ELSE IF and_then (fn_in (value self) [torch_is_floating_point; torch_is_complex])
            (a0 <- index args 0 ;;
             ret (isinstance_TensorVariable a0
                  && bool_decide (is_Some (tensor_info a0 ≫= dtype)))) THEN
    a0 <- index args 0 ;;
    match tensor_info a0 ≫= dtype with
    | Some dt =>
        if bool_decide (value self = torch_is_floating_point) then
          ret (const options (PyBool (dtype_is_floating_point dt)))
        else if bool_decide (value self = torch_is_complex) then
          ret (const options (PyBool (dtype_is_complex dt)))
        else raise (AssertionError "")
    | None => raise (AttributeError "is_floating_point")
    end
  ELSE IF and_then (bool_decide (value self = torch_numel))
            (a0 <- index args 0 ;;
             ret (isinstance_TensorVariable a0
                  && bool_decide (is_Some (tensor_info a0 ≫= tensor_size)))) THEN
    a0 <- index args 0 ;;
    match tensor_info a0 ≫= tensor_size with
    | Some sz => ret (const options (PyInt (product sz)))
    | None => raise (TypeError "product")
    end
  ELSE IF ret (fn_in (value self) REWRITE_OPS_TO_TENSOR_SIZE_METHOD) THEN
    assert_ (bool_decide (length args = 1)) "" ;;;
    a0 <- index args 0 ;;
    assert_ (isinstance_TensorVariable a0) "" ;;;
    tensor_call_method a0 "size" [] ∅
  ELSE IF ret (fn_in (value self)
                 [utils__single; utils__pair; utils__triple; utils__quadruple;
                  utils__ntuple]) THEN
    _call_ntuple self args kwargs options
  ELSE IF ret (bool_decide (value self = torch_no_grad)) THEN
    GradModeVariable_create (PyBool false) options
  ELSE IF ret (bool_decide (value self = torch_enable_grad)) THEN
    GradModeVariable_create (PyBool true) options
  ELSE IF ret (bool_decide (value self = torch_set_grad_enabled)
               && bool_decide (length args = 1)) THEN
    a0 <- index args 0 ;;
    match as_python_constant a0 with
    | Some c => GradModeVariable_create c options
    | None => raise NotImplementedError
    end
  ELSE IF ret (bool_decide (value self = torch_is_grad_enabled)) THEN
    assert_ (bool_decide (length args = 0) && bool_decide (size kwargs = 0)) "" ;;;
    ret (const (options ∪ GradModeVariable__guards_singleton) (PyBool grad_enabled))
  ELSE IF and_then (negb config_dynamic_shapes) (is_dynamic_shapes self args kwargs) THEN
    unimplemented ("dynamic shapes: " +:+ fn___name__ (value self))
  ELSE IF ret (bool_decide (0 < length args)
               && match args with
                  | a0 :: _ => isinstance_TensorWithTFOverrideVariable a0
                  | [] => false
                  end) THEN
    (* This code block implements inlining the __torch_function__
       override of a tensor. *)
    match args with
    | VTrack _ (TensorWithTFOverrideVariable tensor_variable source func subclass_type)
      :: rest =>
        unwrapped <- inline_torch_function_unwrapped self source func subclass_type
                       options (tensor_variable :: rest) kwargs ;;
        if default_nowrap_functions (value self) then ret unwrapped
        else ret (VTrack ∅ (TensorWithTFOverrideVariable unwrapped source func
                              subclass_type))
    | _ => raise (AttributeError "tensor_variable")
    end
  ELSE IF ret (bool_decide (value self = torch_amp_autocast_mode_autocast)) THEN
    AutocastModeVariable_create args kwargs
  ELSE IF ret (fn_in (value self)
                 [torch_profiler_profile; torch_profiler_record_function;
                  torch_autograd_profiler_profile;
                  torch_autograd_profiler_record_function]) THEN
    (* log.warning("Profiler will be ignored") *)
    ret (VTrack options NullContextVariable)
  ELSE IF ret (bool_decide (value self = torch_autograd__profiler_enabled)) THEN
    unimplemented "torch.autograd._profiler_enabled not supported yet"
  ELSE IF ret (bool_decide (value self = torch_jit_annotate)) THEN
    assert_ (bool_decide (length args = 2)) "" ;;;
    index args 1
  ELSE IF ret (bool_decide (value self = torch_backends_cudnn_is_acceptable)) THEN
    assert_ (bool_decide (length args = 1) || bool_decide (is_Some (kwargs !! "tensor")))
      "Expect 1 input to cudnn.is_acceptable" ;;;
    tensor_variable <- (if bool_decide (0 < length args) then index args 0
                        else match kwargs !! "tensor" with
                             | Some t => ret t
                             | None => raise (KeyError "tensor")
                             end) ;;
    assert_ (isinstance_TensorVariable tensor_variable)
      "Expect input to cudnn.is_acceptable to be a tensor" ;;;
    match tensor_info tensor_variable with
    | Some t => ret (const options (PyBool (cudnn_is_acceptable (dtype t) (device t))))
    | None => raise (AttributeError "dtype")
    end
  ELSE
  IF ret (bool_decide (fn___name__ (value self) = "get_state")
          && is_Generator_method (value self)) THEN
    pargs <- proxy_args_kwargs args kwargs ;;
    n <- create_proxy "call_function" (target_get_state_from_generator (value self))
           pargs.1 pargs.2 ;;
    wrap_fx_proxy n
      (Some (match value self with
             | Generator_method g _ => generator_get_state g
             | _ => ExNone
             end))
      options
  ELSE
  IF ret ((bool_decide (fn___name__ (value self) = "set_state")
           && is_Generator_method (value self))
          || bool_decide (value self = torch_random_set_rng_state)) THEN
    assert_ (bool_decide (length args = 1)) "" ;;;
    a0 <- index args 0 ;;
    assert_ (isinstance_TensorVariable a0) "" ;;;
    unimplemented
      "TODO: make torch.random.set_rng_state work with FakeTensor/aot_autograd"
  ELSE IF ret (bool_decide (value self = torch_numel)
               && bool_decide (length args = 1)
               && match args with
                  | a0 :: _ => isinstance_TensorVariable a0
                  | [] => false
                  end
               && bool_decide (size kwargs = 0)) THEN
    pargs <- proxy_args_kwargs args kwargs ;;
    n <- create_proxy "call_method" (target_name "numel") pargs.1 pargs.2 ;;
    wrap_fx_proxy n None options
  ELSE IF ret (bool_decide (value self = torch_addcdiv)
               && bool_decide (length args = 3)
               && bool_decide (is_Some (kwargs !! "value"))
               && bool_decide (size kwargs = 1)) THEN
    (* decompose addcdiv into constituent ops, prevents a graph break due
       to converting value to a scalar *)
    result <- call_function fuel' (mkTorchVariable options torch_div) (drop 1 args) ∅ ;;
    v <- match kwargs !! "value" with
         | Some v => ret v
         | None => raise (KeyError "value")
         end ;;
    result <- call_function fuel' (mkTorchVariable options torch_mul) [result; v] ∅ ;;
    a0 <- index args 0 ;;
    call_function fuel' (mkTorchVariable options torch_add) [a0; result] ∅
  ELSE generic_fallback self args kwargs options
  end.

End Classifier.

(** ** The branch speculator: [TorchPyOperator] *)

Record TorchPyOperator : Type := mkTorchPyOperator {
  op___name__ : string;
}.

(** Modelled from the spec: the [diff] method of the checkpoint, "a
    structural diff of the two states": the fields in which they differ. *)
Definition diff_fields (a b : GraphState) : list string :=
  (if bool_decide (graphargs (output a) = graphargs (output b)) then [] else ["graphargs"])
  ++ (if bool_decide (guard_state (output a) = guard_state (output b)) then []
      else ["guard_state"])
  ++ (if bool_decide (nn_modules (output a) = nn_modules (output b)) then []
      else ["nn_modules"])
  ++ (if bool_decide (side_effects (output a) = side_effects (output b)) then []
      else ["side_effects"])
  ++ (if bool_decide (timestamp (output a) = timestamp (output b)) then []
      else ["timestamp"])
  ++ (if bool_decide (name_to_input (output a) = name_to_input (output b)) then []
      else ["name_to_input"])
  ++ (if bool_decide (symbolic_locals a = symbolic_locals b) then []
      else ["symbolic_locals"]).

Definition diff (a b : GraphState) : string :=
  String.concat ", " (diff_fields a b) +:+ " mismatch".

(** [state._replace(output=state.output._replace(...))]: nub out the bits
    of state that are not required to be equal. *)
Definition comparable_state (state : GraphState) : GraphState :=
  let side_effects := side_effects (output state) in
  mkGraphState
    (mkOutputGraphState
       (graphargs (output state))
       (* guard_state=GuardsCheckpointState(set()) *)
       ∅
       (* nn_modules=None *)
       None
       (mkSideEffects
          (filter (λ kv, isinstance_NewCellVariable kv.2 = false)
                  (id_to_variable side_effects))
          (filter (λ kv, isinstance_AttributeMutationNew kv.1 = false)
                  (store_attr_mutations side_effects))
          [])
       (* timestamp=0 *)
       0
       (* name_to_input=OrderedDict() *)
       [])
    (symbolic_locals state).

Definition candidate (name : string) (i : nat) : string :=
  "cond_" +:+ name +:+ "_" +:+ pretty i.

(** The [while not next_name] loop of [add_subgraph], started at [i];
    [fuel] bounds the number of probes. *)
Fixpoint probe (fuel : nat) (name : string) (mods : gmap string Module) (i : nat)
  : option string :=
  match fuel with
  | O => None
  | S fuel' =>
      if bool_decide (is_Some (mods !! candidate name i))
      then probe fuel' name mods (S i)
      else Some (candidate name i)
  end.

Section Speculator.
Context {E : Env}.

Definition make_attr (name : string) : M Node :=
  create_proxy "get_attr" (target_name name) [] ∅.

Definition add_subgraph (name : string) (gm : Module) : M string :=
  tx <- get ;;
  match nn_modules (output (state tx)) with
  | Some mods =>
      match probe (S (size mods)) name mods 0 with
      | Some next_name =>
          register_attr_or_module gm next_name ;;;
          ret next_name
      | None => raise (RuntimeError "add_subgraph: no free name")
      end
  | None => raise (TypeError "argument of type 'NoneType' is not iterable")
  end.

(** [torch.fx.GraphModule(nn_modules, graph)] *)
Definition mkGraphModule (nn_modules : option (gmap string Module)) (g : Graph)
  : M Module :=
  match nn_modules with
  | Some mods => ret (GraphModule (map_to_list mods) g)
  | None => raise (TypeError "GraphModule root")
  end.

(** What [speculate_branch] returns:
    [output, graph, guards, nn_modules, comparable_state] *)
Record Speculation : Type := mkSpeculation {
  spec_output : VT;
  spec_graph : Graph;
  spec_guards : gset Guard;
  spec_nn_modules : option (gmap string Module);
  spec_comparable_state : GraphState;
}.

(** The first half of [speculate_branch]: trace the branch into a fresh
    fragment and take the post-branch checkpoint [state]. *)
Definition trace_branch (args : list VT) (sub_args : list VT) (branch : bool)
  : M (VT * GraphState) :=
  (* Setup the subgraph we're going to capture into *)
  modify (set_graph []) ;;;
  modify (set_output (with_graphargs [])) ;;;
  modify (set_output (with_name_to_input [])) ;;;
  (* One argument to graph per sub_args *)
  for_each (λ a,
      assert_ (isinstance_TensorVariable a) "" ;;;
      match tensor_info a with
      | Some t => create_graph_input (node_name (proxy t))
      | None => raise (AttributeError "as_proxy")
      end) sub_args ;;;
  (* NB: 0 is predicate *)
  let ix := if branch then 1 else 2 in
  fn <- index args ix ;;
  result <- user_function_call fn sub_args ∅ ;;
  (* Register output to graph *)
  assert_ (isinstance_TensorVariable result) "" ;;;
  modify (set_output (λ o, with_guard_state (guard_state o ∪ vt_guards result) o)) ;;;
  match as_proxy result with
  | Some p => create_node "output" (target_name "output") [ArgTuple [p]] ∅
  | None => raise NotImplementedError
  end ;;;
  modify (λ tx, set_output (with_side_effects (prune_dead_object_new tx)) tx) ;;;
  st <- copy_graphstate ;;
  ret (result, st).

(** [speculate_branch(branch)]: the second half nubs out the checkpoint,
    puts the enclosing fragment back and restores the enclosing state. *)
Definition speculate_branch (args : list VT) (graph_checkpoint : Graph)
    (checkpoint : GraphState) (sub_args : list VT) (branch : bool) : M Speculation :=
  traced <- trace_branch args sub_args branch ;;
  let result := traced.1 in
  let st := traced.2 in
  let guards := guard_state (output st) in
  let nn_mods := nn_modules (output st) in
  let comparable := comparable_state st in
  tx <- get ;;
  let captured := graph tx in
  modify (set_graph graph_checkpoint) ;;;
  restore_graphstate checkpoint ;;;
  ret (mkSpeculation result captured guards nn_mods comparable).

(** [TorchPyOperator.call_function(tx, args, kwargs)] *)
Definition TorchPyOperator_call_function (self : TorchPyOperator) (args : list VT)
    (kwargs : option (gmap string VT)) : M VT :=
  assert_ (match kwargs with None => true | Some k => bool_decide (size k = 0) end)
    "kwargs are not supported, yet" ;;;
  if bool_decide (op___name__ self = "cond") then
    assert_ (bool_decide (length args = 4)) "" ;;;
    a0 <- index args 0 ;;
    assert_ (type_is_TensorVariable a0) (type_name a0) ;;;   (* predicate *)
    a1 <- index args 1 ;;
    assert_ (isinstance_user_function a1) (type_name a1) ;;;  (* true_fn *)
    a2 <- index args 2 ;;
    assert_ (isinstance_user_function a2) (type_name a2) ;;;  (* false_fn *)
    a3 <- index args 3 ;;
    assert_ (isinstance_ListVariable a3) (type_name a3) ;;;   (* args *)
    tx <- get ;;
    let graph_checkpoint := graph tx in
    checkpoint <- copy_graphstate ;;
    let sub_args := items_of a3 in
    t <- speculate_branch args graph_checkpoint checkpoint sub_args true ;;
    f <- speculate_branch args graph_checkpoint checkpoint sub_args false ;;
    let true_cmp := spec_comparable_state t in
    let false_cmp := spec_comparable_state f in
    if bool_decide (true_cmp ≠ false_cmp) then
      unimplemented (diff true_cmp false_cmp)
    else
      (* Add guards *)
      modify (set_output (λ o, with_guard_state (guard_state o ∪ spec_guards f) o)) ;;;
      modify (set_output (λ o, with_guard_state (guard_state o ∪ spec_guards t) o)) ;;;
      true_gm <- mkGraphModule (spec_nn_modules t) (spec_graph t) ;;
      true_name <- add_subgraph "true" true_gm ;;
      false_gm <- mkGraphModule (spec_nn_modules f) (spec_graph f) ;;
      false_name <- add_subgraph "false" false_gm ;;
      (* Apply side effects (guaranteed to be equal) *)
      modify (set_output (with_side_effects (side_effects (output true_cmp)))) ;;;
      true_node <- make_attr true_name ;;
      false_node <- make_attr false_name ;;
      p_args <- match as_proxy a0, mapM as_proxy sub_args with
                | Some p0, Some ps =>
                    ret [p0; ArgProxy (node_id true_node); ArgProxy (node_id false_node);
                         ArgTuple ps]
                | _, _ => raise NotImplementedError
                end ;;
      example_value <- match tensor_info (spec_output t) with
                       | Some ti =>
                           match node_meta_example_value (proxy ti) with
                           | Some ex => ret ex
                           | None => raise (KeyError "example_value")
                           end
                       | None => raise (AttributeError "as_proxy")
                       end ;;
      (* Store the invocation as a call *)
      n <- create_proxy "call_function" (target_py_operator (op___name__ self)) p_args ∅ ;;
      wrap_fx_proxy n (Some example_value) ∅
  else unimplemented ("PyOperator " +:+ op___name__ self).

End Speculator.

(** ** The comparable projection as the specification words it

    "zeroes out: the guard set, any side-effect records for freshly
    created closure cells, any side-effect records for
    newly-constructed-object attribute mutations, the sub-module table
    reference, the monotonic timestamp, and the input-name bookkeeping
    table"; every other field is carried over. *)
Definition on_new_object (a : AttributeMutation) : Prop :=
  ∃ obj, a = AttributeMutationNew obj.

#[global] Instance on_new_object_dec a : Decision (on_new_object a).
Proof.
  destruct a as [obj|obj]; [right | left].
  - intros [? ?]; discriminate.
  - by exists obj.
Defined.

Definition spec_projection (st : GraphState) : GraphState :=
  mkGraphState
    (mkOutputGraphState
       (graphargs (output st))
       ∅
       None
       (mkSideEffects
          (filter (λ kv, vt_kind kv.2 ≠ NewCellVariable)
                  (id_to_variable (side_effects (output st))))
          (filter (λ kv, ¬ on_new_object kv.1)
                  (store_attr_mutations (side_effects (output st))))
          (keepalive (side_effects (output st))))
       0
       [])
    (symbolic_locals st).

Definition clear_keepalive (st : GraphState) : GraphState :=
  mkGraphState
    (with_side_effects
       (mkSideEffects (id_to_variable (side_effects (output st)))
          (store_attr_mutations (side_effects (output st))) [])
       (output st))
    (symbolic_locals st).

(** ** Vocabulary of the statements *)

(** The fixed-length tuple normalisers *)
Definition fixed_ntuple (f : TorchFn) : Prop :=
  f ∈ [utils__single; utils__pair; utils__triple; utils__quadruple].

(** What [is_tensor] / [is_tensor_like] answer for a traced value *)
Definition type_predicate_answer (f : TorchFn) (a : VT) : bool :=
  isinstance_TensorVariable a
  || (bool_decide (f = torch_overrides_is_tensor_like)
      && match vt_kind a with
         | UserDefinedObjectVariable _ has_tf => has_tf
         | _ => false
         end).

(** What [is_floating_point] / [is_complex] answer for a known dtype *)
Definition dtype_predicate_answer (f : TorchFn) (dt : Dtype) : bool :=
  if bool_decide (f = torch_is_floating_point) then dtype_is_floating_point dt
  else dtype_is_complex dt.

(** The candidate names probed before [i] *)
Definition seen (name : string) (i : nat) : gset string :=
  list_to_set (candidate name <$> seq 0 i).

(** ** Calls whose output shape depends on data (the dynamic-shape gate) *)


(** ** Concrete evaluation of emitted arithmetic nodes

    Modelled from the spec: "classify-and-concrete-evaluate the decomposed
    chain on concrete tensors equals calling the native op concretely".
    The kernels behind [div], [mul], [add] and the native [addcdiv]
    ([input + value * tensor1 / tensor2]) are not in this repository's
    Python sources; they are taken element-wise over exact rationals, a
    tensor being the list of its elements. *)







(** ** A sample environment and sample traces

    A concrete instance of the collaborators, used to run the classifier
    on explicit inputs. *)

Definition sample_constant_functions (f : TorchFn) : option PyVal :=
  match f with
  | other_fn (Some "torch.jit") "is_scripting" => Some (PyBool false)
  | other_fn (Some "torch.jit") "is_tracing" => Some (PyBool false)
  | other_fn (Some "torch._C") "_get_tracing_state" => Some PyNone
  | _ => None
  end.

Definition sample_concrete_call (f : TorchFn) (args : list PyVal)
    (kwargs : gmap string PyVal) : PyVal + Exn :=
  match f, args with
  | torch__assert, [PyBool true; _] => inl PyNone
  | torch__assert, [PyBool false; PyStr msg] => inr (AssertionError msg)
  | torch_get_default_dtype, [] => inl (PyFn (other_fn (Some "torch") "float32"))
  | torch_cuda_is_available, [] => inl (PyBool false)
  | torch_is_floating_point, [_] =>
      inr (TypeError "is_floating_point(): argument 'input' must be Tensor")
  | _, _ => inr (TypeError "bad arguments")
  end.

Definition sample_get_fake_value (n : Node) (tx : Tx) : Res Example :=
  match node_target n with
  | target_fn (other_fn (Some "torch") "sort") =>
      Ok (ExTuple [ExTensor float32 "cpu" [2%Z]; ExTensor int64 "cpu" [2%Z]])
  | target_fn (other_fn (Some "torch") "manual_seed") => Ok ExNone
  | _ => Ok (ExTensor float32 "cpu" [2%Z])
  end.

Definition add_guard (g : Guard) (v : VT) : VT :=
  VTrack (vt_guards v ∪ {[g]}) (vt_kind v).

(** Three user functions: 1 and 2 return their first operand under
    different guards; 3 also records a mutation of an outer object. *)
Definition sample_user_function_call (fn : VT) (args : list VT)
    (kwargs : gmap string VT) : M VT :=
  match vt_kind fn, args with
  | UserFunctionVariable 1, a :: _ => ret (add_guard "guard_true" a)
  | UserFunctionVariable 2, a :: _ => ret (add_guard "guard_false" a)
  | UserFunctionVariable 3, a :: _ =>
      modify (set_output (λ o,
        with_side_effects
          (mkSideEffects (<[7 := a]> (id_to_variable (side_effects o)))
             (store_attr_mutations (side_effects o))
             (keepalive (side_effects o))) o)) ;;;
      ret a
  | _, _ => raise (TypeError "not callable")
  end.

Definition sample_env : Env := {|
  config_constant_functions := sample_constant_functions;
  config_dynamic_shapes := false;
  HAS_NUMPY := true;
  distributed_is_available := true;
  concrete_call := sample_concrete_call;
  grad_enabled := true;
  cudnn_is_acceptable := λ dt dev,
    bool_decide (dev = Some "cuda")
    && bool_decide (dt ∈ [Some float16; Some float32; Some float64]);
  default_nowrap_functions := λ _, false;
  get_fake_value := sample_get_fake_value;
  generator_get_state := λ _, ExTensor uint8 "cpu" [5056%Z];
  inline_torch_function_unwrapped := λ _ _ _ _ options args _,
    match args with
    | a :: _ => ret a
    | [] => raise IndexError
    end;
  tensor_call_method := λ _ _ _ _, unimplemented "call_method";
  user_function_call := sample_user_function_call;
  prune_dead_object_new := λ tx, side_effects (output (state tx));
  GradModeVariable_create := λ c g,
    ret (VTrack g (GradModeVariable (bool_decide (c = PyBool true))));
  AutocastModeVariable_create := λ args _, ret (VTrack ∅ (AutocastModeVariable args));
  GradModeVariable__guards_singleton := {["GRAD_MODE"]};
|}.

Definition sample_tensor (name : string) (dt : Dtype) : VT :=
  VTrack ∅
    (TensorVariable
       (mkTensor (mkProxy name (Some (ExTensor dt "cpu" [3%Z; 4%Z])))
          (Some dt) (Some "cpu") (Some [3%Z; 4%Z]))).

Definition sample_const (c : PyVal) : VT := VTrack ∅ (ConstantVariable c).

Definition sample_symint (name : string) : VT :=
  VTrack ∅ (DynamicShapeVariable (mkProxy name (Some ExSym))).

Definition empty_tx : Tx :=
  mkTx [] (mkGraphState
             (mkOutputGraphState [] ∅ (Some ∅) (mkSideEffects ∅ ∅ []) 0 [])
             ∅).

(** ** Vocabulary of the addcdiv decomposition *)





Definition tx_with_local (name : string) (v : VT) : Tx :=
  set_symbolic_locals (λ _, {[name := v]}) empty_tx.

Definition sample_override : VT :=
  VTrack ∅ (TensorWithTFOverrideVariable (sample_tensor "a" float32) "src" 0 "MyTensor").

Definition sample_cond_args (true_fn false_fn : nat) : list VT :=
  [sample_tensor "p" bool_;
   VTrack ∅ (UserFunctionVariable true_fn);
   VTrack ∅ (UserFunctionVariable false_fn);
   VTrack ∅ (ListVariable [sample_tensor "x" float32])].

(** a live trace that keeps one object alive *)
Definition keepalive_tx : Tx :=
  mkTx [] (mkGraphState
             (mkOutputGraphState [] ∅ (Some ∅) (mkSideEffects ∅ ∅ [1]) 0 [])
             ∅).

Definition sample_speculation (branch : bool) : Speculation :=
  match speculate_branch (E := sample_env) (sample_cond_args 1 2)
          (graph empty_tx) (state empty_tx) [sample_tensor "x" float32] branch
          empty_tx with
  | Ok (s, _) => s
  | _ => mkSpeculation (sample_const PyNone) [] ∅ None (state empty_tx)
  end.

(** ** [TorchVariable.__init__], [unique_var_name] *)

(** The bound dunder methods of [torch._C._TensorBase] that
    [tensor_dunder_fns_remap] sends to plain module-level functions. *)
Definition _TensorBase___radd__ : TorchFn := other_fn (Some "torch._C._TensorBase") "__radd__".
Definition _TensorBase___rmul__ : TorchFn := other_fn (Some "torch._C._TensorBase") "__rmul__".
Definition _TensorBase___ror__ : TorchFn := other_fn (Some "torch._C._TensorBase") "__ror__".
Definition _TensorBase___rxor__ : TorchFn := other_fn (Some "torch._C._TensorBase") "__rxor__".
Definition _TensorBase___rand__ : TorchFn := other_fn (Some "torch._C._TensorBase") "__rand__".

Definition this_module : option string := Some "torch._dynamo.variables.torch".

Definition remap_as_fn___radd__ : TorchFn := other_fn this_module "remap_as_fn___radd__".
Definition remap_as_fn___rmul__ : TorchFn := other_fn this_module "remap_as_fn___rmul__".
Definition remap_as_fn___ror__ : TorchFn := other_fn this_module "remap_as_fn___ror__".
Definition remap_as_fn___rxor__ : TorchFn := other_fn this_module "remap_as_fn___rxor__".
Definition remap_as_fn___rand__ : TorchFn := other_fn this_module "remap_as_fn___rand__".

Definition tensor_dunder_fns_remap : list (TorchFn * TorchFn) :=
  [ (_TensorBase___radd__, remap_as_fn___radd__);
    (_TensorBase___rmul__, remap_as_fn___rmul__);
    (_TensorBase___ror__, remap_as_fn___ror__);
    (_TensorBase___rxor__, remap_as_fn___rxor__);
    (_TensorBase___rand__, remap_as_fn___rand__) ].

(** [table[value]] on an association list keyed by operator identity *)
Fixpoint remap_lookup (table : list (TorchFn * TorchFn)) (f : TorchFn) : option TorchFn :=
  match table with
  | [] => None
  | (k, v) :: rest => if bool_decide (f = k) then Some v else remap_lookup rest f
  end.

(** What [getattr(value, "__self__", None)] finds: nothing, a module, the
    null capsule of some [_C] functions, a [torch._C.Generator], another
    object, or a [RuntimeError] raised by the lookup. *)
Inductive BoundSelf : Type :=
| self_None
| self_ModuleType (name : string)
| self_null_capsule
| self_Generator
| self_object
| self_RuntimeError (msg : string).

Fixpoint starts_with (p s : string) : bool :=
  match p, s with
  | EmptyString, _ => true
  | String a p', String b s' => bool_decide (a = b) && starts_with p' s'
  | String _ _, EmptyString => false
  end.

(** [sub in s] *)
Fixpoint contains (sub s : string) : bool :=
  starts_with sub s
  || match s with
     | EmptyString => false
     | String _ s' => contains sub s'
     end.

Fixpoint drop_string (n : nat) (s : string) : string :=
  match n, s with
  | O, _ => s
  | S n', String _ s' => drop_string n' s'
  | S _, EmptyString => EmptyString
  end.

Definition newline : string := String (Ascii.ascii_of_nat 10) EmptyString.

(** [re.match(r"^(torch|math)([.]|$)", name)]: [$] matches at the end of
    the string and before a final newline. *)
Definition match_torch_or_math (name : string) : bool :=
  let after (prefix : string) :=
    starts_with prefix name
    && (let rest := drop_string (String.length prefix) name in
        starts_with "." rest
        || bool_decide (rest = "")
        || bool_decide (rest = newline)) in
  after "torch" || after "math".

(** [TorchVariable.__init__(value, **kwargs)]; [attr___self__] answers
    [getattr(_, "__self__", None)] and [str] is Python's [str()] of a
    callable. *)
Definition TorchVariable___init__ (attr___self__ : TorchFn → BoundSelf)
    (str : TorchFn → string) (value : TorchFn) (guards : gset Guard)
  : Exn + TorchVariable :=
  let value := match remap_lookup tensor_dunder_fns_remap value with
               | Some f => f
               | None => value
               end in
  (* the remainder of this is just optional debug checks *)
  let checked (self_should_be_none : BoundSelf) : Exn + TorchVariable :=
    match self_should_be_none with
    | self_None => inr (mkTorchVariable guards value)
    | self_ModuleType name =>
        (* weird ones like torch.nn.functional.avg_pool2d have __self__ *)
        if match_torch_or_math name then inr (mkTorchVariable guards value)
        else inl (AssertionError ("__self__ set to " +:+ name))
    | self_null_capsule =>
        (* some _C functions have __self__ as a null capsule *)
        inr (mkTorchVariable guards value)
    | self_Generator => inr (mkTorchVariable guards value)
    | self_object | self_RuntimeError _ =>
        inl (AssertionError (str value +:+ " found with __self__ set"))
    end in
  match attr___self__ value with
  | self_RuntimeError e =>
      if contains "No such operator" e then checked self_None
      else inl (AssertionError e)
  | s => checked s
  end.

Definition is_identifier_char (c : Ascii.ascii) : bool :=
  let n := Ascii.nat_of_ascii c in
  (Nat.leb 97 n && Nat.leb n 122)     (* a-z *)
  || (Nat.leb 65 n && Nat.leb n 90)   (* A-Z *)
  || (Nat.leb 48 n && Nat.leb n 57)   (* 0-9 *)
  || Nat.eqb n 95.                    (* _ *)

Definition underscore : Ascii.ascii := Ascii.ascii_of_nat 95.

(** [re.sub(r"[^a-zA-Z0-9_]+", "_", name)]: every maximal run of
    characters outside the class becomes one underscore.  [in_run] says
    that the previous character was already part of a run. *)
Fixpoint sub_non_identifier (in_run : bool) (name : string) : string :=
  match name with
  | EmptyString => EmptyString
  | String c rest =>
      if is_identifier_char c then String c (sub_non_identifier false rest)
      else if in_run then sub_non_identifier true rest
      else String underscore (sub_non_identifier true rest)
  end.

(** [TorchVariable.unique_var_name]; [torch_get_name] is
    [allowed_functions.torch_get_name(value, default)] and [id] is Python's
    [id()]. *)
Definition unique_var_name (torch_get_name : TorchFn → string → string)
    (id : TorchFn → nat) (self : TorchVariable) : string :=
  let name := torch_get_name (value self) ("allowed_fn_" +:+ pretty (id (value self))) in
  "__" +:+ sub_non_identifier false name.

Fixpoint string_to_list (s : string) : list Ascii.ascii :=
  match s with
  | EmptyString => []
  | String c rest => c :: string_to_list rest
  end.

(** * Verification *)

(** ** Reasoning about the tracing monad *)

Lemma bind_Ok {A B} (m : M A) (k : A → M B) tx r :
  bind m k tx = Ok r ↔ ∃ a tx', m tx = Ok (a, tx') ∧ k a tx' = Ok r.
Proof.
  unfold bind. split.
  - destruct (m tx) as [[a tx']| |]; [eauto | discriminate..].
  - intros (a & tx' & -> & ?). done.
Qed.


Lemma assert_Ok cond msg tx r :
  assert_ cond msg tx = Ok r ↔ cond = true ∧ r = (tt, tx).
Proof.
  unfold assert_. destruct cond; cbn; split.
  - intros [= <-]. done.
  - intros [_ ->]. done.
  - discriminate.
  - intros [? _]; discriminate.
Qed.

Ltac decide_closed :=
  repeat match goal with
  | |- context [@bool_decide (@eq TorchFn ?a ?b) ?d] =>
      first [ rewrite (@bool_decide_eq_true_2 (a = b) d) by reflexivity
            | rewrite (@bool_decide_eq_false_2 (a = b) d) by discriminate ]
  | |- context [@bool_decide (@eq string ?a ?b) ?d] =>
      first [ rewrite (@bool_decide_eq_true_2 (a = b) d) by reflexivity
            | rewrite (@bool_decide_eq_false_2 (a = b) d) by discriminate ]
  | |- context [@bool_decide (@eq (option string) ?a ?b) ?d] =>
      first [ rewrite (@bool_decide_eq_true_2 (a = b) d) by reflexivity
            | rewrite (@bool_decide_eq_false_2 (a = b) d) by discriminate ]
  end.

Arguments is_dynamic_shapes : simpl never.
Arguments generic_fallback : simpl never.
Arguments handle_ntuple : simpl never.
Arguments propagate : simpl never.
Arguments bind_signature : simpl never.

Section FoldEligible.
Context {E : Env}.

(** Operators outside the allow-list and outside [math] are not
    fold-eligible, whatever [torch.distributed.is_available()] says. *)
Lemma can_constant_fold_through_false self :
  fn_in (value self)
    [torch__assert; torch__utils__get_device_index; torch_cuda_is_available;
     torch_device; torch_distributed_is_available; torch_finfo;
     torch_get_default_dtype; torch_iinfo; torch_is_floating_point;
     torch_nn_functional__Reduction_get_enum;
     torch_distributed_is_initialized] = false →
  fn___module__ (value self) ≠ Some "math" →
  can_constant_fold_through self = false.
Proof.
  intros Hin Hm. unfold can_constant_fold_through, constant_fold_functions.
  rewrite bool_decide_eq_false_2 by done.
  destruct distributed_is_available.
  - simpl app. by rewrite Hin.
  - unfold fn_in in *. rewrite existsb_app. simpl in *.
    repeat (apply orb_false_elim in Hin; destruct Hin as [? Hin]).
    repeat (apply orb_false_intro; try done).
Qed.

End FoldEligible.

Ltac enter Hc :=
  cbn [call_function value]; rewrite ?Hc;
  rewrite ?can_constant_fold_through_false by (vm_compute; done);
  cbn; decide_closed; cbn.

Section Dispatch.
Context {E : Env}.

Lemma handle_ntuple_cases count captured v tx :
  handle_ntuple count captured v tx =
  match unpack_var_sequence v with
  | Some items => Ok (VTrack (captured ∪ vt_guards v) (TupleVariable items), tx)
  | None =>
      match as_python_constant v with
      | Some c => Ok (const (captured ∪ vt_guards v) (_ntuple count c), tx)
      | None => Unsupported "torch.nn.modules.utils._ntuple(value)"
      end
  end.
Proof.
  unfold handle_ntuple, has_unpack_var_sequence, is_python_constant.
  destruct (unpack_var_sequence v) as [items|].
  - rewrite bool_decide_eq_true_2 by eauto. done.
  - rewrite bool_decide_eq_false_2 by (by intros [? ?]).
    destruct (as_python_constant v) as [c|].
    + rewrite bool_decide_eq_true_2 by eauto. done.
    + rewrite bool_decide_eq_false_2 by (by intros [? ?]). done.
Qed.

Lemma fixed_ntuple_call fuel g f v rest kwargs tx :
  fixed_ntuple f →
  config_constant_functions f = None →
  call_function (S fuel) (mkTorchVariable g f) (v :: rest) kwargs tx
  = handle_ntuple (ntuple_closure_count f)
      (propagate g ((v :: rest) ++ kwargs_values kwargs)) v tx.
Proof.
  intros Hf Hc. unfold fixed_ntuple in Hf.
  rewrite !elem_of_cons in Hf.
  destruct Hf as [->|[->|[->|[->|Hf]]]]; [..|by apply elem_of_nil in Hf];
    enter Hc; reflexivity.
Qed.

(** C10.  A fixed-length tuple normaliser ([_single], [_pair], [_triple],
    [_quadruple]) applied to a value that supports sequence unpacking
    yields the tuple of exactly that value's elements: the nominal arity of
    the constructor plays no part and the length is never checked, so
    [_pair] of a three-element sequence is a three-element tuple. *)
Theorem fixed_ntuple_unpacks_without_length_check fuel g f v rest kwargs items tx :
  fixed_ntuple f →
  config_constant_functions f = None →
  unpack_var_sequence v = Some items →
  call_function (S fuel) (mkTorchVariable g f) (v :: rest) kwargs tx
  = Ok (VTrack (propagate g ((v :: rest) ++ kwargs_values kwargs) ∪ vt_guards v)
          (TupleVariable items), tx).
Proof.
  intros Hf Hc Hu. rewrite fixed_ntuple_call by done.
  rewrite handle_ntuple_cases, Hu. done.
Qed.


Lemma ntuple_call fuel g n z rest kwargs tx :
  config_constant_functions utils__ntuple = None →
  as_python_constant n = Some (PyInt z) →
  call_function (S fuel) (mkTorchVariable g utils__ntuple) (n :: rest) kwargs tx
  = Ok (VTrack (propagate g ((n :: rest) ++ kwargs_values kwargs))
          (LambdaVariable
             (handle_ntuple_closure z
                (propagate g ((n :: rest) ++ kwargs_values kwargs)))), tx).
Proof.
  intros Hc Hn. enter Hc. unfold _call_ntuple, bind. cbn. rewrite Hn. reflexivity.
Qed.

(** C7, as amended.  Only [_ntuple(n)] is classified as a lambda; calling
    that lambda on one value is [handle_ntuple].  The fixed-length
    constructors [_single], [_pair], [_triple], [_quadruple] apply
    [handle_ntuple] to their first argument at once.  [handle_ntuple]
    yields the value's elements as a tuple when the value supports sequence
    unpacking, otherwise the folded broadcast of a known constant, and
    Unsupported for any other input. *)
Theorem tuple_normalizers fuel g f n z v rest kwargs tx :
  fixed_ntuple f →
  config_constant_functions f = None →
  config_constant_functions utils__ntuple = None →
  as_python_constant n = Some (PyInt z) →
  let captured x := propagate g ((x :: rest) ++ kwargs_values kwargs) in
  (* _ntuple(n) specialises to a lambda, which is handle_ntuple *)
  call_function (S fuel) (mkTorchVariable g utils__ntuple) (n :: rest) kwargs tx
    = Ok (VTrack (captured n)
            (LambdaVariable (handle_ntuple_closure z (captured n))), tx)
  ∧ call_lambda (handle_ntuple_closure z (captured n)) [v] tx
    = handle_ntuple z (captured n) v tx
  (* the fixed-length constructors apply handle_ntuple at once *)
  ∧ call_function (S fuel) (mkTorchVariable g f) (v :: rest) kwargs tx
    = handle_ntuple (ntuple_closure_count f) (captured v) v tx
  (* what handle_ntuple yields *)
  ∧ (∀ count c items,
       unpack_var_sequence v = Some items →
       handle_ntuple count c v tx
       = Ok (VTrack (c ∪ vt_guards v) (TupleVariable items), tx))
  ∧ (∀ count c k,
       unpack_var_sequence v = None →
       as_python_constant v = Some k →
       handle_ntuple count c v tx
       = Ok (const (c ∪ vt_guards v) (_ntuple count k), tx))
  ∧ (∀ count c,
       unpack_var_sequence v = None →
       as_python_constant v = None →
       ∃ reason, handle_ntuple count c v tx = Unsupported reason).
Proof.
  intros Hf Hc Hcn Hn captured. repeat split.
  - by apply ntuple_call.
  - by apply fixed_ntuple_call.
  - intros count c items Hu. by rewrite handle_ntuple_cases, Hu.
  - intros count c k Hu Hk. by rewrite handle_ntuple_cases, Hu, Hk.
  - intros count c Hu Hk. rewrite handle_ntuple_cases, Hu, Hk. eauto.
Qed.







(** What the cudnn.is_acceptable arm does with one positional tensor,
    whatever else is passed by keyword. *)
Lemma cudnn_is_acceptable_positional fuel g gt t kwargs tx :
  config_constant_functions torch_backends_cudnn_is_acceptable = None →
  call_function (S fuel) (mkTorchVariable g torch_backends_cudnn_is_acceptable)
    [VTrack gt (TensorVariable t)] kwargs tx
  = Ok (const (propagate g ([VTrack gt (TensorVariable t)] ++ kwargs_values kwargs))
          (PyBool (cudnn_is_acceptable (dtype t) (device t))), tx).
Proof.
  intros Hc. enter Hc.
  unfold elif, and_then, bind.
  destruct config_dynamic_shapes; reflexivity.
Qed.

Lemma cudnn_is_acceptable_keyword fuel g gt t tx :
  config_constant_functions torch_backends_cudnn_is_acceptable = None →
  call_function (S fuel) (mkTorchVariable g torch_backends_cudnn_is_acceptable)
    [] {["tensor" := VTrack gt (TensorVariable t)]} tx
  = Ok (const (propagate g ([] ++ kwargs_values {["tensor" := VTrack gt (TensorVariable t)]}))
          (PyBool (cudnn_is_acceptable (dtype t) (device t))), tx).
Proof.
  intros Hc. enter Hc.
  unfold elif, and_then, bind.
  destruct config_dynamic_shapes; reflexivity.
Qed.


(** C9.  The check "Expect 1 input to cudnn.is_acceptable" passes as soon
    as a [tensor] keyword is present: a call with a positional tensor, any
    further positional arguments and a [tensor] keyword is answered with a
    constant computed from the first positional tensor's dtype and device,
    where a wrong arity should have failed the assertion. *)
Theorem cudnn_is_acceptable_arity_not_checked fuel g gt t rest kwargs tx :
  config_constant_functions torch_backends_cudnn_is_acceptable = None →
  is_Some (kwargs !! "tensor") →
  call_function (S fuel) (mkTorchVariable g torch_backends_cudnn_is_acceptable)
    (VTrack gt (TensorVariable t) :: rest) kwargs tx
  = Ok (const (propagate g ((VTrack gt (TensorVariable t) :: rest) ++ kwargs_values kwargs))
          (PyBool (cudnn_is_acceptable (dtype t) (device t))), tx).
Proof.
  intros Hc Hk. enter Hc.
  unfold elif, and_then, bind.
  rewrite (bool_decide_eq_true_2 (is_Some (kwargs !! "tensor"))) by done.
  rewrite orb_true_r.
  rewrite (bool_decide_eq_true_2 (0 < S (length rest))) by lia.
  destruct config_dynamic_shapes; reflexivity.
Qed.

Lemma tensor_not_python_constant a t :
  tensor_info a = Some t → is_python_constant a = false.
Proof.
  destruct a as [g k]. destruct k; try discriminate; intros _;
    apply bool_decide_eq_false_2; by intros [? ?].
Qed.

Lemma tensor_isinstance a t :
  tensor_info a = Some t → isinstance_TensorVariable a = true.
Proof. destruct a as [g k]. by destruct k. Qed.

Lemma tensor_not_override a t :
  tensor_info a = Some t → isinstance_TensorWithTFOverrideVariable a = false.
Proof. destruct a as [g k]. by destruct k. Qed.

Lemma is_tensor_shortcut fuel g f a kwargs tx :
  f ∈ [torch_is_tensor; torch_overrides_is_tensor_like] →
  config_constant_functions f = None →
  call_function (S fuel) (mkTorchVariable g f) [a] kwargs tx
  = Ok (const (propagate g ([a] ++ kwargs_values kwargs))
          (PyBool (type_predicate_answer f a)), tx).
Proof.
  intros Hf Hc. rewrite !elem_of_cons in Hf.
  destruct Hf as [->|[->|Hf]]; [..|by apply elem_of_nil in Hf];
    enter Hc; unfold type_predicate_answer; decide_closed; cbn;
    unfold bind; cbn;
    by destruct (isinstance_TensorVariable a), (vt_kind a) as [| | | | | | | | ? []| | | | | | | |].
Qed.

Lemma rule2_skipped_for_tensor g f a t rest kwargs :
  tensor_info a = Some t →
  (f = torch_is_floating_point → check_unspec_python_args (a :: rest) kwargs = false) →
  f ∈ [torch_is_floating_point; torch_is_complex] →
  can_constant_fold_through (mkTorchVariable g f)
  && (check_constant_args (a :: rest) kwargs
      || check_unspec_python_args (a :: rest) kwargs) = false.
Proof.
  intros Ht Hu Hf. rewrite !elem_of_cons in Hf.
  destruct Hf as [->|[->|Hf]]; [..|by apply elem_of_nil in Hf].
  - rewrite Hu by done. unfold check_constant_args. cbn.
    rewrite (tensor_not_python_constant a t) by done. cbn.
    by rewrite andb_false_r.
  - by rewrite can_constant_fold_through_false by (vm_compute; done).
Qed.

Lemma dtype_shortcut fuel g f a t dt rest kwargs tx :
  f ∈ [torch_is_floating_point; torch_is_complex] →
  config_constant_functions f = None →
  tensor_info a = Some t →
  dtype t = Some dt →
  (f = torch_is_floating_point → check_unspec_python_args (a :: rest) kwargs = false) →
  call_function (S fuel) (mkTorchVariable g f) (a :: rest) kwargs tx
  = Ok (const (propagate g ((a :: rest) ++ kwargs_values kwargs))
          (PyBool (dtype_predicate_answer f dt)), tx).
Proof.
  intros Hf Hc Ht Hdt Hu.
  pose proof (rule2_skipped_for_tensor g f a t rest kwargs Ht Hu Hf) as Hr2.
  cbn [call_function value]. rewrite Hc, Hr2.
  rewrite !elem_of_cons in Hf.
  destruct Hf as [->|[->|Hf]]; [..|by apply elem_of_nil in Hf];
    cbn; decide_closed; cbn; unfold elif, and_then, bind; cbn;
    rewrite (tensor_isinstance a t), Ht by done; cbn; rewrite Hdt; cbn;
    reflexivity.
Qed.

Lemma dtype_unknown_falls_through fuel g f a t rest kwargs tx :
  f ∈ [torch_is_floating_point; torch_is_complex] →
  config_constant_functions f = None →
  tensor_info a = Some t →
  dtype t = None →
  (f = torch_is_floating_point → check_unspec_python_args (a :: rest) kwargs = false) →
  call_function (S fuel) (mkTorchVariable g f) (a :: rest) kwargs tx
  = generic_fallback (mkTorchVariable g f) (a :: rest) kwargs
      (propagate g ((a :: rest) ++ kwargs_values kwargs)) tx.
Proof.
  intros Hf Hc Ht Hdt Hu.
  pose proof (rule2_skipped_for_tensor g f a t rest kwargs Ht Hu Hf) as Hr2.
  cbn [call_function value]. rewrite Hc, Hr2.
  rewrite !elem_of_cons in Hf.
  destruct Hf as [->|[->|Hf]]; [..|by apply elem_of_nil in Hf];
    cbn; decide_closed; cbn; unfold elif, and_then, bind; cbn;
    rewrite (tensor_isinstance a t), (tensor_not_override a t), Ht by done;
    cbn; rewrite Hdt; cbn;
    rewrite ?andb_false_r; destruct config_dynamic_shapes; reflexivity.
Qed.


(** C8, as amended.  [is_tensor] and [is_tensor_like] called with one
    argument always fold to a constant computed from the kind of the
    argument.  [is_floating_point] and [is_complex] on a tensor variable,
    when the constant-folding rule does not claim the call first (for
    [is_floating_point]: the arguments are not all constants and
    unspecialized scalars), fold to a constant computed from the dtype when
    it is known, leaving the trace untouched, and reach the generic
    fallback when it is not. *)
Theorem type_predicate_shortcuts fuel g f a t rest kwargs tx :
  config_constant_functions f = None →
  (* is_tensor / is_tensor_like always answer from the kind of the value *)
  (f ∈ [torch_is_tensor; torch_overrides_is_tensor_like] →
   call_function (S fuel) (mkTorchVariable g f) [a] kwargs tx
   = Ok (const (propagate g ([a] ++ kwargs_values kwargs))
           (PyBool (type_predicate_answer f a)), tx))
  ∧ (f ∈ [torch_is_floating_point; torch_is_complex] →
     tensor_info a = Some t →
     (f = torch_is_floating_point →
      check_unspec_python_args (a :: rest) kwargs = false) →
     (* known dtype: answered from the metadata, the trace is untouched *)
     (∀ dt, dtype t = Some dt →
        call_function (S fuel) (mkTorchVariable g f) (a :: rest) kwargs tx
        = Ok (const (propagate g ((a :: rest) ++ kwargs_values kwargs))
                (PyBool (dtype_predicate_answer f dt)), tx))
     (* unknown dtype: the generic fallback *)
     ∧ (dtype t = None →
        call_function (S fuel) (mkTorchVariable g f) (a :: rest) kwargs tx
        = generic_fallback (mkTorchVariable g f) (a :: rest) kwargs
            (propagate g ((a :: rest) ++ kwargs_values kwargs)) tx)).
Proof.
  intros Hc. split.
  - intros Hf. by apply is_tensor_shortcut.
  - intros Hf Ht Hu. split.
    + intros dt Hdt. by eapply dtype_shortcut.
    + intros Hdt. by eapply dtype_unknown_falls_through.
Qed.

End Dispatch.

(** ** The [out=] block *)

Lemma find_symbolic_locals_name_lookup (locals : gmap string VT) v n :
  find_symbolic_locals_name locals v = Some n → locals !! n = Some v.
Proof.
  unfold find_symbolic_locals_name. intros Hf.
  apply fmap_Some in Hf as ([i [k w]] & Hfind & ->).
  apply list_find_Some in Hfind as (Hl & Hw & _). cbn in *. subst w.
  apply elem_of_map_to_list. eapply list_elem_of_lookup_2. exact Hl.
Qed.

Lemma rebind_loop_spec (ns : list string) : ∀ (items : list VT) (idx : nat) tx,
  NoDup ns →
  Forall (λ n, is_Some (symbolic_locals (state tx) !! n)) ns →
  (idx + length ns ≤ length items)%nat →
  ∃ locals',
    rebind_loop (Some <$> ns) items idx tx
    = Ok (tt, set_symbolic_locals (λ _, locals') tx)
    ∧ (∀ i n, ns !! i = Some n → locals' !! n = items !! (idx + i)%nat)
    ∧ (∀ n, n ∉ ns → locals' !! n = symbolic_locals (state tx) !! n).
Proof.
  induction ns as [|n ns IH]; intros items idx tx Hnd Hin Hlen.
  - exists (symbolic_locals (state tx)). split; [by destruct tx as [? []]|].
    split; [intros i n Hi; by rewrite lookup_nil in Hi | done].
  - apply NoDup_cons in Hnd as [Hn Hnd].
    apply Forall_cons in Hin as [Hn_in Hin]. cbn in Hlen.
    destruct (lookup_lt_is_Some_2 items idx) as [v Hv]; [lia|].
    set (tx1 := set_symbolic_locals <[n := v]> tx).
    destruct (IH items (S idx) tx1) as (locals' & Hrun & Hnew & Hold).
    { done. }
    { eapply Forall_impl; [exact Hin|]. intros m Hm. cbn.
      destruct (decide (n = m)) as [->|Hne].
      - rewrite lookup_insert_eq. eauto.
      - by rewrite lookup_insert_ne. }
    { lia. }
    exists locals'. split; [|split].
    + cbn [fmap list_fmap rebind_loop]. unfold bind, get, assert_, index, modify.
      cbn. rewrite bool_decide_eq_true_2 by done. cbn. rewrite Hv. cbn.
      fold tx1. rewrite Hrun. done.
    + intros [|i] m Hi; cbn in Hi.
      * injection Hi as <-. rewrite Hold by done. cbn.
        rewrite lookup_insert_eq. by rewrite Nat.add_0_r.
      * rewrite (Hnew i m Hi). f_equal. lia.
    + intros m Hm. apply not_elem_of_cons in Hm as [Hne Hm].
      rewrite Hold by done. cbn. by rewrite lookup_insert_ne.
Qed.


Section Decomposition.
Context {E : Env}.

(** ** The algebraic decomposition of addcdiv *)









End Decomposition.

(** ** Naming of sub-graphs: the probe always finds a free name *)

Lemma candidate_inj name : Inj (=) (=) (candidate name).
Proof.
  intros i j Hc. unfold candidate in Hc.
  do 3 apply String.app_inj in Hc. by apply pretty_nat_inj in Hc.
Qed.

Lemma seen_S name i : seen name (S i) = seen name i ∪ {[candidate name i]}.
Proof.
  unfold seen. rewrite seq_S, fmap_app, list_to_set_app_L. cbn. set_solver.
Qed.

Lemma not_seen name i : candidate name i ∉ seen name i.
Proof.
  unfold seen. rewrite elem_of_list_to_set, list_elem_of_fmap.
  intros (j & Hc & Hj). apply candidate_inj in Hc as <-.
  apply elem_of_seq in Hj. lia.
Qed.

Lemma probe_from fuel name (mods : gmap string Module) : ∀ i,
  size (dom mods ∖ seen name i) < fuel →
  ∃ c, probe fuel name mods i = Some c ∧ mods !! c = None.
Proof.
  induction fuel as [|fuel IH]; intros i Hsz; [lia|]. cbn.
  destruct (mods !! candidate name i) as [m|] eqn:Hm.
  - rewrite bool_decide_eq_true_2 by eauto. apply IH.
    assert (candidate name i ∈ dom mods ∖ seen name i) as Hin.
    { apply elem_of_difference. split; [by apply elem_of_dom|apply not_seen]. }
    assert (dom mods ∖ seen name (S i)
            = (dom mods ∖ seen name i) ∖ {[candidate name i]}) as ->.
    { rewrite seen_S. set_solver. }
    rewrite size_difference by set_solver. rewrite size_singleton.
    assert (size (dom mods ∖ seen name i) ≠ 0); [|lia].
    apply size_non_empty_iff. set_solver.
  - rewrite bool_decide_eq_false_2 by (by intros [? ?]). eauto.
Qed.

Lemma probe_finds name (mods : gmap string Module) :
  ∃ c, probe (S (size mods)) name mods 0 = Some c ∧ mods !! c = None.
Proof.
  apply probe_from. rewrite <- size_dom.
  assert (size (dom mods ∖ seen name 0) ≤ size (dom mods))%nat; [|lia].
  apply subseteq_size. set_solver.
Qed.

(** ** The branch speculator *)

Ltac inv_bind H :=
  let a := fresh "a" in
  let tx := fresh "tx" in
  let Ha := fresh "H" a in
  apply bind_Ok in H as (a & tx & Ha & H).

Lemma for_each_Forall {A B} (f : A → M B) (P : A → Prop) :
  (∀ a tx r, f a tx = Ok r → P a) →
  ∀ l tx r, for_each f l tx = Ok r → Forall P l.
Proof.
  intros Hf. induction l as [|a l IH]; intros tx r Hr; [constructor|].
  cbn in Hr. inv_bind Hr. inv_bind Hr.
  constructor; eauto.
Qed.


Lemma tensor_info_is_Some a :
  isinstance_TensorVariable a = true → is_Some (tensor_info a).
Proof. destruct a as [g k]. destruct k; cbn; try discriminate; eauto. Qed.

Section Speculation.
Context {E : Env}.

Lemma trace_branch_Ok args sub_args branch tx result st tx1 :
  trace_branch args sub_args branch tx = Ok ((result, st), tx1) →
  Forall (λ a, isinstance_TensorVariable a = true) sub_args
  ∧ isinstance_TensorVariable result = true
  ∧ st = state tx1
  ∧ is_Some (nn_modules (output st)).
Proof.
  unfold trace_branch. intros Hr.
  do 3 inv_bind Hr.
  apply bind_Ok in Hr as (inputs & txi & Hinputs & Hr).
  do 2 inv_bind Hr.
  apply bind_Ok in Hr as ([] & txa & Hassert & Hr).
  apply assert_Ok in Hassert as [Hres _].
  do 3 inv_bind Hr.
  apply bind_Ok in Hr as (st' & txc & Hcopy & Hr).
  injection Hr as <- <- <-.
  unfold copy_graphstate in Hcopy.
  destruct (nn_modules _) as [mods|] eqn:Hmods in Hcopy; [|discriminate].
  injection Hcopy as <- <-.
  repeat split; [|done|by rewrite Hmods].
  eapply for_each_Forall; [|exact Hinputs].
  intros x tx' r Hx. apply bind_Ok in Hx as (? & ? & Hx & _).
  by apply assert_Ok in Hx as [? _].
Qed.

Lemma speculate_branch_Ok args gc cp sub_args branch tx r tx' :
  speculate_branch args gc cp sub_args branch tx = Ok (r, tx') →
  tx' = mkTx gc cp
  ∧ ∃ result st tx1,
      trace_branch args sub_args branch tx = Ok ((result, st), tx1)
      ∧ r = mkSpeculation result (graph tx1) (guard_state (output st))
              (nn_modules (output st)) (comparable_state st).
Proof.
  unfold speculate_branch. intros Hr.
  apply bind_Ok in Hr as ([result st] & tx1 & Htrace & Hr).
  cbn in Hr. injection Hr as <- <-. eauto 10.
Qed.




Lemma comparable_state_spec st :
  comparable_state st = clear_keepalive (spec_projection st).
Proof.
  unfold comparable_state, clear_keepalive, spec_projection, with_side_effects.
  cbn. f_equal. f_equal. f_equal.
  - apply map_filter_ext. intros k v _. cbn.
    unfold isinstance_NewCellVariable. destruct (vt_kind v); naive_solver.
  - apply map_filter_ext. intros k v _. cbn. unfold on_new_object.
    destruct k; cbn; naive_solver.
Qed.

(** C2, as amended.  For every speculated branch the comparable projection
    is the post-branch checkpoint with these parts cleared: the guard set,
    the side-effect records of new closure cells, the attribute mutations
    of newly constructed objects, the sub-module table, the timestamp, the
    input-name table, and also the keep-alive list of the side-effect log.
    The remaining fields (graph arguments, symbolic locals, the other
    side-effect records) are carried over unchanged and take part in the
    comparison between branches. *)
Theorem comparable_projection args gc cp sub_args branch tx r tx' :
  speculate_branch args gc cp sub_args branch tx = Ok (r, tx') →
  ∃ result st tx1,
    (* [st] is the checkpoint taken after the branch *)
    trace_branch args sub_args branch tx = Ok ((result, st), tx1)
    ∧ st = state tx1
    ∧ let c := spec_comparable_state r in
      c = clear_keepalive (spec_projection st)
      (* cleared *)
      ∧ guard_state (output c) = ∅
      ∧ nn_modules (output c) = None
      ∧ timestamp (output c) = 0
      ∧ name_to_input (output c) = []
      ∧ keepalive (side_effects (output c)) = []
      ∧ (∀ k v, id_to_variable (side_effects (output c)) !! k = Some v
                ↔ id_to_variable (side_effects (output st)) !! k = Some v
                  ∧ vt_kind v ≠ NewCellVariable)
      ∧ (∀ k m, store_attr_mutations (side_effects (output c)) !! k = Some m
                ↔ store_attr_mutations (side_effects (output st)) !! k = Some m
                  ∧ ¬ on_new_object k)
      (* carried over *)
      ∧ graphargs (output c) = graphargs (output st)
      ∧ symbolic_locals c = symbolic_locals st
      (* and compared *)
      ∧ (∀ st', graphargs (output st') ≠ graphargs (output st)
                ∨ symbolic_locals st' ≠ symbolic_locals st →
                comparable_state st' ≠ c).
Proof.
  intros Hr. apply speculate_branch_Ok in Hr as (-> & result & st & tx1 & Htr & ->).
  exists result, st, tx1. split; [done|].
  split; [by apply trace_branch_Ok in Htr as (_ & _ & ? & _)|].
  cbn [spec_comparable_state]. rewrite comparable_state_spec. cbn.
  split_and!; try done.
  - intros k v. cbn. apply map_lookup_filter_Some.
  - intros k m. cbn. apply map_lookup_filter_Some.
  - intros st' Hne Heq. rewrite comparable_state_spec in Heq.
    destruct Hne as [Hne|Hne]; apply Hne.
    + by apply (f_equal (λ s, graphargs (output s))) in Heq.
    + by apply (f_equal symbolic_locals) in Heq.
Qed.


End Speculation.

(** ** The statements at explicit inputs *)

Ltac by_decision :=
  match goal with
  | |- ?P => apply (bool_decide_eq_true_1 P); vm_compute; reflexivity
  end.

(** the spec's end-to-end scenario *)
Example numel_of_known_shape :
  call_function (E := sample_env) 1 (mkTorchVariable ∅ torch_numel)
    [sample_tensor "x" float32] ∅ empty_tx
  = Ok (sample_const (PyInt 12), empty_tx).
Proof. vm_compute. reflexivity. Qed.

Example is_floating_point_of_float_tensor :
  call_function (E := sample_env) 1 (mkTorchVariable ∅ torch_is_floating_point)
    [sample_tensor "x" float32] ∅ empty_tx
  = Ok (sample_const (PyBool true), empty_tx).
Proof. vm_compute. reflexivity. Qed.

Example pair_of_scalar_constant :
  call_function (E := sample_env) 1 (mkTorchVariable ∅ utils__pair)
    [sample_const (PyInt 5)] ∅ empty_tx
  = Ok (sample_const (PyTuple [PyInt 5; PyInt 5]), empty_tx).
Proof. vm_compute. reflexivity. Qed.

Example pair_of_sequence_constant :
  call_function (E := sample_env) 1 (mkTorchVariable ∅ utils__pair)
    [sample_const (PyTuple [PyInt 1; PyInt 2])] ∅ empty_tx
  = Ok (VTrack ∅ (TupleVariable [sample_const (PyInt 1); sample_const (PyInt 2)]),
        empty_tx).
Proof. vm_compute. reflexivity. Qed.

Example pair_of_symbolic_scalar :
  call_function (E := sample_env) 1 (mkTorchVariable ∅ utils__pair)
    [sample_symint "n"] ∅ empty_tx
  = Unsupported "torch.nn.modules.utils._ntuple(value)".
Proof. vm_compute. reflexivity. Qed.

Example registered_constant :
  call_function (E := sample_env) 1
    (mkTorchVariable ∅ (other_fn (Some "torch.jit") "is_scripting")) [] ∅ empty_tx
  = Ok (sample_const (PyBool false), empty_tx).
Proof. vm_compute. reflexivity. Qed.

Lemma fixed_ntuple_unpacks_without_length_check_witness :
  let v := VTrack ∅ (ListVariable
                       [sample_const (PyInt 1); sample_const (PyInt 2);
                        sample_const (PyInt 3)]) in
  fixed_ntuple utils__pair
  ∧ config_constant_functions (Env := sample_env) utils__pair = None
  ∧ unpack_var_sequence v
    = Some [sample_const (PyInt 1); sample_const (PyInt 2); sample_const (PyInt 3)]
  ∧ call_function (E := sample_env) 1 (mkTorchVariable ∅ utils__pair) [v] ∅ empty_tx
    = Ok (VTrack (propagate ∅ ([v] ++ kwargs_values ∅) ∪ vt_guards v)
            (TupleVariable
               [sample_const (PyInt 1); sample_const (PyInt 2);
                sample_const (PyInt 3)]), empty_tx).
Proof.
  intros v.
  assert (fixed_ntuple utils__pair) as H1 by (right; left).
  split_and!; [exact H1|reflexivity|reflexivity|].
  apply (fixed_ntuple_unpacks_without_length_check (E := sample_env));
    [exact H1|reflexivity|reflexivity].
Defined.

(** C7 as stated fails: [_pair(5)] is classified as the folded constant,
    not as a lambda. *)
Lemma pair_is_applied_not_specialized :
  ∃ r,
    call_function (E := sample_env) 1 (mkTorchVariable ∅ utils__pair)
      [sample_const (PyInt 5)] ∅ empty_tx = Ok (r, empty_tx)
    ∧ vt_kind r = ConstantVariable (PyTuple [PyInt 5; PyInt 5])
    ∧ ∀ fn, vt_kind r ≠ LambdaVariable fn.
Proof.
  eexists. split; [vm_compute; reflexivity|]. split; [reflexivity|].
  intros fn. discriminate.
Qed.

Lemma tuple_normalizers_witness :
  fixed_ntuple utils__pair
  ∧ config_constant_functions (Env := sample_env) utils__pair = None
  ∧ config_constant_functions (Env := sample_env) utils__ntuple = None
  ∧ as_python_constant (sample_const (PyInt 2)) = Some (PyInt 2)
  ∧ (∃ captured,
       call_function (E := sample_env) 1 (mkTorchVariable ∅ utils__ntuple)
         [sample_const (PyInt 2)] ∅ empty_tx
       = Ok (VTrack captured (LambdaVariable (handle_ntuple_closure 2 captured)),
             empty_tx))
  ∧ (∃ captured,
       call_function (E := sample_env) 1 (mkTorchVariable ∅ utils__pair)
         [sample_const (PyInt 5)] ∅ empty_tx
       = handle_ntuple 2 captured (sample_const (PyInt 5)) empty_tx).
Proof.
  assert (fixed_ntuple utils__pair) as H1 by (right; left).
  destruct (tuple_normalizers (E := sample_env) 0 ∅ utils__pair
              (sample_const (PyInt 2)) 2 (sample_const (PyInt 5)) [] ∅ empty_tx
              H1 eq_refl eq_refl eq_refl) as (Ha & _ & Hb & _).
  split_and!; [exact H1|reflexivity..| |].
  - eexists. exact Ha.
  - eexists. exact Hb.
Defined.



(** a failed concrete evaluation is fatal *)
Example failed_assert_is_fatal :
  call_function (E := sample_env) 1 (mkTorchVariable ∅ torch__assert)
    [sample_const (PyBool false); sample_const (PyStr "boom")] ∅ empty_tx
  = Fatal (AssertionError "boom").
Proof. vm_compute. reflexivity. Qed.

(** C8 as stated fails: an unspecialized Python scalar is a tensor
    variable of known dtype, but [is_floating_point] is fold-eligible and
    the constant-folding rule comes first: the operator is run on the raw
    value, which raises. *)
Lemma is_floating_point_of_unspecialized_scalar :
  let x := VTrack ∅ (UnspecializedPythonVariable
                       (mkTensor (mkProxy "x" None) (Some float64) (Some "cpu") (Some []))
                       (PyFloat "3.0")) in
  isinstance_TensorVariable x = true
  ∧ tensor_info x ≫= dtype = Some float64
  ∧ call_function (E := sample_env) 1 (mkTorchVariable ∅ torch_is_floating_point)
      [x] ∅ empty_tx
    = Fatal (TypeError "is_floating_point(): argument 'input' must be Tensor").
Proof. intros x. split_and!; [reflexivity..|]. vm_compute. reflexivity. Qed.

Lemma type_predicate_shortcuts_witness :
  let f := torch_is_floating_point in
  let a := sample_tensor "x" float32 in
  config_constant_functions (Env := sample_env) f = None
  ∧ call_function (E := sample_env) 1 (mkTorchVariable ∅ f) [a] ∅ empty_tx
    = Ok (const (propagate ∅ ([a] ++ kwargs_values ∅))
            (PyBool (dtype_predicate_answer f float32)), empty_tx).
Proof.
  intros f a. split; [reflexivity|].
  destruct (type_predicate_shortcuts (E := sample_env) 0 ∅ f a
              (mkTensor (mkProxy "x" (Some (ExTensor float32 "cpu" [3%Z; 4%Z])))
                 (Some float32) (Some "cpu") (Some [3%Z; 4%Z]))
              [] ∅ empty_tx eq_refl) as [_ Hdt].
  destruct Hdt as [Hknown _].
  - left.
  - reflexivity.
  - intros _. reflexivity.
  - apply Hknown. reflexivity.
Defined.

Lemma cudnn_is_acceptable_arity_not_checked_witness :
  let t := mkTensor (mkProxy "x" None) (Some float32) (Some "cuda") None in
  let kwargs : gmap string VT := {["tensor" := sample_tensor "z" float32]} in
  let args := [VTrack ∅ (TensorVariable t); sample_tensor "y" float32] in
  config_constant_functions (Env := sample_env) torch_backends_cudnn_is_acceptable = None
  ∧ is_Some (kwargs !! "tensor")
  ∧ call_function (E := sample_env) 1
      (mkTorchVariable ∅ torch_backends_cudnn_is_acceptable) args kwargs empty_tx
    = Ok (const (propagate ∅ (args ++ kwargs_values kwargs))
            (PyBool (cudnn_is_acceptable (Env := sample_env) (dtype t) (device t))),
          empty_tx).
Proof.
  intros t kwargs args.
  assert (is_Some (kwargs !! "tensor")) as Hk by (eexists; reflexivity).
  split_and!; [reflexivity|exact Hk|].
  apply (cudnn_is_acceptable_arity_not_checked (E := sample_env) 0 ∅ ∅ t
           [sample_tensor "y" float32] kwargs empty_tx eq_refl Hk).
Defined.

(** an [out=] target bound to a name is rebound to the new value *)
Example add_with_out_rebinds :
  ∃ r tx',
    call_function (E := sample_env) 1 (mkTorchVariable ∅ torch_add)
      [sample_tensor "a" float32; sample_tensor "b" float32]
      {["out" := sample_tensor "y" float32]}
      (tx_with_local "y" (sample_tensor "y" float32)) = Ok (r, tx')
    ∧ symbolic_locals (state tx') !! "y" = Some r
    ∧ r ≠ sample_tensor "y" float32.
Proof.
  eexists _, _. split; [vm_compute; reflexivity|].
  split; [vm_compute; reflexivity|]. discriminate.
Qed.






(** *** The conditional on explicit inputs *)

(** C2 as stated fails: the keep-alive list of the side-effect log is
    emptied as well, so the projection is not the checkpoint with exactly
    the six listed fields cleared. *)
Lemma keepalive_is_cleared_too :
  ∃ r tx' result st tx1,
    speculate_branch (E := sample_env) (sample_cond_args 1 2) (graph keepalive_tx)
      (state keepalive_tx) [sample_tensor "x" float32] true keepalive_tx
    = Ok (r, tx')
    ∧ trace_branch (E := sample_env) (sample_cond_args 1 2)
        [sample_tensor "x" float32] true keepalive_tx
      = Ok ((result, st), tx1)
    ∧ keepalive (side_effects (output st)) = [1]
    ∧ keepalive (side_effects (output (spec_comparable_state r))) = []
    ∧ spec_comparable_state r ≠ spec_projection st.
Proof.
  eexists _, _, _, _, _.
  split; [vm_compute; reflexivity|].
  split; [vm_compute; reflexivity|].
  split; [reflexivity|]. split; [reflexivity|].
  intros Heq.
  apply (f_equal (λ s, keepalive (side_effects (output s)))) in Heq.
  vm_compute in Heq. discriminate.
Qed.

Lemma sample_speculation_run branch :
  speculate_branch (E := sample_env) (sample_cond_args 1 2)
    (graph empty_tx) (state empty_tx) [sample_tensor "x" float32] branch empty_tx
  = Ok (sample_speculation branch, empty_tx).
Proof. destruct branch; vm_compute; reflexivity. Defined.

Lemma comparable_projection_witness :
  let r := sample_speculation true in
  speculate_branch (E := sample_env) (sample_cond_args 1 2) (graph empty_tx)
    (state empty_tx) [sample_tensor "x" float32] true empty_tx
  = Ok (r, empty_tx)
  ∧ ∃ result st tx1,
      trace_branch (E := sample_env) (sample_cond_args 1 2)
        [sample_tensor "x" float32] true empty_tx
      = Ok ((result, st), tx1)
      ∧ spec_comparable_state r = clear_keepalive (spec_projection st)
      ∧ graphargs (output (spec_comparable_state r)) = graphargs (output st)
      ∧ symbolic_locals (spec_comparable_state r) = symbolic_locals st.
Proof.
  intros r.
  assert (speculate_branch (E := sample_env) (sample_cond_args 1 2) (graph empty_tx)
            (state empty_tx) [sample_tensor "x" float32] true empty_tx
          = Ok (r, empty_tx)) as Hrun.
  { apply sample_speculation_run. }
  split; [exact Hrun|].
  destruct (comparable_projection (E := sample_env) _ _ _ _ _ _ _ _ Hrun)
    as (result & st & tx1 & Htr & _ & Hc & _ & _ & _ & _ & _ & _ & _ & Hg & Hl & _).
  exists result, st, tx1. split_and!; [exact Htr|exact Hc|exact Hg|exact Hl].
Defined.

(** branches that differ in a side effect: Unsupported, with the diff *)
Example cond_with_diverging_side_effect :
  TorchPyOperator_call_function (E := sample_env) (mkTorchPyOperator "cond")
    (sample_cond_args 3 1) None empty_tx
  = Unsupported "side_effects mismatch".
Proof. vm_compute. reflexivity. Qed.

(** branches that differ only in guards: one call node, both guards *)
Example cond_with_diverging_guards :
  ∃ v tx',
    TorchPyOperator_call_function (E := sample_env) (mkTorchPyOperator "cond")
      (sample_cond_args 1 2) None empty_tx = Ok (v, tx')
    ∧ guard_state (output (state tx')) = {["guard_true"; "guard_false"]}
    ∧ node_target <$> graph tx'
      = [target_name "cond_true_0"; target_name "cond_false_0";
         target_py_operator "cond"].
Proof.
  eexists _, _. split; [vm_compute; reflexivity|]. split.
  - by_decision.
  - reflexivity.
Qed.


(** * Further properties of the code *)

(** ** More arms of [TorchVariable.call_function] *)

Section Shortcuts.
Context {E : Env}.

(** X1.  Operators registered in [config.constant_functions] are answered
    first, before fold-eligibility or any other rule: called without
    arguments they yield the registered constant and leave the trace
    untouched; called with any positional or keyword argument the assertion
    fails, which is fatal. *)
Theorem registered_constant_first fuel self c args kwargs tx :
  config_constant_functions (value self) = Some c →
  (args = [] → kwargs = ∅ →
   call_function (S fuel) self args kwargs tx
   = Ok (const (propagate (tv_guards self) []) c, tx))
  ∧ (args ≠ [] ∨ kwargs ≠ ∅ →
     call_function (S fuel) self args kwargs tx = Fatal (AssertionError "")).
Proof.
  intros Hc. cbn [call_function]. rewrite Hc.
  unfold elif, bind, ret. cbn. split.
  - intros -> ->. cbn. rewrite map_size_empty. cbn.
    unfold kwargs_values. by rewrite map_to_list_empty.
  - intros [Ha|Hk].
    + destruct args; [done|]. reflexivity.
    + destruct (bool_decide (length args = 0)); [|done]. cbn.
      rewrite bool_decide_eq_false_2; [done|].
      intros Hs. by apply map_size_empty_iff in Hs.
Qed.

(** X2.  [torch.numel] of a tensor variable whose size is statically known
    is the constant product of the sizes, whatever else is passed and
    without touching the trace; with an unknown size, one argument and no
    keywords, the call is rewritten to the method call [x.numel()]: one
    [call_method] node with target "numel". *)
Theorem numel_shortcut fuel g a t rest kwargs tx :
  config_constant_functions torch_numel = None →
  tensor_info a = Some t →
  (∀ sz, tensor_size t = Some sz →
     call_function (S fuel) (mkTorchVariable g torch_numel) (a :: rest) kwargs tx
     = Ok (const (propagate g ((a :: rest) ++ kwargs_values kwargs))
             (PyInt (product sz)), tx))
  ∧ (tensor_size t = None → rest = [] → kwargs = ∅ →
     ∀ p, as_proxy a = Some p →
     call_function (S fuel) (mkTorchVariable g torch_numel) [a] ∅ tx
     = (n <- create_proxy "call_method" (target_name "numel") [p] ∅ ;;
        wrap_fx_proxy n None (propagate g ([a] ++ kwargs_values ∅))) tx).
Proof.
  intros Hc Ht. split.
  - intros sz Hsz. enter Hc. unfold elif, and_then, bind. cbn.
    rewrite (tensor_isinstance a t), Ht by done. cbn. rewrite Hsz. reflexivity.
  - intros Hsz -> -> p Hp. enter Hc. unfold elif, and_then, bind. cbn.
    rewrite (tensor_isinstance a t), (tensor_not_override a t), Ht by done.
    cbn. rewrite Hsz. cbn.
    unfold proxy_args_kwargs. cbn. rewrite Hp. cbn.
    rewrite map_size_empty. cbn.
    destruct config_dynamic_shapes; reflexivity.
Qed.

(** X3.  [torch.jit.annotate(type, value)] is classified as its second
    argument, unchanged and without touching the trace; any other number of
    positional arguments fails the assertion (fatal).  The first argument
    must not carry a __torch_function__ override, a rule that comes
    earlier. *)
Theorem jit_annotate_is_its_second_argument fuel g args kwargs tx :
  config_constant_functions torch_jit_annotate = None →
  (∀ a, args !! 0 = Some a → isinstance_TensorWithTFOverrideVariable a = false) →
  (∀ ty v, args = [ty; v] →
     call_function (S fuel) (mkTorchVariable g torch_jit_annotate) args kwargs tx
     = Ok (v, tx))
  ∧ (length args ≠ 2 →
     call_function (S fuel) (mkTorchVariable g torch_jit_annotate) args kwargs tx
     = Fatal (AssertionError "")).
Proof.
  intros Hc Hov. split.
  - intros ty v ->. enter Hc. unfold elif, and_then, bind. cbn.
    rewrite (Hov ty) by done. cbn.
    destruct config_dynamic_shapes; reflexivity.
  - intros Hlen. enter Hc. unfold elif, and_then, bind. cbn.
    assert (match args with
            | [] => false
            | a0 :: _ => isinstance_TensorWithTFOverrideVariable a0
            end = false) as ->.
    { destruct args as [|a ?]; [done|]. by apply Hov. }
    rewrite andb_false_r. cbn.
    rewrite (bool_decide_eq_false_2 (length args = 2)) by done.
    destruct config_dynamic_shapes; reflexivity.
Qed.

End Shortcuts.

Section Contexts.
Context {E : Env}.

Lemma first_not_override_nil_or args :
  (∀ a, args !! 0 = Some a → isinstance_TensorWithTFOverrideVariable a = false) →
  match args with
  | [] => false
  | a0 :: _ => isinstance_TensorWithTFOverrideVariable a0
  end = false.
Proof. intros H. destruct args as [|a ?]; [done|]. by apply H. Qed.

(** X4.  [torch.random.set_rng_state] and the [set_state] method of a
    generator never produce a graph node: with exactly one tensor argument
    the call is Unsupported, and every other argument list fails one of the
    two assertions that precede the [unimplemented] call (fatal). *)
Theorem set_rng_state_is_not_traced fuel g f args kwargs tx :
  f = torch_random_set_rng_state ∨ (∃ gen, f = Generator_method gen "set_state") →
  config_constant_functions f = None →
  (∀ a, args !! 0 = Some a → isinstance_TensorWithTFOverrideVariable a = false) →
  call_function (S fuel) (mkTorchVariable g f) args kwargs tx
  = match args with
    | [a] =>
        if isinstance_TensorVariable a
        then Unsupported
               "TODO: make torch.random.set_rng_state work with FakeTensor/aot_autograd"
        else Fatal (AssertionError "")
    | _ => Fatal (AssertionError "")
    end.
Proof.
  intros Hf Hc Hov. apply first_not_override_nil_or in Hov.
  destruct Hf as [->|[gen ->]]; enter Hc; unfold elif, and_then, bind; cbn;
    rewrite Hov, andb_false_r; cbn;
    (destruct config_dynamic_shapes; cbn;
     destruct args as [|a [|b rest]]; cbn; try reflexivity;
     unfold bind; cbn; destruct (isinstance_TensorVariable a); reflexivity).
Qed.

(** X5.  The four profiler context managers are ignored: whatever the
    arguments, the call yields a null context carrying the propagated
    guards, and the trace is unchanged. *)
Theorem profiler_is_ignored fuel g f args kwargs tx :
  f ∈ [torch_profiler_profile; torch_profiler_record_function;
       torch_autograd_profiler_profile; torch_autograd_profiler_record_function] →
  config_constant_functions f = None →
  (∀ a, args !! 0 = Some a → isinstance_TensorWithTFOverrideVariable a = false) →
  call_function (S fuel) (mkTorchVariable g f) args kwargs tx
  = Ok (VTrack (propagate g (args ++ kwargs_values kwargs)) NullContextVariable, tx).
Proof.
  intros Hf Hc Hov. apply first_not_override_nil_or in Hov.
  rewrite !elem_of_cons in Hf.
  destruct Hf as [->|[->|[->|[->|Hf]]]]; [..|by apply elem_of_nil in Hf];
    enter Hc; unfold elif, and_then, bind; cbn;
    rewrite Hov, andb_false_r; cbn;
    destruct config_dynamic_shapes; reflexivity.
Qed.

(** X6.  [torch.is_grad_enabled()] folds to the grad mode observed while
    tracing, guarded by the grad-mode guard in addition to the operator's
    own guards; with any argument the assertion fails (fatal). *)
Theorem is_grad_enabled_constant fuel g args kwargs tx :
  config_constant_functions torch_is_grad_enabled = None →
  (args = [] → kwargs = ∅ →
   call_function (S fuel) (mkTorchVariable g torch_is_grad_enabled) args kwargs tx
   = Ok (const (g ∪ GradModeVariable__guards_singleton) (PyBool grad_enabled), tx))
  ∧ (args ≠ [] ∨ kwargs ≠ ∅ →
     call_function (S fuel) (mkTorchVariable g torch_is_grad_enabled) args kwargs tx
     = Fatal (AssertionError "")).
Proof.
  intros Hc. split.
  - intros -> ->. enter Hc. unfold elif, and_then, bind. cbn.
    rewrite map_size_empty. cbn. unfold kwargs_values.
    rewrite map_to_list_empty. cbn. unfold propagate. cbn.
    by rewrite union_empty_r_L.
  - intros Hne. enter Hc. unfold elif, and_then, bind. cbn.
    destruct Hne as [Ha|Hk].
    + destruct args; [done|]. reflexivity.
    + destruct (bool_decide (length args = 0)); [|done]. cbn.
      rewrite bool_decide_eq_false_2; [done|].
      intros Hs. by apply map_size_empty_iff in Hs.
Qed.

End Contexts.

Section Normalisers.
Context {E : Env}.

(** X7.  The operators of [REWRITE_OPS_TO_TENSOR_SIZE_METHOD] are rewritten
    to the [size] method of their single tensor argument, called without
    arguments (keyword arguments of the call are dropped); any other
    argument list, including a tensor wrapped by a __torch_function__
    override, fails an assertion (fatal). *)
Theorem shape_as_tensor_is_the_size_method fuel g f args kwargs tx :
  f ∈ REWRITE_OPS_TO_TENSOR_SIZE_METHOD →
  config_constant_functions f = None →
  call_function (S fuel) (mkTorchVariable g f) args kwargs tx
  = match args with
    | [a] =>
        if isinstance_TensorVariable a then tensor_call_method a "size" [] ∅ tx
        else Fatal (AssertionError "")
    | _ => Fatal (AssertionError "")
    end.
Proof.
  intros Hf Hc. unfold REWRITE_OPS_TO_TENSOR_SIZE_METHOD in Hf.
  rewrite !elem_of_cons in Hf.
  destruct Hf as [->|[->|Hf]]; [..|by apply elem_of_nil in Hf];
    enter Hc; unfold elif, and_then, bind; cbn;
    (destruct args as [|a [|b rest]]; cbn; try reflexivity;
     unfold bind; cbn; destruct (isinstance_TensorVariable a); reflexivity).
Qed.

(** X11.  [_ntuple(n)] accepts an integer or a boolean constant as count (a
    boolean is an [int]) and yields the lambda for that count; any other
    constant fails the assertion, a count that is not a constant raises
    NotImplementedError, and every tuple normaliser called without a
    positional argument raises IndexError: all three are fatal. *)
Theorem ntuple_bad_count fuel g kwargs tx :
  (config_constant_functions utils__ntuple = None →
   ∀ a rest,
     call_function (S fuel) (mkTorchVariable g utils__ntuple) (a :: rest) kwargs tx
     = match as_python_constant a with
       | Some (PyInt z) =>
           Ok (VTrack (propagate g ((a :: rest) ++ kwargs_values kwargs))
                 (LambdaVariable
                    (handle_ntuple_closure z
                       (propagate g ((a :: rest) ++ kwargs_values kwargs)))), tx)
       | Some (PyBool b) =>
           Ok (VTrack (propagate g ((a :: rest) ++ kwargs_values kwargs))
                 (LambdaVariable
                    (handle_ntuple_closure (Z.b2z b)
                       (propagate g ((a :: rest) ++ kwargs_values kwargs)))), tx)
       | Some _ => Fatal (AssertionError "")
       | None => Fatal NotImplementedError
       end)
  ∧ (∀ f, f ∈ [utils__single; utils__pair; utils__triple; utils__quadruple;
               utils__ntuple] →
          config_constant_functions f = None →
          call_function (S fuel) (mkTorchVariable g f) [] kwargs tx = Fatal IndexError).
Proof.
  split.
  - intros Hc a rest. enter Hc. unfold _call_ntuple, bind, index. cbn.
    decide_closed. cbn.
    destruct (as_python_constant a) as [[]|]; reflexivity.
  - intros f Hf Hc. rewrite !elem_of_cons in Hf.
    destruct Hf as [->|[->|[->|[->|[->|Hf]]]]]; [..|by apply elem_of_nil in Hf];
      enter Hc; reflexivity.
Qed.

End Normalisers.

Section Softmax.
Context {E : Env}.

Lemma proxy_args_kwargs_positional args pa :
  mapM as_proxy args = Some pa →
  proxy_args_kwargs args ∅ = ret (pa, ∅).
Proof.
  intros H. unfold proxy_args_kwargs. rewrite H.
  rewrite bool_decide_eq_true_2 by apply map_Forall_empty.
  by rewrite omap_empty.
Qed.

(** X8.  Constructing [torch.nn.Softmax] emits nothing and yields a lambda;
    applying that lambda to an input emits exactly one
    [torch.nn.functional.softmax] node with arguments (input, dim), where
    dim is the first positional argument of the constructor when there is
    one (a [dim] keyword is then ignored), else the [dim] keyword, else the
    constant None. *)
Theorem softmax_module_rewrite fuel g args kwargs input pin pdim tx tx' :
  config_constant_functions torch_nn_Softmax = None →
  let dim := match args with
             | a :: _ => a
             | [] => default (VTrack ∅ (ConstantVariable PyNone)) (kwargs !! "dim")
             end in
  as_proxy input = Some pin →
  as_proxy dim = Some pdim →
  ∃ fn,
    call_function (S fuel) (mkTorchVariable g torch_nn_Softmax) args kwargs tx
    = Ok (VTrack (propagate g (args ++ kwargs_values kwargs)) (LambdaVariable fn), tx)
    ∧ call_lambda fn [input] tx'
      = let n := mkNode "call_function" (target_fn torch_nn_functional_softmax)
                   [pin; pdim] ∅ (fresh_node_id (graph tx')) in
        wrap_fx_proxy n None (propagate g [dim; input])
          (set_graph (graph tx' ++ [n]) tx').
Proof.
  intros Hc dim Hin Hdim. exists (fake_softmax g dim). split.
  - enter Hc. reflexivity.
  - cbn [call_lambda]. unfold call_fake_softmax.
    rewrite (proxy_args_kwargs_positional [input; dim] [pin; pdim]).
    + reflexivity.
    + cbn. by rewrite Hin, Hdim.
Qed.

End Softmax.

Section CrossEntropyLoss.
Context {E : Env}.

Lemma cross_entropy_loss_call fuel g args kwargs tx :
  config_constant_functions torch_nn_CrossEntropyLoss = None →
  call_function (S fuel) (mkTorchVariable g torch_nn_CrossEntropyLoss) args kwargs tx
  = _call_cross_entropy_loss (mkTorchVariable g torch_nn_CrossEntropyLoss) args kwargs
      (propagate g (args ++ kwargs_values kwargs)) tx.
Proof.
  intros Hc. cbn [call_function value]. rewrite Hc.
  rewrite can_constant_fold_through_false by (vm_compute; done).
  cbn -[_call_cross_entropy_loss]. decide_closed. reflexivity.
Qed.

(** X9.  Constructing [torch.nn.CrossEntropyLoss] with up to six positional
    arguments emits nothing and yields a lambda; the positional arguments
    fill weight, size_average, ignore_index, reduce, reduction and
    label_smoothing in this order and the remaining ones take the defaults
    None, None, -100, None, "mean", 0.0.  Applying the lambda to (input,
    target) emits exactly one [torch.nn.functional.cross_entropy] node whose
    arguments are input, target and then the six in that order. *)
Theorem cross_entropy_loss_rewrite fuel g args input target pargs tx tx' :
  config_constant_functions torch_nn_CrossEntropyLoss = None →
  (length args ≤ 6)%nat →
  let d c := VTrack ∅ (ConstantVariable c) in
  let defaults := [d PyNone; d PyNone; d (PyInt (-100)); d PyNone; d (PyStr "mean");
                   d (PyFloat "0.0")] in
  let bound := args ++ drop (length args) defaults in
  mapM as_proxy ([input; target] ++ bound) = Some pargs →
  ∃ fn,
    call_function (S fuel) (mkTorchVariable g torch_nn_CrossEntropyLoss) args ∅ tx
    = Ok (VTrack (propagate g (args ++ kwargs_values ∅)) (LambdaVariable fn), tx)
    ∧ call_lambda fn [input; target] tx'
      = let n := mkNode "call_function" (target_fn torch_nn_functional_cross_entropy)
                   pargs ∅ (fresh_node_id (graph tx')) in
        wrap_fx_proxy n None (propagate g (bound ++ [input; target]))
          (set_graph (graph tx' ++ [n]) tx').
Proof.
  intros Hc Hlen d defaults bound Hp.
  assert (∃ w sa ii r red ls, bound = [w; sa; ii; r; red; ls]
          ∧ bind_signature
              [("weight", Some (d PyNone)); ("size_average", Some (d PyNone));
               ("ignore_index", Some (d (PyInt (-100)))); ("reduce", Some (d PyNone));
               ("reduction", Some (d (PyStr "mean")));
               ("label_smoothing", Some (d (PyFloat "0.0")))] false args ∅
            = Some bound) as (w & sa & ii & r & red & ls & Hb & Hbind).
  { unfold bound, defaults, bind_signature.
    rewrite map_to_list_empty.
    do 7 (destruct args as [|? args]; [cbn; rewrite ?lookup_empty; cbn; eauto 10|]).
    cbn in Hlen. lia. }
  exists (fake_cross_entropy_loss g w sa ii r red ls). split.
  - rewrite cross_entropy_loss_call by done.
    unfold _call_cross_entropy_loss. cbv zeta. unfold d in Hbind.
    rewrite Hbind, Hb. reflexivity.
  - cbn [call_lambda]. unfold call_fake_cross_entropy_loss.
    rewrite Hb in Hp. rewrite Hb. cbn [app] in Hp.
    rewrite (proxy_args_kwargs_positional _ pargs Hp). reflexivity.
Qed.

(** X10.  A [torch.nn.CrossEntropyLoss] constructor call with a keyword that
    is not one of its six parameters, or with more than six positional
    arguments, is a fatal TypeError (from the local signature), not an
    Unsupported outcome. *)
Theorem cross_entropy_loss_bad_arguments fuel g args kwargs tx :
  config_constant_functions torch_nn_CrossEntropyLoss = None →
  (∃ k, is_Some (kwargs !! k)
        ∧ k ∉ ["weight"; "size_average"; "ignore_index"; "reduce"; "reduction";
               "label_smoothing"])
  ∨ (6 < length args)%nat →
  call_function (S fuel) (mkTorchVariable g torch_nn_CrossEntropyLoss) args kwargs tx
  = Fatal (TypeError "normalize_args()").
Proof.
  intros Hc Hbad. rewrite cross_entropy_loss_call by done.
  unfold _call_cross_entropy_loss. cbv zeta.
  match goal with |- context [bind_signature ?ps false args kwargs] =>
    assert (bind_signature ps false args kwargs = None) as ->; [|done]
  end.
  unfold bind_signature. destruct Hbad as [(k & [v Hk] & Hnot)|Hlen].
  - match goal with |- context [forallb ?P ?l] =>
      destruct (forallb P l) eqn:Hall; [|done]
    end.
    exfalso. rewrite forallb_forall in Hall.
    specialize (Hall k). apply bool_decide_eq_true_1 in Hall; [done|].
    apply list_elem_of_In. apply list_elem_of_fmap.
    exists (k, v). split; [done|]. by apply elem_of_map_to_list.
  - match goal with |- (if ?c then _ else _) = _ => destruct c; [done|] end.
    do 7 (destruct args as [|? args]; [cbn in Hlen; lia|]).
    cbn. repeat (destruct (kwargs !! _); [done|]). done.
Qed.

End CrossEntropyLoss.

Section Scalars.
Context {E : Env}.

(** X12.  The [get_state] method of a generator is traced as one
    [call_function] node; the traced value is built from the state the
    generator really has at trace time, fake-tensor propagation is not
    consulted. *)
Theorem generator_get_state_traced fuel g gen tx :
  config_constant_functions (Generator_method gen "get_state") = None →
  call_function (S fuel) (mkTorchVariable g (Generator_method gen "get_state")) [] ∅ tx
  = let n := mkNode "call_function"
               (target_get_state_from_generator (Generator_method gen "get_state"))
               [] ∅ (fresh_node_id (graph tx)) in
    lift (wrap_example (propagate g []) (node_id n) (generator_get_state gen))
      (set_graph (graph tx ++ [n]) tx).
Proof.
  intros Hc. enter Hc. unfold elif, and_then, bind. cbn.
  rewrite (bool_decide_eq_false_2 (0 < 0)) by lia.
  rewrite bool_decide_eq_true_2 by apply map_Forall_empty.
  rewrite omap_empty. unfold kwargs_values. rewrite map_to_list_empty. cbn.
  destruct config_dynamic_shapes; reflexivity.
Qed.

Lemma scalar_not_override a :
  isinstance_ConstantVariable a || isinstance_DynamicShapeVariable a = true →
  isinstance_TensorWithTFOverrideVariable a = false.
Proof. destruct a as [? []]; done. Qed.

(** X13.  [torch.add], [torch.sub], [torch.mul], [torch.div] and
    [torch.sqrt] are Unsupported when at least one positional argument is a
    symbolic scalar and all of them are constants or symbolic scalars,
    whatever the keyword arguments; no node is emitted. *)
Theorem symbolic_scalar_arithmetic_unsupported fuel g f args kwargs tx :
  f ∈ [torch_add; torch_sub; torch_mul; torch_div; torch_sqrt] →
  config_constant_functions f = None →
  existsb isinstance_DynamicShapeVariable args = true →
  forallb (λ x, isinstance_ConstantVariable x || isinstance_DynamicShapeVariable x)
    args = true →
  call_function (S fuel) (mkTorchVariable g f) args kwargs tx
  = Unsupported (symint_msg f).
Proof.
  intros Hf Hc Hany Hall.
  assert (match args with
          | [] => false
          | a0 :: _ => isinstance_TensorWithTFOverrideVariable a0
          end = false) as Hov.
  { destruct args as [|a ?]; [done|]. cbn in Hall.
    apply andb_true_iff in Hall as [Ha _]. by apply scalar_not_override. }
  rewrite !elem_of_cons in Hf.
  destruct Hf as [->|[->|[->|[->|[->|Hf]]]]]; [..|by apply elem_of_nil in Hf];
    enter Hc; unfold elif, and_then, bind; cbn;
    rewrite Hov, andb_false_r; cbn;
    (destruct config_dynamic_shapes; cbn;
     unfold generic_fallback; cbn; decide_closed; cbn;
     rewrite Hany, Hall; reflexivity).
Qed.

End Scalars.

Section SymbolicSqrt.
Context {E : Env}.

Lemma bind_ret_tail {A} (m : M A) tx :
  (v <- m ;; ret tt ;;; ret v) tx = m tx.
Proof. unfold bind, ret. by destruct (m tx) as [[? ?]| |]. Qed.

(** X14.  [math.sqrt] of a symbolic scalar is not constant-folded although
    [math] functions are fold-eligible; it is traced as one node whose
    target is [sym_sqrt] instead of [math.sqrt]. *)
Theorem math_sqrt_of_symbolic_scalar fuel g gs p tx :
  config_constant_functions math_sqrt = None →
  let s := VTrack gs (DynamicShapeVariable p) in
  call_function (S fuel) (mkTorchVariable g math_sqrt) [s] ∅ tx
  = let n := mkNode "call_function" (target_fn sym_sqrt) [ArgProxy (node_name p)] ∅
               (fresh_node_id (graph tx)) in
    wrap_fx_proxy n None (propagate g ([s] ++ kwargs_values ∅))
      (set_graph (graph tx ++ [n]) tx).
Proof.
  intros Hc s. cbn [call_function value]. rewrite Hc.
  assert (check_constant_args [s] ∅ || check_unspec_python_args [s] ∅ = false) as ->.
  { unfold check_constant_args, check_unspec_python_args, kwargs_values.
    rewrite map_to_list_empty. reflexivity. }
  rewrite andb_false_r.
  cbn. decide_closed. cbn.
  unfold elif, and_then, bind. cbn.
  assert (is_dynamic_shapes (mkTorchVariable g math_sqrt) [s] ∅ = ret false) as Hd.
  { unfold is_dynamic_shapes. cbn. decide_closed. reflexivity. }
  rewrite Hd.
  assert (generic_fallback (mkTorchVariable g math_sqrt) [s] ∅
            (propagate g ([s] ++ kwargs_values ∅)) tx
          = let n := mkNode "call_function" (target_fn sym_sqrt)
                       [ArgProxy (node_name p)] ∅ (fresh_node_id (graph tx)) in
            wrap_fx_proxy n None (propagate g ([s] ++ kwargs_values ∅))
              (set_graph (graph tx ++ [n]) tx)) as Hg.
  { unfold generic_fallback. cbn. decide_closed. cbn.
    rewrite !andb_false_r. unfold bind at 1. cbn [ret].
    rewrite (proxy_args_kwargs_positional [s] [ArgProxy (node_name p)]) by done.
    unfold rebind_out. rewrite lookup_empty.
    unfold bind at 1 2. cbn.
    apply (bind_ret_tail (wrap_fx_proxy _ None _)). }
  destruct config_dynamic_shapes; cbn; exact Hg.
Qed.

End SymbolicSqrt.

Section Numpy.
Context {E : Env}.

Lemma constant_list_is_constant gl gi cs :
  as_python_constant
    (VTrack gl (ListVariable (map (λ c, VTrack gi (ConstantVariable c)) cs)))
  = Some (PyList cs).
Proof.
  cbn. induction cs as [|c cs IH]; [done|].
  cbn in *. destruct (_ (map _ cs)) as [l|]; [|discriminate].
  cbn in IH. injection IH as ->. done.
Qed.

Lemma constant_list_as_proxy gl gi cs :
  as_proxy (VTrack gl (ListVariable (map (λ c, VTrack gi (ConstantVariable c)) cs)))
  = Some (ArgList (map ArgConst cs)).
Proof.
  cbn. induction cs as [|c cs IH]; [done|].
  cbn in *. destruct (_ (map _ cs)) as [l|]; [|discriminate].
  cbn in IH. injection IH as ->. done.
Qed.

Lemma coerce_numpy_items gi cs tx :
  for_each coerce_numpy_item (map (λ c, VTrack gi (ConstantVariable c)) cs) tx
  = Ok (map (λ c, VTrack gi (ConstantVariable
                               match c with PyNumpy z => PyInt z | _ => c end)) cs,
        tx).
Proof.
  induction cs as [|c cs IH]; [done|].
  cbn [map for_each]. unfold bind.
  assert (coerce_numpy_item (VTrack gi (ConstantVariable c)) tx
          = Ok (VTrack gi (ConstantVariable match c with PyNumpy z => PyInt z | _ => c end), tx)) as ->.
  { by destruct c. }
  rewrite IH. done.
Qed.

(** X15.  With numpy available, a tensor-type constructor such as
    [torch.LongTensor] applied to one constant list is traced as one node
    whose list argument holds every numpy scalar as the native value its
    [item()] gives; the other constants are unchanged. *)
Theorem numpy_scalars_are_unboxed fuel g name gl gi cs tx :
  HAS_NUMPY = true →
  config_constant_functions (tensortype name) = None →
  name ≠ "nms" →
  let unbox c := match c with PyNumpy z => PyInt z | _ => c end in
  let a := VTrack gl (ListVariable (map (λ c, VTrack gi (ConstantVariable c)) cs)) in
  call_function (S fuel) (mkTorchVariable g (tensortype name)) [a] ∅ tx
  = let n := mkNode "call_function" (target_fn (tensortype name))
               [ArgList (map (λ c, ArgConst (unbox c)) cs)] ∅
               (fresh_node_id (graph tx)) in
    wrap_fx_proxy n None (propagate g ([a] ++ kwargs_values ∅))
      (set_graph (graph tx ++ [n]) tx).
Proof.
  intros Hnp Hc Hname unbox a. cbn [call_function value]. rewrite Hc.
  rewrite can_constant_fold_through_false by (vm_compute; done).
  cbn -[a]. decide_closed. cbn -[a].
  unfold elif, and_then, bind. cbn -[a].
  assert (is_dynamic_shapes (mkTorchVariable g (tensortype name)) [a] ∅ = ret false)
    as Hd.
  { unfold is_dynamic_shapes. cbn. decide_closed.
    rewrite (bool_decide_eq_false_2 (name = "nms")) by done. reflexivity. }
  rewrite Hd.
  assert (generic_fallback (mkTorchVariable g (tensortype name)) [a] ∅
            (propagate g ([a] ++ kwargs_values ∅)) tx
          = let n := mkNode "call_function" (target_fn (tensortype name))
                       [ArgList (map (λ c, ArgConst (unbox c)) cs)] ∅
                       (fresh_node_id (graph tx)) in
            wrap_fx_proxy n None (propagate g ([a] ++ kwargs_values ∅))
              (set_graph (graph tx ++ [n]) tx)) as Hg.
  { unfold generic_fallback. cbn -[a]. decide_closed.
    rewrite Hnp.
    assert (is_python_constant a = true) as ->.
    { unfold is_python_constant, a. rewrite constant_list_is_constant.
      by apply bool_decide_eq_true_2. }
    rewrite !andb_false_r. cbn [andb isinstance_ListVariable vt_kind a].
    unfold bind at 1. unfold bind at 1.
    cbn [items_of vt_kind a]. rewrite coerce_numpy_items. cbn [ret].
    rewrite (proxy_args_kwargs_positional _ [ArgList (map (λ c, ArgConst (unbox c)) cs)]).
    2:{ cbn [mapM]. cbn [vt_guards a].
        pose proof (constant_list_as_proxy gl gi (map unbox cs)) as Hp.
        rewrite map_map in Hp. rewrite map_map in Hp. unfold unbox in Hp.
        unfold mbind, option_bind. cbn [mapM]. 
        rewrite Hp. reflexivity. }
    unfold rebind_out. rewrite lookup_empty.
    unfold bind at 1 2. cbn.
    apply (bind_ret_tail (wrap_fx_proxy _ None _)). }
  destruct config_dynamic_shapes; cbn; rewrite ?andb_false_r; cbn; decide_closed; cbn.
  all: exact Hg.
Qed.

End Numpy.

Section Gate.
Context {E : Env}.

Lemma override_is_not_foldable a rest kwargs :
  isinstance_TensorWithTFOverrideVariable a = true →
  check_constant_args (a :: rest) kwargs
  || check_unspec_python_args (a :: rest) kwargs = false.
Proof.
  intros Ha. unfold check_constant_args, check_unspec_python_args.
  destruct a as [ga []]; try discriminate. reflexivity.
Qed.

(** X16.  A generic operator whose first argument carries a
    __torch_function__ override is never constant-folded and never traced
    directly: the override is inlined on the unwrapped tensor (in first
    position, the other arguments unchanged) and the result is wrapped
    again, with an empty guard set, unless the operator is one of the
    default no-wrap functions. *)
Theorem torch_function_override_inlined fuel g m name ga tv src func sub rest kwargs tx :
  config_constant_functions (other_fn m name) = None →
  name ≠ "nms" →
  let self := mkTorchVariable g (other_fn m name) in
  let a := VTrack ga (TensorWithTFOverrideVariable tv src func sub) in
  let options := propagate g ((a :: rest) ++ kwargs_values kwargs) in
  call_function (S fuel) self (a :: rest) kwargs tx
  = (unwrapped <- inline_torch_function_unwrapped self src func sub options
                    (tv :: rest) kwargs ;;
     ret (if default_nowrap_functions (other_fn m name) then unwrapped
          else VTrack ∅ (TensorWithTFOverrideVariable unwrapped src func sub))) tx.
Proof.
  intros Hc Hname self a options. subst self a options.
  cbn [call_function value]. rewrite Hc.
  rewrite override_is_not_foldable by done. rewrite andb_false_r.
  cbn [is_Some_dec bool_decide decide_rel ret elif bind]. cbn. decide_closed. cbn.
  unfold elif, and_then, bind. cbn.
  assert (is_dynamic_shapes (mkTorchVariable g (other_fn m name))
            (VTrack ga (TensorWithTFOverrideVariable tv src func sub) :: rest) kwargs
          = ret false) as Hd.
  { unfold is_dynamic_shapes. cbn. decide_closed.
    rewrite (bool_decide_eq_false_2 (name = "nms")) by done. reflexivity. }
  rewrite Hd.
  destruct config_dynamic_shapes; cbn;
    rewrite (bool_decide_eq_true_2 (0 < S (length rest))) by lia; cbn;
    (destruct (inline_torch_function_unwrapped _ _ _ _ _ _ _ _) as [[u tx1]| |];
     [|done..]; by destruct (default_nowrap_functions _)).
Qed.

Lemma gate_skipped_when_dynamic_shapes fuel g f args kwargs tx :
  config_dynamic_shapes = true →
  f ∈ [torch_nonzero; torch_unique; torch_unique_consecutive] →
  config_constant_functions f = None →
  (∀ a, args !! 0 = Some a → isinstance_TensorWithTFOverrideVariable a = false) →
  call_function (S fuel) (mkTorchVariable g f) args kwargs tx
  = generic_fallback (mkTorchVariable g f) args kwargs
      (propagate g (args ++ kwargs_values kwargs)) tx.
Proof.
  intros Hdyn Hf Hc Hov. apply first_not_override_nil_or in Hov.
  rewrite !elem_of_cons in Hf.
  destruct Hf as [->|[->|[->|Hf]]]; [..|by apply elem_of_nil in Hf];
    enter Hc; unfold elif, and_then, bind; cbn;
    rewrite Hdyn, Hov, andb_false_r; reflexivity.
Qed.

Lemma constant_not_override a :
  is_python_constant a = true →
  isinstance_TensorWithTFOverrideVariable a = false.
Proof. destruct a as [? []]; done. Qed.

Lemma arange_constant_bounds fuel g args tx :
  config_constant_functions torch_arange = None →
  (length args ≤ 3)%nat →
  forallb is_python_constant args = true →
  call_function (S fuel) (mkTorchVariable g torch_arange) args ∅ tx
  = generic_fallback (mkTorchVariable g torch_arange) args ∅
      (propagate g (args ++ kwargs_values ∅)) tx.
Proof.
  intros Hc Hlen Hconst.
  assert (match args with
          | [] => false
          | a0 :: _ => isinstance_TensorWithTFOverrideVariable a0
          end = false) as Hov.
  { destruct args as [|a ?]; [done|]. cbn in Hconst.
    apply andb_true_iff in Hconst as [Ha _]. by apply constant_not_override. }
  assert (is_dynamic_shapes (mkTorchVariable g torch_arange) args ∅ = ret false) as Hd.
  { unfold is_dynamic_shapes. cbn. decide_closed. cbn.
    unfold bind_signature. cbn [negb andb].
    do 4 (destruct args as [|? args];
          [cbn; rewrite ?lookup_empty; cbn;
           cbn in Hconst; repeat (apply andb_true_iff in Hconst as [-> Hconst]);
           reflexivity|]).
    cbn in Hlen. lia. }
  enter Hc. unfold elif, and_then, bind. cbn.
  rewrite Hd, Hov, andb_false_r.
  destruct config_dynamic_shapes; reflexivity.
Qed.

(** X18.  With dynamic shapes disabled, a call that does not fit the local
    signatures of [is_dynamic_shapes] is a fatal TypeError:
    [repeat_interleave] with a single argument, and [arange] with four or
    more positional arguments. *)
Theorem local_signature_mismatch_is_fatal fuel g tx :
  config_dynamic_shapes = false →
  (config_constant_functions torch_repeat_interleave = None →
   ∀ a, call_function (S fuel) (mkTorchVariable g torch_repeat_interleave) [a] ∅ tx
        = Fatal (TypeError "repeat_interleave()"))
  ∧ (config_constant_functions torch_arange = None →
     ∀ a b c d rest kwargs,
       call_function (S fuel) (mkTorchVariable g torch_arange)
         (a :: b :: c :: d :: rest) kwargs tx
       = Fatal (TypeError "arange()")).
Proof.
  intros Hdyn. split.
  - intros Hc a. enter Hc. unfold elif, and_then, bind. cbn. rewrite Hdyn. cbn.
    unfold is_dynamic_shapes. cbn. decide_closed. cbn.
    unfold bind_signature. cbn. rewrite !lookup_empty. reflexivity.
  - intros Hc a b c d rest kwargs. enter Hc. unfold elif, and_then, bind. cbn.
    rewrite Hdyn. cbn.
    unfold is_dynamic_shapes. cbn. decide_closed. cbn.
    unfold bind_signature. cbn.
    repeat (destruct (kwargs !! _); [reflexivity|]). cbn.
    destruct rest; reflexivity.
Qed.

End Gate.

Section GateOpen.
Context {E : Env}.

(** X17.  What the dynamic-shape gate lets through: with dynamic shapes
    enabled, [nonzero], [unique] and [unique_consecutive] go on to generic
    tracing; and [arange] with at most three positional arguments, all of
    them constants, goes on to generic tracing whether or not dynamic shapes
    are enabled. *)
Theorem ungated_calls_are_traced_generically fuel g tx :
  (config_dynamic_shapes = true →
   ∀ f args kwargs,
     f ∈ [torch_nonzero; torch_unique; torch_unique_consecutive] →
     config_constant_functions f = None →
     (∀ a, args !! 0 = Some a → isinstance_TensorWithTFOverrideVariable a = false) →
     call_function (S fuel) (mkTorchVariable g f) args kwargs tx
     = generic_fallback (mkTorchVariable g f) args kwargs
         (propagate g (args ++ kwargs_values kwargs)) tx)
  ∧ (config_constant_functions torch_arange = None →
     ∀ args,
       (length args ≤ 3)%nat →
       forallb is_python_constant args = true →
       call_function (S fuel) (mkTorchVariable g torch_arange) args ∅ tx
       = generic_fallback (mkTorchVariable g torch_arange) args ∅
           (propagate g (args ++ kwargs_values ∅)) tx).
Proof.
  split.
  - intros Hdyn f args kwargs. by apply gate_skipped_when_dynamic_shapes.
  - intros Hc args. by apply arange_constant_bounds.
Qed.

End GateOpen.

(** ** The [out=] block: targets that do not fit the result *)

Lemma rebind_loop_IndexError (ns : list string) : ∀ (items : list VT) (idx : nat) tx,
  Forall (λ n, is_Some (symbolic_locals (state tx) !! n)) ns →
  (idx ≤ length items)%nat →
  (length items < idx + length ns)%nat →
  rebind_loop (Some <$> ns) items idx tx = Fatal IndexError.
Proof.
  induction ns as [|n ns IH]; intros items idx tx Hin Hle Hlt.
  - cbn in Hlt. lia.
  - apply Forall_cons in Hin as [Hn_in Hin]. cbn in Hlt.
    cbn [fmap list_fmap rebind_loop]. unfold bind, get, assert_, index, modify.
    cbn. rewrite bool_decide_eq_true_2 by done. cbn.
    destruct (items !! idx) as [v|] eqn:Hv; [|done]. cbn.
    apply lookup_lt_Some in Hv.
    apply IH; [|lia..].
    eapply Forall_impl; [exact Hin|]. intros m Hm. cbn.
    destruct (decide (n = m)) as [->|Hne].
    + rewrite lookup_insert_eq. eauto.
    + by rewrite lookup_insert_ne.
Qed.

Lemma find_names (locals : gmap string VT) outs names :
  Forall2 (λ o n, find_symbolic_locals_name locals o = Some n) outs names →
  map (find_symbolic_locals_name locals) outs = Some <$> names.
Proof.
  induction 1 as [|o n outs names Ho _ IH]; [done|]. cbn. by rewrite Ho, IH.
Qed.

(** X19.  In the [out=] block, a tuple of named targets that is longer than
    the tuple of results raises IndexError (fatal); a shorter one is
    accepted silently: the first results are bound to the targets' names,
    the remaining results are bound to nothing and every other name keeps
    its value. *)
Theorem out_tuple_of_another_length (kwargs : gmap string VT) g items g' outs names tx :
  let locals := symbolic_locals (state tx) in
  let r := VTrack g (TupleVariable items) in
  kwargs !! "out" = Some (VTrack g' (TupleVariable outs)) →
  Forall2 (λ o n, find_symbolic_locals_name locals o = Some n) outs names →
  NoDup names →
  (* more targets than results *)
  (length items < length outs → rebind_out kwargs r tx = Fatal IndexError)
  (* fewer targets than results: the first results are bound, the others dropped *)
  ∧ (length outs < length items →
     ∃ locals',
       rebind_out kwargs r tx = Ok (tt, set_symbolic_locals (λ _, locals') tx)
       ∧ (∀ i n, names !! i = Some n → locals' !! n = items !! i)
       ∧ (∀ n, n ∉ names → locals' !! n = locals !! n)).
Proof.
  intros locals r Hout Hfind Hnd.
  assert (Forall (λ n, is_Some (locals !! n)) names) as Hbound.
  { apply Forall_forall. intros n Hn.
    apply list_elem_of_lookup in Hn as [i Hi].
    destruct (Forall2_lookup_r _ _ _ _ _ Hfind Hi) as (o & _ & Ho).
    apply find_symbolic_locals_name_lookup in Ho. eauto. }
  pose proof (Forall2_length _ _ _ Hfind) as Hlen.
  unfold rebind_out. rewrite Hout. cbn. unfold bind, get. cbn. fold locals.
  rewrite (find_names _ _ _ Hfind).
  split.
  - intros Hlt. apply rebind_loop_IndexError; [done|lia..].
  - intros Hlt.
    destruct (rebind_loop_spec names items 0 tx) as (locals' & Hrun & Hnew & Hold);
      [done|done|lia|].
    exists locals'. split; [done|]. split; [|done].
    intros i n Hi. by rewrite (Hnew i n Hi).
Qed.

(** X20.  In the [out=] block, a target to which no symbolic local is bound
    fails the assertion [name in tx.symbolic_locals] (fatal): for a single
    tensor target, and for the first target of a tuple. *)
Theorem out_target_without_a_name (kwargs : gmap string VT) out r tx :
  let locals := symbolic_locals (state tx) in
  kwargs !! "out" = Some out →
  (isinstance_TupleVariable r = false →
   isinstance_TensorVariable r = true →
   isinstance_TensorVariable out = true →
   find_symbolic_locals_name locals out = None →
   rebind_out kwargs r tx = Fatal (AssertionError ""))
  ∧ (∀ g' o outs,
       isinstance_TupleVariable r = true →
       out = VTrack g' (TupleVariable (o :: outs)) →
       find_symbolic_locals_name locals o = None →
       rebind_out kwargs r tx = Fatal (AssertionError "")).
Proof.
  intros locals Hout. unfold rebind_out. rewrite Hout. split.
  - intros Hrt Hr Ho Hfind. rewrite Hrt, Hr, Ho.
    unfold bind, get, assert_. cbn. fold locals. by rewrite Hfind.
  - intros g' o outs Hr -> Hfind. rewrite Hr. cbn.
    unfold bind, get. cbn. fold locals. by rewrite Hfind.
Qed.

(** ** Naming and registration of sub-graphs *)

Lemma probe_least fuel name (mods : gmap string Module) : ∀ i c,
  probe fuel name mods i = Some c →
  ∃ k, (i ≤ k)%nat ∧ c = candidate name k ∧ mods !! c = None
       ∧ ∀ j, (i ≤ j < k)%nat → is_Some (mods !! candidate name j).
Proof.
  induction fuel as [|fuel IH]; intros i c Hp; [discriminate|]. cbn in Hp.
  destruct (mods !! candidate name i) as [m|] eqn:Hm.
  - rewrite bool_decide_eq_true_2 in Hp by eauto.
    apply IH in Hp as (k & Hk & -> & Hfree & Hbusy).
    exists k. split_and!; [lia|done|done|].
    intros j Hj. destruct (decide (j = i)) as [->|Hne]; [eauto|].
    apply Hbusy. lia.
  - rewrite bool_decide_eq_false_2 in Hp by (by intros [? ?]).
    injection Hp as <-. exists i. split_and!; [lia|done|done|].
    intros j Hj. lia.
Qed.


Section Subgraphs.
Context {E : Env}.

Lemma add_subgraph_run name (mods : gmap string Module) :
  ∃ k, mods !! candidate name k = None
       ∧ (∀ j, (j < k)%nat → is_Some (mods !! candidate name j))
       ∧ ∀ gm tx,
           nn_modules (output (state tx)) = Some mods →
           add_subgraph name gm tx
           = Ok (candidate name k,
                 set_output (with_nn_modules (Some (<[candidate name k := gm]> mods)))
                   tx).
Proof.
  destruct (probe_finds name mods) as (c & Hp & Hc).
  destruct (probe_least _ _ _ _ _ Hp) as (k & _ & -> & _ & Hbusy).
  exists k. split_and!; [done|intros j Hj; apply Hbusy; lia|].
  intros gm tx Hm.
  unfold add_subgraph, bind, get, register_attr_or_module. rewrite Hm, Hp.
  cbn. by rewrite Hm.
Qed.

(** X21.  [add_subgraph] always terminates on a live sub-module table: it
    registers the module under [cond_<name>_<k>] for the least [k] whose
    name is free, returns that name, and changes no other entry of the
    table; without a table the membership test raises TypeError. *)
Theorem add_subgraph_takes_first_free_name name gm tx :
  match nn_modules (output (state tx)) with
  | Some mods =>
      ∃ k mods',
        add_subgraph name gm tx
        = Ok (candidate name k, set_output (with_nn_modules (Some mods')) tx)
        ∧ mods !! candidate name k = None
        ∧ (∀ j, (j < k)%nat → is_Some (mods !! candidate name j))
        ∧ mods' !! candidate name k = Some gm
        ∧ (∀ n, n ≠ candidate name k → mods' !! n = mods !! n)
  | None =>
      add_subgraph name gm tx
      = Fatal (TypeError "argument of type 'NoneType' is not iterable")
  end.
Proof.
  destruct (nn_modules (output (state tx))) as [mods|] eqn:Hm.
  - destruct (add_subgraph_run name mods) as (k & Hfree & Hbusy & Hrun).
    exists k, (<[candidate name k := gm]> mods).
    split_and!; [by apply Hrun|done..| |].
    + apply lookup_insert_eq.
    + intros n Hn. by apply lookup_insert_ne.
  - unfold add_subgraph, bind, get. by rewrite Hm.
Qed.

End Subgraphs.

Section Rollback.
Context {E : Env}.

Lemma trace_branch_output args sub_args branch tx result st tx1 :
  trace_branch args sub_args branch tx = Ok ((result, st), tx1) →
  vt_guards result ⊆ guard_state (output st)
  ∧ ∃ p g0,
      as_proxy result = Some p
      ∧ graph tx1
        = g0 ++ [mkNode "output" (target_name "output") [ArgTuple [p]] ∅
                   (fresh_node_id g0)].
Proof.
  unfold trace_branch. intros Hr.
  do 3 inv_bind Hr.
  apply bind_Ok in Hr as (inputs & txi & Hinputs & Hr).
  do 2 inv_bind Hr.
  apply bind_Ok in Hr as ([] & txa & Hassert & Hr).
  apply assert_Ok in Hassert as [Hres [= <-]].
  apply bind_Ok in Hr as ([] & txg & Hguard & Hr).
  injection Hguard as <-.
  apply bind_Ok in Hr as ([] & txn & Hnode & Hr).
  destruct (as_proxy a3) as [p|] eqn:Hp; [|discriminate].
  unfold create_node, create_proxy, bind, ret in Hnode. injection Hnode as <-.
  apply bind_Ok in Hr as ([] & txs & Hside & Hr).
  injection Hside as <-.
  apply bind_Ok in Hr as (st' & txc & Hcopy & Hr).
  injection Hr as <- <- <-.
  unfold copy_graphstate in Hcopy.
  destruct (nn_modules _) as [mods|] eqn:Hmods in Hcopy; [|discriminate].
  injection Hcopy as <- <-.
  split.
  - cbn. set_solver.
  - exists p, (graph txa). split; [done|]. reflexivity.
Qed.

(** X22.  Whenever [speculate_branch] returns, the enclosing fragment and
    the enclosing state are exactly the checkpoints taken before the branch;
    the operands and the branch result are tensor variables, the result's
    guards are among the returned guards, a sub-module table is returned,
    and the captured fragment ends with the [output] node of the result. *)
Theorem speculate_branch_rolls_back args gc cp sub_args branch tx r tx' :
  speculate_branch args gc cp sub_args branch tx = Ok (r, tx') →
  tx' = mkTx gc cp
  ∧ isinstance_TensorVariable (spec_output r) = true
  ∧ Forall (λ a, isinstance_TensorVariable a = true) sub_args
  ∧ vt_guards (spec_output r) ⊆ spec_guards r
  ∧ is_Some (spec_nn_modules r)
  ∧ ∃ p g0,
      as_proxy (spec_output r) = Some p
      ∧ spec_graph r
        = g0 ++ [mkNode "output" (target_name "output") [ArgTuple [p]] ∅
                   (fresh_node_id g0)].
Proof.
  intros Hr. apply speculate_branch_Ok in Hr as (-> & result & st & tx1 & Htr & ->).
  pose proof (trace_branch_Ok _ _ _ _ _ _ _ Htr) as (Hsub & Hres & _ & Hmods).
  pose proof (trace_branch_output _ _ _ _ _ _ _ Htr) as (Hg & p & g0 & Hp & Hgraph).
  cbn. split_and!; try done. eauto.
Qed.

End Rollback.

Section Preconditions.
Context {E : Env}.

(** X23.  The preconditions of [TorchPyOperator.call_function], in the order
    they are checked: keyword arguments are a fatal assertion failure for
    every operator; an operator other than [cond] is Unsupported; [cond]
    needs exactly four arguments, a predicate whose type is exactly
    [TensorVariable], two user functions and a list of operands, and each
    failed check is a fatal assertion failure whose message names the type
    of the offending argument. *)
Theorem py_operator_preconditions self args kwargs tx :
  let call := TorchPyOperator_call_function self args kwargs tx in
  let no_kwargs := kwargs = None ∨ kwargs = Some ∅ in
  (∀ k, kwargs = Some k → k ≠ ∅ →
     call = Fatal (AssertionError "kwargs are not supported, yet"))
  ∧ (no_kwargs → op___name__ self ≠ "cond" →
     call = Unsupported ("PyOperator " +:+ op___name__ self))
  ∧ (no_kwargs → op___name__ self = "cond" → length args ≠ 4 →
     call = Fatal (AssertionError ""))
  ∧ (no_kwargs → op___name__ self = "cond" →
     ∀ pred true_fn false_fn operands,
       args = [pred; true_fn; false_fn; operands] →
       (type_is_TensorVariable pred = false →
        call = Fatal (AssertionError (type_name pred)))
       ∧ (type_is_TensorVariable pred = true →
          isinstance_user_function true_fn = false →
          call = Fatal (AssertionError (type_name true_fn)))
       ∧ (type_is_TensorVariable pred = true →
          isinstance_user_function true_fn = true →
          isinstance_user_function false_fn = false →
          call = Fatal (AssertionError (type_name false_fn)))
       ∧ (type_is_TensorVariable pred = true →
          isinstance_user_function true_fn = true →
          isinstance_user_function false_fn = true →
          isinstance_ListVariable operands = false →
          call = Fatal (AssertionError (type_name operands)))).
Proof.
  intros call no_kwargs. unfold call, TorchPyOperator_call_function.
  assert (no_kwargs →
          match kwargs with
          | Some k => bool_decide (size k = 0)
          | None => true
          end = true) as Hk.
  { intros [->| ->]; [done|]. by rewrite map_size_empty. }
  split_and!.
  - intros k -> Hne. unfold bind at 1.
    rewrite bool_decide_eq_false_2; [done|].
    intros Hs. by apply map_size_empty_iff in Hs.
  - intros Hno Hname. unfold bind at 1. rewrite (Hk Hno). cbn [assert_ ret].
    by rewrite bool_decide_eq_false_2.
  - intros Hno Hname Hlen. unfold bind at 1. rewrite (Hk Hno). cbn [assert_ ret].
    rewrite bool_decide_eq_true_2 by done.
    unfold bind at 1. by rewrite (bool_decide_eq_false_2 (length args = 4)).
  - intros Hno Hname pred true_fn false_fn operands ->.
    unfold bind at 1. rewrite (Hk Hno). cbn [assert_ ret].
    rewrite bool_decide_eq_true_2 by done.
    unfold bind at 1. rewrite (bool_decide_eq_true_2 (length _ = 4)) by done.
    cbn [assert_ ret]. unfold bind, index, assert_, ret. cbn.
    split_and!.
    + by intros ->.
    + by intros -> ->.
    + by intros -> -> ->.
    + by intros -> -> -> ->.
Qed.

End Preconditions.

Section Merge.
Context {E : Env}.


End Merge.

Section MergeResult.
Context {E : Env}.



End MergeResult.

(** ** The comparable projection *)


(** ** Construction and naming of a [TorchVariable] *)

Lemma remap_lookup_elem table f f' :
  remap_lookup table f = Some f' → (f, f') ∈ table.
Proof.
  induction table as [|[k v] table IH]; [done|]. cbn.
  case_bool_decide as Hk.
  - intros [= <-]. subst. left.
  - intros H. right. by apply IH.
Qed.

Lemma remap_lookup_target f f' :
  remap_lookup tensor_dunder_fns_remap f = Some f' →
  remap_lookup tensor_dunder_fns_remap f' = None.
Proof.
  intros H. apply remap_lookup_elem in H.
  unfold tensor_dunder_fns_remap in H. rewrite !elem_of_cons in H.
  destruct H as [H|[H|[H|[H|[H|H]]]]]; [..|by apply elem_of_nil in H];
    injection H as -> ->; vm_compute; reflexivity.
Qed.

(** X27.  A constructed [TorchVariable] keeps the guards it is given and
    points to the operator it is given, except that the five reflected
    dunder methods of [torch._C._TensorBase] are replaced by the
    module-level functions of this file: the stored operator is never a key
    of [tensor_dunder_fns_remap]. *)
Theorem init_stores_the_remapped_operator attr___self__ str f guards tv :
  TorchVariable___init__ attr___self__ str f guards = inr tv →
  tv_guards tv = guards
  ∧ value tv = default f (remap_lookup tensor_dunder_fns_remap f)
  ∧ remap_lookup tensor_dunder_fns_remap (value tv) = None
  ∧ (f ∈ tensor_dunder_fns_remap.*1 → value tv ≠ f ∧ fn___module__ (value tv) = this_module).
Proof.
  unfold TorchVariable___init__. intros Hinit.
  assert (tv = mkTorchVariable guards
                 (default f (remap_lookup tensor_dunder_fns_remap f))) as ->.
  { cbv zeta in Hinit.
    destruct (attr___self__ _) as [|name| | | |e]; cbn in Hinit;
      try match type of Hinit with
          | (if ?c then _ else _) = _ => destruct c
          end;
      try discriminate; injection Hinit as Hinit; rewrite <- Hinit; reflexivity. }
  cbn [tv_guards value]. split_and!; [done..| |].
  - destruct (remap_lookup tensor_dunder_fns_remap f) as [f'|] eqn:Hf;
      cbn [default from_option].
    + by apply remap_lookup_target in Hf.
    + done.
  - intros Hin. unfold tensor_dunder_fns_remap in Hin. cbn in Hin.
    rewrite !elem_of_cons in Hin.
    destruct Hin as [->|[->|[->|[->|[->|Hin]]]]]; [..|by apply elem_of_nil in Hin];
      (split; [discriminate|reflexivity]).
Qed.

Lemma starts_with_app p s : starts_with p s = true ↔ ∃ r, s = p +:+ r.
Proof.
  revert s. induction p as [|a p IH]; intros s; cbn.
  - split; [eauto|done].
  - destruct s as [|b s]; cbn.
    + split; [done|]. by intros [? ?].
    + rewrite andb_true_iff, bool_decide_eq_true, IH. split.
      * intros [-> [r ->]]. eauto.
      * intros [r [= -> ->]]. eauto.
Qed.

Lemma drop_string_app p r : drop_string (String.length p) (p +:+ r) = r.
Proof. induction p as [|a p IH]; [by destruct r|done]. Qed.

(** X28.  When the (remapped) operator is bound to a module, construction
    succeeds exactly when the module's name is [torch] or [math], one of
    them followed by a dot and anything, or one of them followed by a final
    newline (which [$] admits); any other name, such as [torchvision.ops],
    fails the assertion with the name in the message. *)
Theorem init_accepts_torch_and_math_modules attr___self__ str f guards name :
  attr___self__ (default f (remap_lookup tensor_dunder_fns_remap f))
    = self_ModuleType name →
  let accepted :=
    ∃ p, (p = "torch" ∨ p = "math")
         ∧ (name = p ∨ name = p +:+ newline ∨ ∃ rest, name = p +:+ "." +:+ rest) in
  (accepted → ∃ tv, TorchVariable___init__ attr___self__ str f guards = inr tv)
  ∧ (¬ accepted →
     TorchVariable___init__ attr___self__ str f guards
     = inl (AssertionError ("__self__ set to " +:+ name))).
Proof.
  intros Hself accepted.
  assert (match_torch_or_math name = true ↔ accepted) as Hacc.
  { unfold match_torch_or_math, accepted.
    rewrite orb_true_iff, !andb_true_iff, !orb_true_iff, !bool_decide_eq_true.
    rewrite !starts_with_app. split.
    - intros [[[r ->] H]|[[r ->] H]];
        [exists "torch"|exists "math"]; (split; [auto|]);
        rewrite drop_string_app in H;
        destruct H as [[[r' ->]| ->]| ->]; eauto.
    - intros (p & [-> | ->] & [-> | [-> | [rest ->]]]);
        [left|left|left|right|right|right];
        (split; [eexists; reflexivity|]); cbn; eauto.
      all: try (left; right; reflexivity).
      all: try (right; reflexivity). }
  unfold TorchVariable___init__.
  destruct (remap_lookup tensor_dunder_fns_remap f) as [f'|]; cbn in Hself |- *;
    rewrite Hself; (split; [intros Ha; apply Hacc in Ha; rewrite Ha; eauto|]);
    intros Hn; destruct (match_torch_or_math name) eqn:Hm; try done;
    exfalso; apply Hn, Hacc; done.
Qed.

Arguments is_identifier_char : simpl never.

Lemma sub_non_identifier_chars name : ∀ in_run,
  Forall (λ c, is_identifier_char c = true)
    (string_to_list (sub_non_identifier in_run name)).
Proof.
  induction name as [|c rest IH]; intros in_run; cbn; [constructor|].
  destruct (is_identifier_char c) eqn:Hc; cbn.
  - constructor; [done|apply IH].
  - destruct in_run; cbn; [apply IH|].
    constructor; [reflexivity|apply IH].
Qed.

Lemma sub_non_identifier_fixes name : ∀ in_run,
  Forall (λ c, is_identifier_char c = true) (string_to_list name) →
  sub_non_identifier in_run name = name.
Proof.
  induction name as [|c rest IH]; intros in_run Hall; cbn; [done|].
  cbn in Hall. apply Forall_cons in Hall as [-> Hall]. by rewrite IH.
Qed.

Lemma sub_non_identifier_replace p c d s : ∀ in_run,
  is_identifier_char c = false →
  is_identifier_char d = false →
  sub_non_identifier in_run (p +:+ String c s)
  = sub_non_identifier in_run (p +:+ String d s).
Proof.
  intros in_run Hc Hd. revert in_run.
  induction p as [|a p IH]; intros in_run.
  - change (sub_non_identifier in_run (String c s)
            = sub_non_identifier in_run (String d s)).
    cbn. by rewrite Hc, Hd.
  - change (sub_non_identifier in_run (String a (p +:+ String c s))
            = sub_non_identifier in_run (String a (p +:+ String d s))).
    cbn. destruct (is_identifier_char a); [by rewrite IH|].
    destruct in_run; by rewrite IH.
Qed.

(** X29.  [unique_var_name] is two underscores followed only by letters,
    digits and underscores, never longer than the operator's name plus two;
    a name that is already an identifier is kept as it is. *)
Theorem unique_var_name_is_an_identifier torch_get_name id self :
  let name := torch_get_name (value self)
                ("allowed_fn_" +:+ pretty (id (value self))) in
  ∃ body,
    unique_var_name torch_get_name id self = "__" +:+ body
    ∧ Forall (λ c, is_identifier_char c = true) (string_to_list body)
    ∧ (String.length body ≤ String.length name)%nat
    ∧ (Forall (λ c, is_identifier_char c = true) (string_to_list name) → body = name).
Proof.
  intros name. exists (sub_non_identifier false name).
  split_and!; [done|apply sub_non_identifier_chars| |apply sub_non_identifier_fixes].
  generalize false. induction name as [|c rest IH]; intros b; cbn; [lia|].
  destruct (is_identifier_char c); cbn.
  - specialize (IH false). lia.
  - destruct b; cbn; specialize (IH true); lia.
Qed.

(** X30.  [unique_var_name] does not separate operators whose names differ
    only in a character that is not a letter, a digit or an underscore: both
    get the same variable name. *)
Theorem unique_var_name_is_not_injective torch_get_name id self self' p c d s :
  torch_get_name (value self) ("allowed_fn_" +:+ pretty (id (value self)))
    = p +:+ String c s →
  torch_get_name (value self') ("allowed_fn_" +:+ pretty (id (value self')))
    = p +:+ String d s →
  is_identifier_char c = false →
  is_identifier_char d = false →
  unique_var_name torch_get_name id self = unique_var_name torch_get_name id self'.
Proof.
  intros H1 H2 Hc Hd. unfold unique_var_name. rewrite H1, H2.
  by rewrite (sub_non_identifier_replace p c d s).
Qed.

(** ** The further properties at explicit inputs *)

Lemma registered_constant_first_witness :
  let self := mkTorchVariable ∅ (other_fn (Some "torch.jit") "is_scripting") in
  config_constant_functions (Env := sample_env) (value self) = Some (PyBool false)
  ∧ call_function (E := sample_env) 1 self [] ∅ empty_tx
    = Ok (const (propagate ∅ []) (PyBool false), empty_tx)
  ∧ call_function (E := sample_env) 1 self [sample_const PyNone] ∅ empty_tx
    = Fatal (AssertionError "").
Proof.
  intros self. split; [reflexivity|]. split.
  - destruct (registered_constant_first (E := sample_env) 0 self (PyBool false)
                [] ∅ empty_tx eq_refl) as [H _].
    apply H; reflexivity.
  - destruct (registered_constant_first (E := sample_env) 0 self (PyBool false)
                [sample_const PyNone] ∅ empty_tx eq_refl) as [_ H].
    apply H. left. discriminate.
Defined.

Lemma numel_shortcut_witness :
  let a := sample_tensor "x" float32 in
  let t := mkTensor (mkProxy "x" (Some (ExTensor float32 "cpu" [3%Z; 4%Z])))
             (Some float32) (Some "cpu") (Some [3%Z; 4%Z]) in
  config_constant_functions (Env := sample_env) torch_numel = None
  ∧ tensor_info a = Some t
  ∧ tensor_size t = Some [3%Z; 4%Z]
  ∧ call_function (E := sample_env) 1 (mkTorchVariable ∅ torch_numel) [a] ∅ empty_tx
    = Ok (const (propagate ∅ ([a] ++ kwargs_values ∅)) (PyInt (product [3%Z; 4%Z])),
          empty_tx).
Proof.
  intros a t. split_and!; [reflexivity..|].
  destruct (numel_shortcut (E := sample_env) 0 ∅ a t [] ∅ empty_tx eq_refl eq_refl)
    as [H _].
  apply H. reflexivity.
Defined.

Lemma jit_annotate_is_its_second_argument_witness :
  let x := sample_tensor "x" float32 in
  let args := [sample_const (PyStr "int"); x] in
  config_constant_functions (Env := sample_env) torch_jit_annotate = None
  ∧ (∀ a, args !! 0 = Some a → isinstance_TensorWithTFOverrideVariable a = false)
  ∧ call_function (E := sample_env) 1 (mkTorchVariable ∅ torch_jit_annotate) args ∅
      empty_tx
    = Ok (x, empty_tx).
Proof.
  intros x args.
  assert (∀ a, args !! 0 = Some a → isinstance_TensorWithTFOverrideVariable a = false)
    as Hov by (intros a [= <-]; reflexivity).
  split_and!; [reflexivity|exact Hov|].
  destruct (jit_annotate_is_its_second_argument (E := sample_env) 0 ∅ args ∅ empty_tx
              eq_refl Hov) as [H _].
  apply (H (sample_const (PyStr "int")) x). reflexivity.
Defined.

Lemma set_rng_state_is_not_traced_witness :
  let args := [sample_tensor "state" uint8] in
  config_constant_functions (Env := sample_env) torch_random_set_rng_state = None
  ∧ (∀ a, args !! 0 = Some a → isinstance_TensorWithTFOverrideVariable a = false)
  ∧ call_function (E := sample_env) 1 (mkTorchVariable ∅ torch_random_set_rng_state)
      args ∅ empty_tx
    = Unsupported
        "TODO: make torch.random.set_rng_state work with FakeTensor/aot_autograd".
Proof.
  intros args.
  assert (∀ a, args !! 0 = Some a → isinstance_TensorWithTFOverrideVariable a = false)
    as Hov by (intros a [= <-]; reflexivity).
  split_and!; [reflexivity|exact Hov|].
  exact (set_rng_state_is_not_traced (E := sample_env) 0 ∅ torch_random_set_rng_state
           args ∅ empty_tx (or_introl eq_refl) eq_refl Hov).
Defined.

Lemma profiler_is_ignored_witness :
  let args := [sample_const (PyStr "region")] in
  torch_profiler_record_function
    ∈ [torch_profiler_profile; torch_profiler_record_function;
       torch_autograd_profiler_profile; torch_autograd_profiler_record_function]
  ∧ config_constant_functions (Env := sample_env) torch_profiler_record_function = None
  ∧ (∀ a, args !! 0 = Some a → isinstance_TensorWithTFOverrideVariable a = false)
  ∧ call_function (E := sample_env) 1 (mkTorchVariable ∅ torch_profiler_record_function)
      args ∅ empty_tx
    = Ok (VTrack (propagate ∅ (args ++ kwargs_values ∅)) NullContextVariable, empty_tx).
Proof.
  intros args.
  assert (torch_profiler_record_function
            ∈ [torch_profiler_profile; torch_profiler_record_function;
               torch_autograd_profiler_profile;
               torch_autograd_profiler_record_function]) as Hf by (right; left).
  assert (∀ a, args !! 0 = Some a → isinstance_TensorWithTFOverrideVariable a = false)
    as Hov by (intros a [= <-]; reflexivity).
  split_and!; [exact Hf|reflexivity|exact Hov|].
  exact (profiler_is_ignored (E := sample_env) 0 ∅ torch_profiler_record_function
           args ∅ empty_tx Hf eq_refl Hov).
Defined.

Lemma is_grad_enabled_constant_witness :
  config_constant_functions (Env := sample_env) torch_is_grad_enabled = None
  ∧ call_function (E := sample_env) 1 (mkTorchVariable ∅ torch_is_grad_enabled) [] ∅
      empty_tx
    = Ok (const (∅ ∪ GradModeVariable__guards_singleton (Env := sample_env))
            (PyBool (grad_enabled (Env := sample_env))), empty_tx)
  ∧ call_function (E := sample_env) 1 (mkTorchVariable ∅ torch_is_grad_enabled)
      [sample_const PyNone] ∅ empty_tx
    = Fatal (AssertionError "").
Proof.
  split; [reflexivity|]. split.
  - destruct (is_grad_enabled_constant (E := sample_env) 0 ∅ [] ∅ empty_tx eq_refl)
      as [H _].
    apply H; reflexivity.
  - destruct (is_grad_enabled_constant (E := sample_env) 0 ∅ [sample_const PyNone] ∅
                empty_tx eq_refl) as [_ H].
    apply H. left. discriminate.
Defined.

Lemma shape_as_tensor_is_the_size_method_witness :
  let a := sample_tensor "x" float32 in
  torch__shape_as_tensor ∈ REWRITE_OPS_TO_TENSOR_SIZE_METHOD
  ∧ config_constant_functions (Env := sample_env) torch__shape_as_tensor = None
  ∧ call_function (E := sample_env) 1 (mkTorchVariable ∅ torch__shape_as_tensor) [a] ∅
      empty_tx
    = tensor_call_method (Env := sample_env) a "size" [] ∅ empty_tx.
Proof.
  intros a.
  assert (torch__shape_as_tensor ∈ REWRITE_OPS_TO_TENSOR_SIZE_METHOD) as Hf
    by (right; left).
  split_and!; [exact Hf|reflexivity|].
  exact (shape_as_tensor_is_the_size_method (E := sample_env) 0 ∅
           torch__shape_as_tensor [a] ∅ empty_tx Hf eq_refl).
Defined.

Lemma ntuple_bad_count_witness :
  config_constant_functions (Env := sample_env) utils__ntuple = None
  ∧ call_function (E := sample_env) 1 (mkTorchVariable ∅ utils__ntuple)
      [sample_const (PyStr "two")] ∅ empty_tx
    = Fatal (AssertionError "")
  ∧ call_function (E := sample_env) 1 (mkTorchVariable ∅ utils__ntuple)
      [sample_tensor "n" int64] ∅ empty_tx
    = Fatal NotImplementedError
  ∧ call_function (E := sample_env) 1 (mkTorchVariable ∅ utils__pair) [] ∅ empty_tx
    = Fatal IndexError.
Proof.
  destruct (ntuple_bad_count (E := sample_env) 0 ∅ ∅ empty_tx) as [Hcount Hnone].
  split_and!; [reflexivity| | |].
  - exact (Hcount eq_refl (sample_const (PyStr "two")) []).
  - exact (Hcount eq_refl (sample_tensor "n" int64) []).
  - apply Hnone; [right; left|reflexivity].
Defined.
Lemma softmax_module_rewrite_witness :
  let kwargs : gmap string VT := {["dim" := sample_const (PyInt (-1))]} in
  let input := sample_tensor "x" float32 in
  let dim := default (VTrack ∅ (ConstantVariable PyNone)) (kwargs !! "dim") in
  config_constant_functions (Env := sample_env) torch_nn_Softmax = None
  ∧ as_proxy input = Some (ArgProxy "x")
  ∧ as_proxy dim = Some (ArgConst (PyInt (-1)))
  ∧ ∃ fn,
      call_function (E := sample_env) 1 (mkTorchVariable ∅ torch_nn_Softmax) [] kwargs
        empty_tx
      = Ok (VTrack (propagate ∅ ([] ++ kwargs_values kwargs)) (LambdaVariable fn),
            empty_tx)
      ∧ call_lambda (E := sample_env) fn [input] empty_tx
        = let n := mkNode "call_function" (target_fn torch_nn_functional_softmax)
                     [ArgProxy "x"; ArgConst (PyInt (-1))] ∅
                     (fresh_node_id (graph empty_tx)) in
          wrap_fx_proxy (E := sample_env) n None (propagate ∅ [dim; input])
            (set_graph (graph empty_tx ++ [n]) empty_tx).
Proof.
  intros kwargs input dim.
  assert (as_proxy dim = Some (ArgConst (PyInt (-1)))) as Hdim
    by (vm_compute; reflexivity).
  split_and!; [reflexivity|reflexivity|exact Hdim|].
  exact (softmax_module_rewrite (E := sample_env) 0 ∅ [] kwargs input (ArgProxy "x")
           (ArgConst (PyInt (-1))) empty_tx empty_tx eq_refl eq_refl Hdim).
Defined.

Lemma cross_entropy_loss_rewrite_witness :
  let d c := VTrack ∅ (ConstantVariable c) in
  let input := sample_tensor "x" float32 in
  let target := sample_tensor "y" int64 in
  let bound := [d PyNone; d PyNone; d (PyInt (-100)); d PyNone; d (PyStr "mean");
                d (PyFloat "0.0")] in
  let pargs := [ArgProxy "x"; ArgProxy "y"; ArgConst PyNone; ArgConst PyNone;
                ArgConst (PyInt (-100)); ArgConst PyNone; ArgConst (PyStr "mean");
                ArgConst (PyFloat "0.0")] in
  config_constant_functions (Env := sample_env) torch_nn_CrossEntropyLoss = None
  ∧ (length ([] : list VT) ≤ 6)%nat
  ∧ mapM as_proxy ([input; target] ++ bound) = Some pargs
  ∧ ∃ fn,
      call_function (E := sample_env) 1 (mkTorchVariable ∅ torch_nn_CrossEntropyLoss)
        [] ∅ empty_tx
      = Ok (VTrack (propagate ∅ ([] ++ kwargs_values ∅)) (LambdaVariable fn), empty_tx)
      ∧ call_lambda (E := sample_env) fn [input; target] empty_tx
        = let n := mkNode "call_function" (target_fn torch_nn_functional_cross_entropy)
                     pargs ∅ (fresh_node_id (graph empty_tx)) in
          wrap_fx_proxy (E := sample_env) n None (propagate ∅ (bound ++ [input; target]))
            (set_graph (graph empty_tx ++ [n]) empty_tx).
Proof.
  intros d input target bound pargs.
  assert (length ([] : list VT) ≤ 6)%nat as Hlen by (cbn; lia).
  split_and!; [reflexivity|exact Hlen|reflexivity|].
  exact (cross_entropy_loss_rewrite (E := sample_env) 0 ∅ [] input target pargs
           empty_tx empty_tx eq_refl Hlen eq_refl).
Defined.

Lemma cross_entropy_loss_bad_arguments_witness :
  let kwargs : gmap string VT := {["weights" := sample_const PyNone]} in
  config_constant_functions (Env := sample_env) torch_nn_CrossEntropyLoss = None
  ∧ is_Some (kwargs !! "weights")
  ∧ ("weights" ∉ ["weight"; "size_average"; "ignore_index"; "reduce"; "reduction";
                  "label_smoothing"])
  ∧ call_function (E := sample_env) 1 (mkTorchVariable ∅ torch_nn_CrossEntropyLoss)
      [] kwargs empty_tx
    = Fatal (TypeError "normalize_args()").
Proof.
  intros kwargs.
  assert (is_Some (kwargs !! "weights")) as Hk by (eexists; reflexivity).
  assert ("weights" ∉ ["weight"; "size_average"; "ignore_index"; "reduce"; "reduction";
                       "label_smoothing"]) as Hn by by_decision.
  split_and!; [reflexivity|exact Hk|exact Hn|].
  apply (cross_entropy_loss_bad_arguments (E := sample_env) 0 ∅ [] kwargs empty_tx
           eq_refl).
  left. exists "weights". split; [exact Hk|exact Hn].
Defined.

Lemma generator_get_state_traced_witness :
  let f := Generator_method 0 "get_state" in
  config_constant_functions (Env := sample_env) f = None
  ∧ call_function (E := sample_env) 1 (mkTorchVariable ∅ f) [] ∅ empty_tx
    = let n := mkNode "call_function" (target_get_state_from_generator f) [] ∅
                 (fresh_node_id (graph empty_tx)) in
      lift (wrap_example (propagate ∅ []) (node_id n)
              (generator_get_state (Env := sample_env) 0))
        (set_graph (graph empty_tx ++ [n]) empty_tx).
Proof.
  intros f. split; [reflexivity|].
  exact (generator_get_state_traced (E := sample_env) 0 ∅ 0 empty_tx eq_refl).
Defined.

Lemma symbolic_scalar_arithmetic_unsupported_witness :
  let args := [sample_symint "s0"; sample_const (PyInt 2)] in
  torch_add ∈ [torch_add; torch_sub; torch_mul; torch_div; torch_sqrt]
  ∧ config_constant_functions (Env := sample_env) torch_add = None
  ∧ existsb isinstance_DynamicShapeVariable args = true
  ∧ forallb (λ x, isinstance_ConstantVariable x || isinstance_DynamicShapeVariable x)
      args = true
  ∧ call_function (E := sample_env) 1 (mkTorchVariable ∅ torch_add) args ∅ empty_tx
    = Unsupported (symint_msg torch_add).
Proof.
  intros args.
  assert (torch_add ∈ [torch_add; torch_sub; torch_mul; torch_div; torch_sqrt]) as Hf
    by left.
  split_and!; [exact Hf|reflexivity..|].
  exact (symbolic_scalar_arithmetic_unsupported (E := sample_env) 0 ∅ torch_add args ∅
           empty_tx Hf eq_refl eq_refl eq_refl).
Defined.

Lemma math_sqrt_of_symbolic_scalar_witness :
  let s := sample_symint "s0" in
  config_constant_functions (Env := sample_env) math_sqrt = None
  ∧ call_function (E := sample_env) 1 (mkTorchVariable ∅ math_sqrt) [s] ∅ empty_tx
    = let n := mkNode "call_function" (target_fn sym_sqrt) [ArgProxy "s0"] ∅
                 (fresh_node_id (graph empty_tx)) in
      wrap_fx_proxy (E := sample_env) n None (propagate ∅ ([s] ++ kwargs_values ∅))
        (set_graph (graph empty_tx ++ [n]) empty_tx).
Proof.
  intros s. split; [reflexivity|].
  exact (math_sqrt_of_symbolic_scalar (E := sample_env) 0 ∅ ∅ (mkProxy "s0" (Some ExSym))
           empty_tx eq_refl).
Defined.

Lemma numpy_scalars_are_unboxed_witness :
  let a := VTrack ∅ (ListVariable [sample_const (PyNumpy 1); sample_const (PyInt 2)]) in
  HAS_NUMPY (Env := sample_env) = true
  ∧ config_constant_functions (Env := sample_env) (tensortype "LongTensor") = None
  ∧ "LongTensor" ≠ "nms"
  ∧ call_function (E := sample_env) 1 (mkTorchVariable ∅ (tensortype "LongTensor")) [a]
      ∅ empty_tx
    = let n := mkNode "call_function" (target_fn (tensortype "LongTensor"))
                 [ArgList [ArgConst (PyInt 1); ArgConst (PyInt 2)]] ∅
                 (fresh_node_id (graph empty_tx)) in
      wrap_fx_proxy (E := sample_env) n None (propagate ∅ ([a] ++ kwargs_values ∅))
        (set_graph (graph empty_tx ++ [n]) empty_tx).
Proof.
  intros a.
  assert ("LongTensor" ≠ "nms") as Hname by discriminate.
  split_and!; [reflexivity|reflexivity|exact Hname|].
  exact (numpy_scalars_are_unboxed (E := sample_env) 0 ∅ "LongTensor" ∅ ∅
           [PyNumpy 1; PyInt 2] empty_tx eq_refl eq_refl Hname).
Defined.

Lemma torch_function_override_inlined_witness :
  let f := other_fn (Some "torch") "abs" in
  config_constant_functions (Env := sample_env) f = None
  ∧ "abs" ≠ "nms"
  ∧ call_function (E := sample_env) 1 (mkTorchVariable ∅ f) [sample_override] ∅ empty_tx
    = Ok (sample_override, empty_tx).
Proof.
  intros f.
  assert ("abs" ≠ "nms") as Hname by discriminate.
  split_and!; [reflexivity|exact Hname|].
  exact (torch_function_override_inlined (E := sample_env) 0 ∅ (Some "torch") "abs" ∅
           (sample_tensor "a" float32) "src" 0 "MyTensor" [] ∅ empty_tx eq_refl Hname).
Defined.

Lemma ungated_calls_are_traced_generically_witness :
  let args := [sample_const (PyInt 5)] in
  config_constant_functions (Env := sample_env) torch_arange = None
  ∧ (length args ≤ 3)%nat
  ∧ forallb is_python_constant args = true
  ∧ call_function (E := sample_env) 1 (mkTorchVariable ∅ torch_arange) args ∅ empty_tx
    = generic_fallback (E := sample_env) (mkTorchVariable ∅ torch_arange) args ∅
        (propagate ∅ (args ++ kwargs_values ∅)) empty_tx.
Proof.
  intros args.
  assert (length args ≤ 3)%nat as Hlen by (cbn; lia).
  split_and!; [reflexivity|exact Hlen|reflexivity|].
  destruct (ungated_calls_are_traced_generically (E := sample_env) 0 ∅ empty_tx) as [_ H].
  apply H; [reflexivity|exact Hlen|reflexivity].
Defined.

Lemma local_signature_mismatch_is_fatal_witness :
  config_dynamic_shapes (Env := sample_env) = false
  ∧ config_constant_functions (Env := sample_env) torch_repeat_interleave = None
  ∧ call_function (E := sample_env) 1 (mkTorchVariable ∅ torch_repeat_interleave)
      [sample_tensor "repeats" int64] ∅ empty_tx
    = Fatal (TypeError "repeat_interleave()").
Proof.
  split_and!; [reflexivity..|].
  destruct (local_signature_mismatch_is_fatal (E := sample_env) 0 ∅ empty_tx eq_refl)
    as [H _].
  apply H. reflexivity.
Defined.
Lemma out_tuple_of_another_length_witness :
  let ta := sample_tensor "a" float32 in
  let tb := sample_tensor "b" float32 in
  let r := sample_tensor "r" float32 in
  let kwargs : gmap string VT := {["out" := VTrack ∅ (TupleVariable [ta; tb])]} in
  let tx := set_symbolic_locals (λ _, {["a" := ta; "b" := tb]}) empty_tx in
  kwargs !! "out" = Some (VTrack ∅ (TupleVariable [ta; tb]))
  ∧ Forall2 (λ o n, find_symbolic_locals_name (symbolic_locals (state tx)) o = Some n)
      [ta; tb] ["a"; "b"]
  ∧ NoDup ["a"; "b"]
  ∧ rebind_out kwargs (VTrack ∅ (TupleVariable [r])) tx = Fatal IndexError.
Proof.
  intros ta tb r kwargs tx.
  assert (Forall2 (λ o n, find_symbolic_locals_name (symbolic_locals (state tx)) o
                          = Some n) [ta; tb] ["a"; "b"]) as Hfind.
  { repeat constructor; vm_compute; reflexivity. }
  assert (NoDup ["a"; "b"]) as Hnd by by_decision.
  split_and!; [reflexivity|exact Hfind|exact Hnd|].
  destruct (out_tuple_of_another_length kwargs ∅ [r] ∅ [ta; tb] ["a"; "b"] tx
              eq_refl Hfind Hnd) as [H _].
  apply H. cbn. lia.
Defined.

Lemma out_target_without_a_name_witness :
  let out := sample_tensor "y" float32 in
  let r := sample_tensor "r" float32 in
  let kwargs : gmap string VT := {["out" := out]} in
  kwargs !! "out" = Some out
  ∧ find_symbolic_locals_name (symbolic_locals (state empty_tx)) out = None
  ∧ rebind_out kwargs r empty_tx = Fatal (AssertionError "").
Proof.
  intros out r kwargs. split_and!; [reflexivity|reflexivity|].
  destruct (out_target_without_a_name kwargs out r empty_tx eq_refl) as [H _].
  apply H; reflexivity.
Defined.

Lemma speculate_branch_rolls_back_witness :
  let r := sample_speculation true in
  speculate_branch (E := sample_env) (sample_cond_args 1 2) (graph empty_tx)
    (state empty_tx) [sample_tensor "x" float32] true empty_tx
  = Ok (r, empty_tx)
  ∧ isinstance_TensorVariable (spec_output r) = true
  ∧ vt_guards (spec_output r) ⊆ spec_guards r
  ∧ ∃ p g0,
      as_proxy (spec_output r) = Some p
      ∧ spec_graph r
        = g0 ++ [mkNode "output" (target_name "output") [ArgTuple [p]] ∅
                   (fresh_node_id g0)].
Proof.
  intros r.
  assert (speculate_branch (E := sample_env) (sample_cond_args 1 2) (graph empty_tx)
            (state empty_tx) [sample_tensor "x" float32] true empty_tx
          = Ok (r, empty_tx)) as Hrun.
  { apply sample_speculation_run. }
  split; [exact Hrun|].
  destruct (speculate_branch_rolls_back (E := sample_env) _ _ _ _ _ _ _ _ Hrun)
    as (_ & Hres & _ & Hg & _ & Hout).
  split_and!; [exact Hres|exact Hg|exact Hout].
Defined.

Lemma py_operator_preconditions_witness :
  TorchPyOperator_call_function (E := sample_env) (mkTorchPyOperator "map") [] None
    empty_tx
  = Unsupported "PyOperator map"
  ∧ TorchPyOperator_call_function (E := sample_env) (mkTorchPyOperator "cond")
      [VTrack ∅ (UnspecializedPythonVariable
                   (mkTensor (mkProxy "p" None) (Some bool_) (Some "cpu") (Some []))
                   (PyBool true));
       VTrack ∅ (UserFunctionVariable 1); VTrack ∅ (UserFunctionVariable 2);
       VTrack ∅ (ListVariable [])] None empty_tx
    = Fatal (AssertionError "UnspecializedPythonVariable").
Proof.
  split.
  - destruct (py_operator_preconditions (E := sample_env) (mkTorchPyOperator "map") []
                None empty_tx) as (_ & H & _).
    apply H; [left; reflexivity|discriminate].
  - destruct (py_operator_preconditions (E := sample_env) (mkTorchPyOperator "cond")
                [VTrack ∅ (UnspecializedPythonVariable
                             (mkTensor (mkProxy "p" None) (Some bool_) (Some "cpu")
                                (Some []))
                             (PyBool true));
                 VTrack ∅ (UserFunctionVariable 1); VTrack ∅ (UserFunctionVariable 2);
                 VTrack ∅ (ListVariable [])] None empty_tx) as (_ & _ & _ & H).
    destruct (H (or_introl eq_refl) eq_refl _ _ _ _ eq_refl) as [Hpred _].
    apply Hpred. reflexivity.
Defined.



Lemma init_stores_the_remapped_operator_witness :
  let tv := mkTorchVariable ∅ remap_as_fn___radd__ in
  TorchVariable___init__ (λ _, self_None) fn___name__ _TensorBase___radd__ ∅ = inr tv
  ∧ value tv ≠ _TensorBase___radd__
  ∧ remap_lookup tensor_dunder_fns_remap (value tv) = None.
Proof.
  intros tv.
  assert (TorchVariable___init__ (λ _, self_None) fn___name__ _TensorBase___radd__ ∅
          = inr tv) as Hinit by reflexivity.
  destruct (init_stores_the_remapped_operator _ _ _ _ _ Hinit) as (_ & _ & Hkey & Hin).
  split_and!; [exact Hinit| |exact Hkey].
  apply Hin. left.
Defined.

Lemma init_accepts_torch_and_math_modules_witness :
  let f := other_fn (Some "torch.nn.functional") "avg_pool2d" in
  let attr___self__ (_ : TorchFn) := self_ModuleType "torch.nn.functional" in
  attr___self__ (default f (remap_lookup tensor_dunder_fns_remap f))
    = self_ModuleType "torch.nn.functional"
  ∧ ∃ tv, TorchVariable___init__ attr___self__ fn___name__ f ∅ = inr tv.
Proof.
  intros f attr___self__. split; [reflexivity|].
  destruct (init_accepts_torch_and_math_modules attr___self__ fn___name__ f ∅
              "torch.nn.functional" eq_refl) as [H _].
  apply H. exists "torch". split; [left; reflexivity|].
  right. right. exists "nn.functional". reflexivity.
Defined.

Lemma unique_var_name_is_not_injective_witness :
  let torch_get_name (f : TorchFn) (_ : string) := fn___name__ f in
  let id (_ : TorchFn) := 0 in
  let self := mkTorchVariable ∅ (other_fn None "a.b") in
  let self' := mkTorchVariable ∅ (other_fn None "a-b") in
  value self ≠ value self'
  ∧ is_identifier_char (Ascii.ascii_of_nat 46) = false
  ∧ is_identifier_char (Ascii.ascii_of_nat 45) = false
  ∧ unique_var_name torch_get_name id self = "__a_b"
  ∧ unique_var_name torch_get_name id self = unique_var_name torch_get_name id self'.
Proof.
  intros torch_get_name id self self'.
  split_and!; [discriminate|reflexivity|reflexivity|reflexivity|].
  apply (unique_var_name_is_not_injective torch_get_name id self self' "a"
           (Ascii.ascii_of_nat 46) (Ascii.ascii_of_nat 45) "b");
    reflexivity.
Defined.
